(** * docu-query ingestion service: scheduler and worker

    A shallow embedding of [apps/ingestion-service/src]:
    [models.py] (the two tables), [config.py] (the settings the jobs read),
    [scheduler.py] ([enqueue_pending]) and [worker.py] ([download_from_s3],
    [is_scanned_pdf], [extract_text_from_pdf], [ocr_image],
    [process_document]).

    Conventions of the embedding.
    - A Python [str] is a [string]; each character is a code point below 256.
      [bytes] are lists of [byte].
    - A Python exception is a value of [exn]; code that may raise lives in the
      monad [Py], which threads the machine state (database tables, object
      store, Redis list), collects the externally visible calls of a run and
      ends either in a value or in a raised exception.
    - Everything a job observes of the outside (hashlib, pdfplumber, the Tika
      and PaddleOCR services, the tesseract subprocess, faults of S3 and
      Redis, uuid4, the database clock, the Prometheus client) is a field of
      [Externals].
    - The database is reachable, and the values a job hands to it are
      taken to be values PostgreSQL stores; [db.execute] and [db.commit]
      then do not raise, and [retry_count] is an unbounded integer. A text
      that holds NUL, a counter beyond 32 bits or a chunk id that is taken
      make the real statement fail and, the handler of lines 227-237 running
      on the same session without a rollback, [process_document] raise, the
      tables being left as the last commit wrote them. A property that needs a statement to be accepted
      says so in a hypothesis ([Pg.text], [storable]).
    - A table is the list of its rows. [select_pending] reads the list as
      the order in which the scan yields the rows when the query runs.
      PostgreSQL keeps no such order across an UPDATE or an INSERT: an
      update leaves the row at its place in the list and an insert puts it
      last, and a property about rows that were written does not rely on
      their place unless it compares the lists themselves.
    - A UUID (the columns are [UUID(as_uuid=True)]) is kept as the string that
      [str] prints for it ([Uuid.canonical]), and rows are found by
      comparing strings. PostgreSQL compares UUIDs: a payload that spells a
      stored id otherwise (in upper case, say) finds the row all the same,
      and one that spells no UUID makes the query fail. Payloads carry the
      spelling of [str], as [str(doc.doc_id)] in scheduler.py writes it;
      [uuid.UUID(doc_id)] at line 206 of worker.py then leaves the string as
      it is. A property about documents that a job does not find, or does
      not touch, states that spelling as a hypothesis.
    - [except Exception] catches every value of [exn]; interrupts of the
      interpreter are outside the model.
    - The functions are modelled as called. The statements at module level
      (the clients, [setting] for [settings] at line 22 of worker.py and
      line 9 of scheduler.py) and the loops under [__main__] (worker.py
      reads a Redis client [r] it does not define) are not embedded. *)

From Stdlib Require Import ZArith Ascii String List Bool Lia.
From stdpp Require Import base option list gmap strings.

Local Open Scope Z_scope.

(** ** Python strings *)

Module PyStr.

(** [str.isspace] on the code points below 256: TAB..CR, FS..US, SPACE,
    NEL and NBSP. *)
Definition isspace (c : ascii) : bool :=
  let n := nat_of_ascii c in
  ((9 <=? n) && (n <=? 13) || (28 <=? n) && (n <=? 32)
   || (n =? 133) || (n =? 160))%nat.

Fixpoint lstrip (s : string) : string :=
  match s with
  | EmptyString => EmptyString
  | String c s' => if isspace c then lstrip s' else s
  end.

Definition rstrip (s : string) : string :=
  String.rev (lstrip (String.rev s)).

(** [s.strip()] *)
Definition strip (s : string) : string := rstrip (lstrip s).

(** Truth value of a [str]: non-empty. *)
Definition truthy (s : string) : bool :=
  match s with EmptyString => false | String _ _ => true end.

(** [len(s)] *)
Definition len (s : string) : Z := Z.of_nat (String.length s).

(** Some character of [s] is not white space. *)
Fixpoint has_nonspace (s : string) : bool :=
  match s with
  | EmptyString => false
  | String c s' => negb (isspace c) || has_nonspace s'
  end.

(** [s.replace(old, "")] for a non-empty [old]: occurrences are removed
    left to right, without overlap. [skip] counts the characters of the
    occurrence being removed that are still ahead. *)
Fixpoint remove_go (old : string) (skip : nat) (s : string) : string :=
  match s with
  | EmptyString => EmptyString
  | String c s' =>
      match skip with
      | S k => remove_go old k s'
      | O =>
          if String.prefix old s
          then remove_go old (String.length old - 1) s'
          else String c (remove_go old O s')
      end
  end.

Definition remove_all (old s : string) : string := remove_go old O s.

(** [s.split(sep, 1)] for a one-character [sep]: the part before the first
    [sep] and, when there is one, the part after it. *)
Fixpoint split_once (sep : ascii) (s : string) : string * option string :=
  match s with
  | EmptyString => (EmptyString, None)
  | String c s' =>
      if Ascii.eqb c sep then (EmptyString, Some s')
      else let '(hd, tl) := split_once sep s' in (String c hd, tl)
  end.

End PyStr.

(** ** Values of the database *)

(** What PostgreSQL stores in the columns the jobs write. *)
Module Pg.

(** A [Text] value holds no NUL character. *)
Fixpoint text (s : string) : bool :=
  match s with
  | EmptyString => true
  | String c s' => negb (Ascii.eqb c Ascii.zero) && text s'
  end.

(** An [Integer] value has 32 bits. *)
Definition int4 (n : Z) : bool := (- 2147483648 <=? n) && (n <=? 2147483647).

End Pg.

(** The spelling [str] gives a [uuid.UUID]: groups of 8, 4, 4, 4 and 12
    hexadecimal digits in lower case, with hyphens between them. *)
Module Uuid.

Definition is_hex (c : ascii) : bool :=
  let n := nat_of_ascii c in
  ((48 <=? n) && (n <=? 57) || (97 <=? n) && (n <=? 102))%nat.

(** [s] without its first [n] characters, when these are hexadecimal
    digits. *)
Fixpoint hex_run (n : nat) (s : string) : option string :=
  match n with
  | O => Some s
  | S n' =>
      match s with
      | String c s' => if is_hex c then hex_run n' s' else None
      | EmptyString => None
      end
  end.

Fixpoint groups (sizes : list nat) (s : string) : bool :=
  match sizes with
  | [] => false
  | [n] =>
      match hex_run n s with
      | Some EmptyString => true
      | _ => false
      end
  | n :: rest =>
      match hex_run n s with
      | Some (String "-" s') => groups rest s'
      | _ => false
      end
  end.

Definition canonical (s : string) : bool :=
  groups [8; 4; 4; 4; 12]%nat s.

End Uuid.

(** ** Exceptions and the job monad *)

(** A raised exception: its class name and [str(e)]. *)
Inductive exn : Type := Exception (cls : string) (msg : string).

Definition str_exn (e : exn) : string :=
  match e with Exception _ msg => msg end.

Definition bytes : Type := list Byte.byte.

(** ** models.py *)

Record RawDocument : Type := mkRawDocument {
  doc_id : string;
  source_uri : string;
  file_hash : string;
  file_size : Z;
  file_type : string;
  last_modified : Z;
  ingest_ts : Z;
  parse_status : string;
  retry_count : Z;
  error_message : option string
}.

Record RawChunk : Type := mkRawChunk {
  chunk_id : string;
  chunk_doc_id : string;
  page_number : option Z;
  start_token : option Z;
  end_token : option Z;
  chunk_text : string;
  chunk_ingest_ts : Z
}.

(** ** config.py *)

Record Settings : Type := mkSettings {
  S3_BUCKET : string;
  S3_QUARANTINE_BUCKET : string;
  MAX_RETRIES : Z;
  SENTRY_DSN : option string
}.

Definition settings : Settings :=
  {| S3_BUCKET := "app-uploads";
     S3_QUARANTINE_BUCKET := "app-quarantine";
     MAX_RETRIES := 3;
     SENTRY_DSN := None |}.

(** ** The outside of a job *)

(** The calls of a run that leave the process, and the status writes it
    commits. *)
Inductive Event : Type :=
  | CallPdfplumber                      (* pdfplumber.open(...) *)
  | CallTika                            (* requests.put(TIKA_SERVER_URL/tika) *)
  | CallPaddleOCR                       (* requests.post(PADDLE_OCR_URL) *)
  | CallTesseract                       (* subprocess.run([TESSERACT_CMD, ...]) *)
  | S3GetObject (bucket key : string)
  | S3CopyObject (src_bucket src_key dst_bucket dst_key : string)
  | SentryCapture (e : exn)
  | StatusCommitted (doc : string) (status : string)
  | MetricsInc (label : string).

Record Externals : Type := mkExternals {
  (** [hashlib.sha256(data).hexdigest()] *)
  sha256_hexdigest : bytes -> string;
  (** [pdfplumber.open] raises, or gives the pages; [extract_text] of a page
      raises, or gives a text or [None]. *)
  pdfplumber_open : bytes -> exn + list (exn + option string);
  (** [requests.put] to Tika raises, or answers [(status_code, text)]. *)
  tika_put : bytes -> exn + (Z * string);
  (** [requests.post] to PaddleOCR raises, or answers a status code and a
      body; [resp.json()] raises, or is an object whose ["text"] entry is
      absent ([None]) or a string. *)
  paddle_post : bytes -> exn + (Z * (exn + option string));
  (** Writing the temporary image and running tesseract raises, or gives the
      standard output of the process. *)
  tesseract_run : bytes -> exn + string;
  (** A fault of the object store at [get_object], at [copy_object]. *)
  get_object_fault : option exn;
  copy_object_fault : option exn;
  (** A fault of Redis at the [i]-th [rpush] of a scheduler run. *)
  rpush_fault : nat -> option exn;
  (** The [uuid.uuid4()] drawn for the chunk, and the database's [NOW()]. *)
  uuid4 : string;
  now : Z;
  (** [PARSE_SUCCESS.labels(file_type=...)]: raises or gives the child
      counter. (The counter is built without label names in worker.py.) *)
  metrics_labels : string -> option exn
}.

Record Machine : Type := mkMachine {
  raw_documents : list RawDocument;
  raw_chunks : list RawChunk;
  (** objects of the store, by bucket and key *)
  s3_objects : gmap (string * string) bytes;
  (** the Redis list [REDIS_QUEUE_NAME], leftmost element first *)
  redis_queue : list (gmap string string)
}.

(** A computation: from a machine to the machine it leaves, the events it
    emitted, and either the exception it raised or its value. *)
Definition Py (A : Type) : Type := Machine -> Machine * list Event * (exn + A).

Definition ret {A} (a : A) : Py A := fun m => (m, [], inr a).

Definition raise {A} (e : exn) : Py A := fun m => (m, [], inl e).

Definition bind {A B} (c : Py A) (k : A -> Py B) : Py B :=
  fun m =>
    match c m with
    | (m1, ev1, inl e) => (m1, ev1, inl e)
    | (m1, ev1, inr a) =>
        let '(m2, ev2, r) := k a m1 in (m2, ev1 ++ ev2, r)
    end.

(** [try: c  except Exception as e: h e] *)
Definition try_except {A} (c : Py A) (h : exn -> Py A) : Py A :=
  fun m =>
    match c m with
    | (m1, ev1, inl e) =>
        let '(m2, ev2, r) := h e m1 in (m2, ev1 ++ ev2, r)
    | (m1, ev1, inr a) => (m1, ev1, inr a)
    end.

Definition emit (ev : Event) : Py unit := fun m => (m, [ev], inr tt).

Definition get_machine : Py Machine := fun m => (m, [], inr m).

Definition put_machine (m' : Machine) : Py unit := fun _ => (m', [], inr tt).

(** An external call whose outcome the environment fixes. *)
Definition call {A} (ev : Event) (outcome : exn + A) : Py A :=
  fun m => (m, [ev], outcome).

Notation "'do' x <- c1 ; c2" := (bind c1 (fun x => c2))
  (at level 10, x name, c1 at level 100, c2 at level 200).
Notation "'run' c1 ; c2" := (bind c1 (fun _ => c2))
  (at level 10, c1 at level 100, c2 at level 200).

(** A pure step that may raise. *)
Definition of_result {A} (r : exn + A) : Py A := fun m => (m, [], r).

(** ** worker.py: the extraction helpers *)

Definition NL : string := String (ascii_of_nat 10) EmptyString.

(** [x or ""] for [x] a [str] or [None]. *)
Definition or_empty (x : option string) : string :=
  match x with Some s => s | None => EmptyString end.

(** [recompute_sha256] *)
Definition recompute_sha256 (ext : Externals) (data : bytes) : string :=
  sha256_hexdigest ext data.

(** [is_scanned_pdf]: no text on the first page, or any exception. *)
Definition is_scanned_pdf (ext : Externals) (data : bytes) : Py bool :=
  try_except
    (do pages <- call CallPdfplumber (pdfplumber_open ext data);
     match pages with
     | [] => raise (Exception "IndexError" "list index out of range")
     | first_page :: _ =>
         do page_text <- of_result first_page;
         let text := or_empty page_text in
         ret (PyStr.len (PyStr.strip text) =? 0)
     end)
    (fun _ => ret true).

(** The loop of lines 75-77: [text += (page.extract_text() or "") + "\n"]. *)
Fixpoint pages_text (pages : list (exn + option string)) (text : string)
  : exn + string :=
  match pages with
  | [] => inr text
  | inl e :: _ => inl e
  | inr page_text :: rest => pages_text rest (text +:+ or_empty page_text +:+ NL)
  end.

(** [extract_text_from_pdf]: pdfplumber, then Tika over REST. A [return]
    inside a [try] block is the [Some] the block yields. *)
Definition extract_text_from_pdf (ext : Externals) (data : bytes) : Py string :=
  do local <-
    try_except
      (do pages <- call CallPdfplumber (pdfplumber_open ext data);
       do text <- of_result (pages_text pages EmptyString);
       if PyStr.truthy (PyStr.strip text) then ret (Some text) else ret None)
      (fun _ => ret None);
  match local with
  | Some text => ret text
  | None =>
      do remote <-
        try_except
          (do resp <- call CallTika (tika_put ext data);
           let '(status_code, resp_text) := resp in
           if (status_code =? 200) && PyStr.truthy (PyStr.strip resp_text)
           then ret (Some resp_text) else ret None)
          (fun _ => ret None);
      match remote with
      | Some text => ret text
      | None => ret EmptyString
      end
  end.

(** [ocr_image]: PaddleOCR over REST, then the local tesseract. *)
Definition ocr_image (ext : Externals) (data : bytes) : Py string :=
  do remote <-
    try_except
      (do resp <- call CallPaddleOCR (paddle_post ext data);
       let '(status_code, body) := resp in
       if status_code =? 200 then
         do json <- of_result body;
         if PyStr.truthy (or_empty json) then ret (Some (or_empty json))
         else ret None
       else ret None)
      (fun _ => ret None);
  match remote with
  | Some text => ret text
  | None =>
      try_except
        (call CallTesseract (tesseract_run ext data))
        (fun _ => ret EmptyString)
  end.

(** ** The object store *)

Definition set_s3_objects (o : gmap (string * string) bytes) (m : Machine)
  : Machine :=
  {| raw_documents := raw_documents m; raw_chunks := raw_chunks m;
     s3_objects := o; redis_queue := redis_queue m |}.

Definition NoSuchKey (op : string) : exn :=
  Exception "ClientError"
    ("An error occurred (NoSuchKey) when calling the " +:+ op +:+
     " operation: The specified key does not exist.").

(** [s3.get_object(Bucket=bucket, Key=key)["Body"].read()] *)
Definition s3_get_object (ext : Externals) (bucket key : string) : Py bytes :=
  fun m =>
    (m, [S3GetObject bucket key],
     match get_object_fault ext with
     | Some e => inl e
     | None =>
         match s3_objects m !! (bucket, key) with
         | Some data => inr data
         | None => inl (NoSuchKey "GetObject")
         end
     end).

(** [s3.copy_object(Bucket=dst_bucket, CopySource={"Bucket": src_bucket,
    "Key": src_key}, Key=dst_key)] *)
Definition s3_copy_object (ext : Externals)
    (src_bucket src_key dst_bucket dst_key : string) : Py unit :=
  fun m =>
    let ev := [S3CopyObject src_bucket src_key dst_bucket dst_key] in
    match copy_object_fault ext with
    | Some e => (m, ev, inl e)
    | None =>
        match s3_objects m !! (src_bucket, src_key) with
        | Some data =>
            (set_s3_objects (<[(dst_bucket, dst_key) := data]> (s3_objects m)) m,
             ev, inr tt)
        | None => (m, ev, inl (NoSuchKey "CopyObject"))
        end
    end.

(** [download_from_s3]: [parts = s3_uri.replace("s3://", "").split("/", 1)],
    then [parts[0]] and [parts[1]]. *)
Definition download_from_s3 (ext : Externals) (s3_uri : string) : Py bytes :=
  match PyStr.split_once "/"%char (PyStr.remove_all "s3://" s3_uri) with
  | (bucket, Some key) => s3_get_object ext bucket key
  | (_, None) => raise (Exception "IndexError" "list index out of range")
  end.

(** ** The database session *)

Definition set_raw_documents (docs : list RawDocument) (m : Machine) : Machine :=
  {| raw_documents := docs; raw_chunks := raw_chunks m;
     s3_objects := s3_objects m; redis_queue := redis_queue m |}.

Definition set_raw_chunks (chunks : list RawChunk) (m : Machine) : Machine :=
  {| raw_documents := raw_documents m; raw_chunks := chunks;
     s3_objects := s3_objects m; redis_queue := redis_queue m |}.

Definition set_file_type (ft : string) (d : RawDocument) : RawDocument :=
  mkRawDocument (doc_id d) (source_uri d) (file_hash d) (file_size d) ft
    (last_modified d) (ingest_ts d) (parse_status d) (retry_count d)
    (error_message d).

Definition set_parse_status (st : string) (d : RawDocument) : RawDocument :=
  mkRawDocument (doc_id d) (source_uri d) (file_hash d) (file_size d)
    (file_type d) (last_modified d) (ingest_ts d) st (retry_count d)
    (error_message d).

Definition set_retry_count (n : Z) (d : RawDocument) : RawDocument :=
  mkRawDocument (doc_id d) (source_uri d) (file_hash d) (file_size d)
    (file_type d) (last_modified d) (ingest_ts d) (parse_status d) n
    (error_message d).

Definition set_error_message (e : option string) (d : RawDocument)
  : RawDocument :=
  mkRawDocument (doc_id d) (source_uri d) (file_hash d) (file_size d)
    (file_type d) (last_modified d) (ingest_ts d) (parse_status d)
    (retry_count d) e.

(** [UPDATE raw_documents SET ... WHERE doc_id = id]. The row stays at its
    place in the list. *)
Definition update_where (id : string) (values : RawDocument -> RawDocument)
    (docs : list RawDocument) : list RawDocument :=
  map (fun d => if decide (doc_id d = id) then values d else d) docs.

(** [db.query(RawDocument).filter(RawDocument.doc_id == id).one()], for
    an [id] in the spelling of [str]. *)
Definition query_one (id : string) : Py RawDocument :=
  fun m =>
    match filter (fun d => doc_id d = id) (raw_documents m) with
    | [doc_row] => (m, [], inr doc_row)
    | [] =>
        (m, [], inl (Exception "NoResultFound"
                       "No row was found when one was required"))
    | _ :: _ :: _ =>
        (m, [], inl (Exception "MultipleResultsFound"
                       "Multiple rows were found when exactly one was required"))
    end.

(** [db.execute(update(RawDocument).where(RawDocument.doc_id == id)
      .values(parse_status=st, error_message=err)); db.commit()] *)
Definition update_status_error (id st : string) (err : option string)
  : Py unit :=
  fun m =>
    (set_raw_documents
       (update_where id (fun d => set_error_message err (set_parse_status st d))
          (raw_documents m)) m,
     [StatusCommitted id st], inr tt).

(** [db.execute(update(RawDocument).where(RawDocument.doc_id == id)
      .values(retry_count=n, parse_status=st)); db.commit()] *)
Definition update_retry_status (id : string) (n : Z) (st : string) : Py unit :=
  fun m =>
    (set_raw_documents
       (update_where id (fun d => set_parse_status st (set_retry_count n d))
          (raw_documents m)) m,
     [StatusCommitted id st], inr tt).

(** [doc_row.file_type = ft; db.add(doc_row); db.commit()]: the unit of work
    writes the changed column of the row with [doc_row]'s primary key. *)
Definition update_file_type (id ft : string) : Py unit :=
  fun m =>
    (set_raw_documents (update_where id (set_file_type ft) (raw_documents m)) m,
     [], inr tt).

(** [db.add(chunk)]; the row is flushed by the [db.execute] that follows and
    committed with it. The INSERT is taken to be accepted: the text holds no
    NUL and the id is free ([storable]). *)
Definition add_chunk (chunk : RawChunk) : Py unit :=
  fun m => (set_raw_chunks (raw_chunks m ++ [chunk]) m, [], inr tt).

(** ** The retry policy *)

Module RetryPolicy.

Inductive Decision : Type := Accept | Retry | Quarantine.

(** Minimum length of an accepted extraction (line 176). *)
Definition MIN_CONTENT_LENGTH : Z := 50.

(** The branches of lines 176-187 of worker.py:
    [if not extracted_text.strip() or len(extracted_text) < 50:]
    [  new_retry = doc_row.retry_count + 1]
    [  if new_retry < settings.MAX_RETRIES: ... else: ...] *)
Definition decide (extracted_text : string) (retry_count max_retries : Z)
  : Decision :=
  if negb (PyStr.truthy (PyStr.strip extracted_text))
     || (PyStr.len extracted_text <? MIN_CONTENT_LENGTH)
  then
    let new_retry := retry_count + 1 in
    if new_retry <? max_retries then Retry else Quarantine
  else Accept.

End RetryPolicy.

(** ** worker.py: process_document *)

(** [PARSE_SUCCESS.labels(file_type=label).inc()] *)
Definition parse_success_inc (ext : Externals) (label : string) : Py unit :=
  call (MetricsInc label)
    (match metrics_labels ext label with
     | Some e => inl e
     | None => inr tt
     end).

(** Lines 145-151 and 188-194: the copy into the quarantine bucket. *)
Definition quarantine (ext : Externals) (cfg : Settings) (doc_id : string)
  : Py unit :=
  let quarantine_key := doc_id +:+ ".pdf" in
  s3_copy_object ext (S3_BUCKET cfg) quarantine_key
    (S3_QUARANTINE_BUCKET cfg) quarantine_key.

(** Lines 160-166: a pdf with no text on its first page becomes [scanned],
    in the row and in [doc_row]. The result is [is_scanned] and [doc_row]. *)
Definition classify (ext : Externals) (doc_row : RawDocument) (data : bytes)
  : Py (bool * RawDocument) :=
  if String.eqb (file_type doc_row) "pdf" then
    do is_scanned <- is_scanned_pdf ext data;
    if is_scanned : bool then
      run update_file_type (doc_id doc_row) "scanned";
      ret (true, set_file_type "scanned" doc_row)
    else ret (false, doc_row)
  else ret (false, doc_row).

(** The body of the [try] block, lines 141-225. *)
Definition process_document_body (ext : Externals) (cfg : Settings)
    (doc_id : string) : Py unit :=
  do doc_row <- query_one doc_id;
  do data <- download_from_s3 ext (source_uri doc_row);
  if negb (String.eqb (recompute_sha256 ext data) (file_hash doc_row)) then
    run quarantine ext cfg doc_id;
    update_status_error doc_id "failed" (Some "Hash mismatch")
  else
    do cls <- classify ext doc_row data;
    let '(is_scanned, doc_row) := cls in
    do extracted_text <-
      (if String.eqb (file_type doc_row) "pdf"
       then extract_text_from_pdf ext data
       else ocr_image ext data);
    match RetryPolicy.decide extracted_text (retry_count doc_row)
            (MAX_RETRIES cfg) with
    | RetryPolicy.Retry =>
        update_retry_status doc_id (retry_count doc_row + 1) "pending"
    | RetryPolicy.Quarantine =>
        run quarantine ext cfg doc_id;
        update_status_error doc_id "failed"
          (Some "Extraction failed after retries")
    | RetryPolicy.Accept =>
        run add_chunk
          {| chunk_id := uuid4 ext; chunk_doc_id := doc_id;
             page_number := None; start_token := None; end_token := None;
             chunk_text := extracted_text; chunk_ingest_ts := now ext |};
        run update_status_error doc_id "success" None;
        let file_type := if is_scanned : bool then "scanned" else "pdf" in
        parse_success_inc ext file_type
    end.

(** Lines 227-237: the handler of the [try] block. *)
Definition process_document_handler (cfg : Settings) (doc_id : string)
    (e : exn) : Py unit :=
  run (if PyStr.truthy (or_empty (SENTRY_DSN cfg))
       then emit (SentryCapture e) else ret tt);
  update_status_error doc_id "failed" (Some (str_exn e)).

(** [process_document(payload)]; [payload] is the dict read from the queue. *)
Definition process_document (ext : Externals) (cfg : Settings)
    (payload : gmap string string) : Py unit :=
  match payload !! "doc_id" with
  | None => raise (Exception "KeyError" "'doc_id'")
  | Some doc_id =>
      try_except (process_document_body ext cfg doc_id)
        (process_document_handler cfg doc_id)
  end.

(** ** scheduler.py *)

Definition BATCH_SIZE : nat := 50.

Definition set_redis_queue (q : list (gmap string string)) (m : Machine)
  : Machine :=
  {| raw_documents := raw_documents m; raw_chunks := raw_chunks m;
     s3_objects := s3_objects m; redis_queue := q |}.

(** [r.rpush(settings.REDIS_QUEUE_NAME, json.dumps(payload))], the [i]-th of
    the run. *)
Definition rpush (ext : Externals) (i : nat) (payload : gmap string string)
  : Py unit :=
  fun m =>
    match rpush_fault ext i with
    | Some e => (m, [], inl e)
    | None => (set_redis_queue (redis_queue m ++ [payload]) m, [], inr tt)
    end.

(** Lines 25-30. *)
Definition job_payload (doc : RawDocument) : gmap string string :=
  <["doc_id" := doc_id doc]>
    (<["source_uri" := source_uri doc]>
       (<["file_type" := file_type doc]>
          (<["file_hash" := file_hash doc]> ∅))).

(** The loop of lines 24-31, from the [i]-th publish on. *)
Fixpoint publish_from (ext : Externals) (i : nat) (docs : list RawDocument)
  : Py unit :=
  match docs with
  | [] => ret tt
  | doc :: rest =>
      run rpush ext i (job_payload doc);
      publish_from ext (S i) rest
  end.

(** [select(RawDocument).where(RawDocument.parse_status == "pending")
      .limit(BATCH_SIZE)]: no ORDER BY, the rows come in scan order. *)
Definition select_pending (docs : list RawDocument) : list RawDocument :=
  take BATCH_SIZE (filter (fun d => parse_status d = "pending") docs).

(** Line 33 is [doc.ids = [...]]: it stores the list of ids in the attribute
    [ids] of [doc], the last document of the loop, and binds no name.
    Line 36 reads [doc_ids], which is neither a local nor a global of
    scheduler.py: Python raises [NameError]. *)
Definition read_doc_ids (ids_attribute : list string) : Py (list string) :=
  raise (Exception "NameError" "name 'doc_ids' is not defined").

(** [db.execute(update(RawDocument).where(RawDocument.doc_id.in_(doc_ids))
      .values(parse_status="queued")); db.commit()] *)
Definition update_status_in (doc_ids : list string) (st : string) : Py unit :=
  fun m =>
    (set_raw_documents
       (map (fun d => if bool_decide (doc_id d ∈ doc_ids)
                      then set_parse_status st d else d)
          (raw_documents m)) m,
     map (fun id => StatusCommitted id st) doc_ids, inr tt).

(** [enqueue_pending()] *)
Definition enqueue_pending (ext : Externals) : Py unit :=
  do m <- get_machine;
  let pending_docs := select_pending (raw_documents m) in
  match pending_docs with
  | [] => ret tt
  | _ :: _ =>
      run publish_from ext 0 pending_docs;
      do doc_ids <- read_doc_ids (map doc_id pending_docs);
      update_status_in doc_ids "queued"
  end.

(** ** Reading a run *)

Definition final {A} (x : Machine * list Event * (exn + A)) : Machine := x.1.1.
Definition events {A} (x : Machine * list Event * (exn + A)) : list Event :=
  x.1.2.
Definition outcome {A} (x : Machine * list Event * (exn + A)) : exn + A := x.2.

(** The rows of a document, the chunks of a document. *)
Definition rows_of (d : string) (m : Machine) : list RawDocument :=
  filter (fun r => doc_id r = d) (raw_documents m).

Definition chunks_of (d : string) (m : Machine) : list RawChunk :=
  filter (fun c => chunk_doc_id c = d) (raw_chunks m).

(** The machine in which the stored status of document [d] is [st]. *)
Definition with_status (d st : string) (m : Machine) : Machine :=
  set_raw_documents (update_where d (set_parse_status st) (raw_documents m)) m.

(** The queue delivers at least once: [deliveries] is the job of one
    document handed to [process_document] once per element of [exts], each
    delivery with its own outside, as the loop of lines 245-256 is meant to
    do for each payload it pops. *)
Fixpoint deliveries (cfg : Settings) (payload : gmap string string)
    (exts : list Externals) : Py unit :=
  match exts with
  | [] => ret tt
  | ext :: rest =>
      run process_document ext cfg payload;
      deliveries cfg payload rest
  end.

(** ** The extraction chains, as the specification words them

    The text chain yields the local text when it holds a character that is not
    white space, and otherwise what the remote conversion answers; the OCR
    chain yields the remote OCR text when there is one, and otherwise the
    output of the local OCR. An error of a backend counts as no output. *)
Module Spec.

Definition local_text (ext : Externals) (data : bytes) : option string :=
  match pdfplumber_open ext data with
  | inr pages =>
      match pages_text pages EmptyString with
      | inr text => if PyStr.has_nonspace text then Some text else None
      | inl _ => None
      end
  | inl _ => None
  end.

Definition remote_text (ext : Externals) (data : bytes) : string :=
  match tika_put ext data with
  | inr (status_code, text) =>
      if (status_code =? 200) && PyStr.has_nonspace text
      then text else EmptyString
  | inl _ => EmptyString
  end.

Definition remote_ocr_text (ext : Externals) (data : bytes) : option string :=
  match paddle_post ext data with
  | inr (status_code, inr (Some text)) =>
      if (status_code =? 200) && PyStr.truthy text then Some text else None
  | _ => None
  end.

Definition local_ocr_text (ext : Externals) (data : bytes) : string :=
  match tesseract_run ext data with
  | inr out => out
  | inl _ => EmptyString
  end.

Definition text_chain (ext : Externals) (data : bytes) : list Event * string :=
  match local_text ext data with
  | Some text => ([CallPdfplumber], text)
  | None => ([CallPdfplumber; CallTika], remote_text ext data)
  end.

Definition ocr_chain (ext : Externals) (data : bytes) : list Event * string :=
  match remote_ocr_text ext data with
  | Some text => ([CallPaddleOCR], text)
  | None => ([CallPaddleOCR; CallTesseract], local_ocr_text ext data)
  end.

(** The retry policy: accept a text that is not blank and has at least
    [RetryPolicy.MIN_CONTENT_LENGTH] characters. *)
Definition decide (extracted_text : string) (retry_count max_retries : Z)
  : RetryPolicy.Decision :=
  if PyStr.has_nonspace extracted_text
     && (RetryPolicy.MIN_CONTENT_LENGTH <=? PyStr.len extracted_text)
  then RetryPolicy.Accept
  else if retry_count + 1 <? max_retries then RetryPolicy.Retry
  else RetryPolicy.Quarantine.

End Spec.

(** ** What the helpers of a job compute *)

(** The request [download_from_s3] sends for a URI and what it gives on a
    store holding [objects]. *)
Definition download_events (s3_uri : string) : list Event :=
  match PyStr.split_once "/"%char (PyStr.remove_all "s3://" s3_uri) with
  | (bucket, Some key) => [S3GetObject bucket key]
  | (_, None) => []
  end.

Definition download_result (ext : Externals) (s3_uri : string)
    (objects : gmap (string * string) bytes) : exn + bytes :=
  match PyStr.split_once "/"%char (PyStr.remove_all "s3://" s3_uri) with
  | (bucket, Some key) =>
      match get_object_fault ext with
      | Some e => inl e
      | None =>
          match objects !! (bucket, key) with
          | Some data => inr data
          | None => inl (NoSuchKey "GetObject")
          end
      end
  | (_, None) => inl (Exception "IndexError" "list index out of range")
  end.

(** The value of [is_scanned_pdf]. *)
Definition scanned_value (ext : Externals) (data : bytes) : bool :=
  match pdfplumber_open ext data with
  | inr (inr page_text :: _) => negb (PyStr.has_nonspace (or_empty page_text))
  | _ => true
  end.

(** The text a job extracts for [doc_row] from [data]: a pdf on whose first
    page the classification finds text goes through the text chain, every
    other document through the OCR chain (lines 160-173). *)
Definition job_text (ext : Externals) (doc_row : RawDocument) (data : bytes)
  : string :=
  if String.eqb (file_type doc_row) "pdf" && negb (scanned_value ext data)
  then (Spec.text_chain ext data).2
  else (Spec.ocr_chain ext data).2.

(** The statuses a run commits for document [d], in the order of the
    writes. *)
Fixpoint status_writes (d : string) (evs : list Event) : list string :=
  match evs with
  | [] => []
  | StatusCommitted d' st :: rest =>
      if bool_decide (d' = d) then st :: status_writes d rest
      else status_writes d rest
  | _ :: rest => status_writes d rest
  end.

(** The status writes of a run that set document [d] to [success]. *)
Definition is_success_write (d : string) (ev : Event) : bool :=
  match ev with
  | StatusCommitted d' st => bool_decide (d' = d) && bool_decide (st = "success")
  | _ => false
  end.

Definition success_writes (d : string) (evs : list Event) : nat :=
  length (List.filter (is_success_write d) evs).

(** The calls of a run to an extraction backend. *)
Definition is_backend_call (ev : Event) : bool :=
  match ev with
  | CallPdfplumber | CallTika | CallPaddleOCR | CallTesseract => true
  | _ => false
  end.

(** The copies of a run into the object store. *)
Definition is_copy (ev : Event) : bool :=
  match ev with
  | S3CopyObject _ _ _ _ => true
  | _ => false
  end.

(** What the run [r] of the job of [d], started on [m], leaves in the
    tables is what PostgreSQL stores: the retry count of the document has 32
    bits, its error message and the text of every chunk added hold no NUL,
    and the id of a chunk added was not taken. When a value is not of this
    kind the real statement fails, and the handler of lines 227-237, which
    runs on the same session without a rollback, raises in its turn. *)
Definition storable (d : string) (m : Machine)
    (r : Machine * list Event * (exn + unit)) : Prop :=
  Forall (fun row =>
            Pg.int4 (retry_count row) = true
            /\ Pg.text (or_empty (error_message row)) = true)
    (rows_of d (final r))
  /\ Forall (fun chunk =>
               Pg.text (chunk_text chunk) = true
               /\ chunk_id chunk ∉ map chunk_id (raw_chunks m))
       (drop (length (raw_chunks m)) (raw_chunks (final r))).


(** ** Concrete machines and outsides *)

Module Fixture.

(** Three document ids, as [str(uuid)] prints them. *)
Definition id1 : string := "6f1c2a9e-3b4d-4c5e-8f70-1a2b3c4d5e6f".
Definition id2 : string := "0a1b2c3d-4e5f-4a6b-9c7d-8e9f0a1b2c3d".
Definition id3 : string := "7d3e8b1a-9c2f-4d6e-a5b4-c3d2e1f0a9b8".

(** A stand-in for SHA-256, enough to tell the empty file from the others. *)
Definition digest (data : bytes) : string :=
  match data with
  | [] => "e3b0c442"
  | _ :: _ => "9f86d081"
  end.

(** What [PARSE_SUCCESS.labels(...)] raises: the counter of worker.py, line
    35, is built without label names. *)
Definition no_label_names : exn :=
  Exception "ValueError"
    "No label names were set when constructing counter:documents_parsed_success".

(** An outside without faults of the store, of Redis and of the backends'
    transport: what pdfplumber, Tika, PaddleOCR and tesseract answer, and the
    uuid drawn for the chunk. [labels] raises, as it does on the counter of
    worker.py. *)
Definition outside
    (pdf : exn + list (exn + option string)) (tika : exn + (Z * string))
    (paddle : exn + (Z * (exn + option string))) (tesseract : exn + string)
    (uuid : string) : Externals :=
  {| sha256_hexdigest := digest;
     pdfplumber_open := fun _ => pdf;
     tika_put := fun _ => tika;
     paddle_post := fun _ => paddle;
     tesseract_run := fun _ => tesseract;
     get_object_fault := None;
     copy_object_fault := None;
     rpush_fault := fun _ => None;
     uuid4 := uuid;
     now := 1700000000;
     metrics_labels := fun _ => Some no_label_names |}.

Definition unreachable : exn := Exception "ConnectionError" "connection refused".

(** Both OCR backends give nothing. *)
Definition ocr_empty : Externals :=
  outside (inl (Exception "PDFSyntaxError" "No /Root object")) (inl unreachable)
    (inr (200, inr (Some EmptyString))) (inr EmptyString) "c-0".

Definition forty_chars : string := "The quick brown fox jumps over the lazy ".

Definition fifty_blanks : string :=
  "                                                  ".

Definition fifty_two_chars : string :=
  "Invoice 2024-117: total due 1,250.00 EUR by 30 June.".

(** pdfplumber reads one page of text. *)
Definition readable (uuid : string) : Externals :=
  outside (inr [inr (Some fifty_two_chars)]) (inl unreachable)
    (inl unreachable) (inl unreachable) uuid.

(** The same outside, under the name that says what [labels] does. *)
Definition readable_unlabelled (uuid : string) : Externals := readable uuid.

(** Two chunk ids, as [str(uuid)] prints them. *)
Definition cid1 : string := "3c9d2f10-5a7b-4e8c-9d01-2b3c4d5e6f70".
Definition cid2 : string := "e4f5a6b7-c8d9-4a0b-8c1d-2e3f4a5b6c7d".

(** pdfplumber reads one page holding a single blank; Tika answers. *)
Definition blank_page : Externals :=
  outside (inr [inr (Some " ")]) (inr (200, "remote text"))
    (inl unreachable) (inl unreachable) "c-0".

(** pdfplumber fails; Tika answers 200 with two blanks. *)
Definition blank_remote : Externals :=
  outside (inl (Exception "PDFSyntaxError" "No /Root object")) (inr (200, "  "))
    (inl unreachable) (inl unreachable) "c-0".

(** A document as the intake stores it: the object of [id] is under
    [id.pdf] in the upload bucket. *)
Definition document (id ftype hash status : string) : RawDocument :=
  {| doc_id := id; source_uri := "s3://app-uploads/" +:+ id +:+ ".pdf";
     file_hash := hash; file_size := 0; file_type := ftype;
     last_modified := 1699999000; ingest_ts := 1699999000;
     parse_status := status; retry_count := 0; error_message := None |}.

Definition uploads : gmap (string * string) bytes :=
  {[ ("app-uploads", id1 +:+ ".pdf") := [] ]}.

Definition machine (doc : RawDocument) : Machine :=
  {| raw_documents := [doc]; raw_chunks := []; s3_objects := uploads;
     redis_queue := [] |}.

Definition scan : RawDocument := document id1 "image" "e3b0c442" "queued".
Definition pdf : RawDocument := document id1 "pdf" "e3b0c442" "queued".
Definition tampered : RawDocument := document id1 "pdf" "ffffffff" "queued".
Definition lost : RawDocument := document id2 "pdf" "e3b0c442" "queued".

(** A document whose object lies under another key than [id.pdf]. *)
Definition moved : RawDocument :=
  {| doc_id := id3; source_uri := "s3://app-uploads/" +:+ id1 +:+ ".pdf";
     file_hash := "ffffffff"; file_size := 0; file_type := "pdf";
     last_modified := 1699999000; ingest_ts := 1699999000;
     parse_status := "queued"; retry_count := 0; error_message := None |}.

(** A payload for [id1] that differs from the scheduler's one in every other
    field. *)
Definition forged_payload : gmap string string :=
  <["doc_id" := id1]>
    (<["source_uri" := "s3://elsewhere/x.pdf"]>
       (<["file_type" := "pdf"]> (<["file_hash" := "00000000"]> ∅))).

(** A table of 51 pending documents: the scan yields the 50 recent ones
    first and the oldest one last. *)
Definition crowd_doc (i : nat) (created : Z) : RawDocument :=
  {| doc_id :=
       "00000000-0000-4000-8000-0000000000"
       +:+ String (ascii_of_nat (48 + i / 10))
             (String (ascii_of_nat (48 + i mod 10)) EmptyString);
     source_uri := "s3://app-uploads/x.pdf";
     file_hash := "e3b0c442"; file_size := 0; file_type := "pdf";
     last_modified := created; ingest_ts := created;
     parse_status := "pending"; retry_count := 0; error_message := None |}.

Definition oldest : RawDocument := crowd_doc 50 1000.

Definition crowd : list RawDocument :=
  map (fun i => crowd_doc i (2000 + Z.of_nat i)) (seq 0 50) ++ [oldest].

End Fixture.

(** ** Further definitions *)

(** [c in s] for a character [c]. *)
Fixpoint contains_char (c : ascii) (s : string) : bool :=
  match s with
  | EmptyString => false
  | String c' s' => Ascii.eqb c' c || contains_char c s'
  end.

(** ingest.py, line 140: [f"s3://{settings.S3_BUCKET}/{s3_key}"]. *)
Definition intake_source_uri (bucket s3_key : string) : string :=
  "s3://" +:+ bucket +:+ "/" +:+ s3_key.

(** The text pdfplumber gives for pages that all extract: each page's text,
    or nothing for [None], followed by a newline. *)
Fixpoint joined_pages (pages : list (option string)) : string :=
  match pages with
  | [] => EmptyString
  | page_text :: rest => or_empty page_text +:+ NL +:+ joined_pages rest
  end.

(** The calls of the text chain. *)
Definition is_pdf_call (ev : Event) : bool :=
  match ev with
  | CallPdfplumber | CallTika => true
  | _ => false
  end.

(** scheduler.py, lines 45-50: one turn of the loop. The line printed on an
    error goes to the standard output, which the machine does not hold;
    [time.sleep] has no effect on it either. *)
Definition scheduler_tick (ext : Externals) : Py unit :=
  try_except (enqueue_pending ext) (fun _ => ret tt).

(** As many turns of the loop as [exts] has elements, each with its own
    outside. *)
Fixpoint scheduler_ticks (exts : list Externals) : Py unit :=
  match exts with
  | [] => ret tt
  | ext :: rest =>
      run scheduler_tick ext;
      scheduler_ticks rest
  end.

(** The labels under which a run counts a parsed document. *)
Fixpoint metric_labels (evs : list Event) : list string :=
  match evs with
  | [] => []
  | MetricsInc label :: rest => label :: metric_labels rest
  | _ :: rest => metric_labels rest
  end.

(** ** Further machines and outsides *)

Module Sample.

(** Redis refuses the [k]-th publish of a run. *)
Definition redis_down_at (k : nat) : Externals :=
  {| sha256_hexdigest := Fixture.digest;
     pdfplumber_open := fun _ => inl Fixture.unreachable;
     tika_put := fun _ => inl Fixture.unreachable;
     paddle_post := fun _ => inl Fixture.unreachable;
     tesseract_run := fun _ => inl Fixture.unreachable;
     get_object_fault := None;
     copy_object_fault := None;
     rpush_fault := fun i => if Nat.eqb i k then Some Fixture.unreachable else None;
     uuid4 := "c-0";
     now := 1700000000;
     metrics_labels := fun _ => Some Fixture.no_label_names |}.

(** The 51 pending documents of [Fixture.crowd]. *)
Definition crowded : Machine :=
  {| raw_documents := Fixture.crowd; raw_chunks := [];
     s3_objects := Fixture.uploads; redis_queue := [] |}.

Definition waiting : RawDocument :=
  Fixture.document Fixture.id1 "pdf" "e3b0c442" "pending".

End Sample.

(** ** ingest.py: the intake of uploads

    Conventions, in addition to those above.
    - The functions of ingest.py are coroutines; a request is modelled as
      run from start to end, without another request in between.
    - [Path(name).suffix.lower()] is a field of [Intake.Outside]: what pathlib
      takes for the suffix of a name is not fixed here. The statement at
      line 71 nests double quotes in an f-string, which Python reads from
      version 3.12 on.
    - An exception is recorded under the name of the class that the
      handlers test it against: an error of botocore is a [ClientError]
      whatever its subclass.
    - Intake's client of the object store is built with
      [endpoint_url=settings.AWS_ENDPOINT], the worker's without. A machine
      has one store; a property about a job that reads what intake stored
      states, as a hypothesis, that the store of the worker's machine holds
      the object.
    - The temporary file is the value [save_uploaded_file] leaves for the
      steps after it; removing it in the [finally] block changes nothing
      the machine holds. Intake's calls are not recorded as events: their
      effects on the store and on the table are.
    - Unlike the statements of the jobs, which update rows in place, the
      INSERT of intake can be refused: a [doc_id] that a row already holds
      violates the primary key. *)

Module Intake.

(** A [fastapi.UploadFile]: [filename] and [size] may be [None]; [content] is
    what [read] yields until the stream is exhausted. *)
Record UploadFile : Type := mkUploadFile {
  filename : option string;
  size : option Z;
  content : bytes
}.

(** What the processing of one file observes of the outside. *)
Record Outside : Type := mkOutside {
  (** [Path(name).suffix.lower()] *)
  suffix_lower : string -> string;
  (** [str(uuid.uuid4())] *)
  new_doc_id : string;
  (** A fault while the upload is written to the temporary file, while the
      temporary file is read back for the hash, and at [s3.upload_file]. *)
  save_fault : option exn;
  hash_fault : option exn;
  upload_file_fault : option exn;
  (** [s3.head_object(...)] raises, or answers with ["LastModified"]. *)
  head_object : exn + Z;
  (** What the database raises at a primary key that is taken, and its
      [NOW()]. *)
  unique_violation : exn;
  insert_now : Z
}.

(** The dict that [process_single_file] returns. *)
Record Accepted : Type := mkAccepted {
  accepted_doc_id : string;
  accepted_source_uri : string;
  accepted_file_name : option string;
  accepted_file_size : Z;
  accepted_file_hash : string;
  accepted_status : string
}.

(** An entry of [errors]. *)
Record ErrorInfo : Type := mkErrorInfo {
  file_index : nat;
  error_filename : option string;
  error : string;
  error_status_code : Z
}.

(** The [JSONResponse] of [ingest_files]; the key ["errors"] is set only
    when a file failed. *)
Record JSONResponse : Type := mkJSONResponse {
  status_code : Z;
  processed_files : nat;
  failed_files : nat;
  files : list Accepted;
  errors : option (list ErrorInfo)
}.

Definition ALLOWED_EXTENSIONS : list string := [".pdf"].
Definition MAX_FILE_SIZE : Z := 50 * 1024 * 1024.
Definition CHUNK_SIZE : Z := 8192.

Definition exn_class (e : exn) : string :=
  match e with Exception cls _ => cls end.

(** [isinstance(e, cls)] *)
Definition isinstance (cls : string) (e : exn) : bool :=
  String.eqb (exn_class e) cls.

(** [HTTPException(status_code=..., detail=...)]; [str] of it is the status
    code, a colon and the detail. *)
Definition HTTPException (code detail : string) : exn :=
  Exception "HTTPException" (code +:+ ": " +:+ detail).

Definition FileProcessingError (msg : string) : exn :=
  Exception "FileProcessingError" msg.

(** [try: c  except cls as e: h e] *)
Definition try_except_as {A} (cls : string) (c : Py A) (h : exn -> Py A)
  : Py A :=
  try_except c (fun e => if isinstance cls e then h e else raise e).

(** [sep.join(l)] *)
Fixpoint join (sep : string) (l : list string) : string :=
  match l with
  | [] => EmptyString
  | [x] => x
  | x :: rest => x +:+ sep +:+ join sep rest
  end.

(** [get_db_session]: the body of the [async with] block runs at the
    [yield]. [db.close] at line 57 is not called. *)
Definition get_db_session {A} (block : Py A) : Py A :=
  try_except_as "SQLAlchemyError" block
    (fun e => raise (HTTPException "500" ("Database error: " +:+ str_exn e))).

(** [validate_file] *)
Definition validate_file (out : Outside) (uploaded_file : UploadFile)
  : Py unit :=
  if negb (PyStr.truthy (or_empty (filename uploaded_file))) then
    raise (HTTPException "400" "Filename is required")
  else
    let file_ext := suffix_lower out (or_empty (filename uploaded_file)) in
    if negb (bool_decide (file_ext ∈ ALLOWED_EXTENSIONS)) then
      raise (HTTPException "400"
               ("File type " +:+ file_ext +:+ " not allowed. Allowed types: "
                +:+ join ", " ALLOWED_EXTENSIONS))
    else
      match size uploaded_file with
      | Some n =>
          if negb (n =? 0) && (MAX_FILE_SIZE <? n) then
            raise (HTTPException "413"
                     "file size exceeds maximum allowed size of 52428800")
          else ret tt
      | None => ret tt
      end.

(** The chunks that [read(n)] yields, one call after the other, up to the
    empty one that ends the loops of lines 84 and 94. Every chunk but the
    last takes [n] bytes from the stream, so [fuel] above the length of the
    stream is never used up when [n] is positive. *)
Fixpoint read_chunks (fuel n : nat) (stream : bytes) : list bytes :=
  match fuel with
  | O => []
  | S fuel' =>
      match take n stream with
      | [] => []
      | chunk => chunk :: read_chunks fuel' n (drop n stream)
      end
  end.

(** [save_uploaded_file]: the temporary file it wrote, and the size it
    counted. *)
Definition save_uploaded_file (out : Outside) (uploaded_file : UploadFile)
  : Py (bytes * Z) :=
  match save_fault out with
  | Some e => raise e
  | None =>
      let stream := content uploaded_file in
      ret (fold_left
             (fun '(temp_file, file_size) chunk =>
                (temp_file ++ chunk, file_size + Z.of_nat (length chunk)))
             (read_chunks (S (length stream)) (Z.to_nat CHUNK_SIZE) stream)
             ([], 0))
  end.

(** [compute_sha256_async]: [sha256.update] chunk by chunk, then
    [hexdigest]. *)
Definition compute_sha256_async (ext : Externals) (out : Outside)
    (temp_file : bytes) : Py string :=
  match hash_fault out with
  | Some e => raise e
  | None =>
      ret (sha256_hexdigest ext
             (fold_left (fun fed chunk => fed ++ chunk)
                (read_chunks (S (length temp_file)) (Z.to_nat CHUNK_SIZE)
                   temp_file)
                []))
  end.

(** [s3.upload_file(file_path, bucket, key)] *)
Definition s3_upload_file (out : Outside) (temp_file : bytes)
    (bucket key : string) : Py unit :=
  fun m =>
    match upload_file_fault out with
    | Some e => (m, [], inl e)
    | None =>
        (set_s3_objects (<[(bucket, key) := temp_file]> (s3_objects m)) m,
         [], inr tt)
    end.

(** [upload_to_s3_async] *)
Definition upload_to_s3_async (cfg : Settings) (out : Outside)
    (temp_file : bytes) (s3_key : string) : Py Z :=
  try_except_as "ClientError"
    (run s3_upload_file out temp_file (S3_BUCKET cfg) s3_key;
     of_result (head_object out))
    (fun e => raise (FileProcessingError ("S3 upload failed: " +:+ str_exn e))).

(** [determine_file_type] *)
Definition determine_file_type (out : Outside) (name : string) : string :=
  let ext := suffix_lower out name in
  if String.eqb ext ".pdf" then "pdf"
  else if bool_decide (ext ∈ [".png"; ".jpg"; ".jpeg"; ".tiff"; ".bmp"])
  then "image"
  else "unknown".

(** [db.add(doc); db.commit()]. The new row is put last in the list. *)
Definition add_document (out : Outside) (doc : RawDocument) : Py unit :=
  fun m =>
    if bool_decide (doc_id doc ∈ map doc_id (raw_documents m)) then
      (m, [], inl (unique_violation out))
    else (set_raw_documents (raw_documents m ++ [doc]) m, [], inr tt).

(** [process_single_file] *)
Definition process_single_file (ext : Externals) (cfg : Settings)
    (out : Outside) (uploaded_file : UploadFile) : Py Accepted :=
  run validate_file out uploaded_file;
  let id := new_doc_id out in
  let file_ext := suffix_lower out (or_empty (filename uploaded_file)) in
  let s3_key := id +:+ file_ext in
  try_except
    (do saved <- save_uploaded_file out uploaded_file;
     let '(temp_file, file_size) := saved in
     do file_hash <- compute_sha256_async ext out temp_file;
     do last_modified <- upload_to_s3_async cfg out temp_file s3_key;
     let doc :=
       {| doc_id := id;
          source_uri := intake_source_uri (S3_BUCKET cfg) s3_key;
          file_hash := file_hash;
          file_size := file_size;
          file_type :=
            determine_file_type out (or_empty (filename uploaded_file));
          last_modified := last_modified;
          ingest_ts := insert_now out;
          parse_status := "pending";
          retry_count := 0;
          error_message := None |} in
     run add_document out doc;
     ret {| accepted_doc_id := doc_id doc;
            accepted_source_uri := source_uri doc;
            accepted_file_name := filename uploaded_file;
            accepted_file_size := file_size;
            accepted_file_hash := file_hash;
            accepted_status := "accepted" |})
    (fun e =>
       if isinstance "FileProcessingError" e then raise e
       else raise (HTTPException "500"
                     ("File processing failed: " +:+ str_exn e))).

(** The loop of lines 200-211; [outs i] is the outside of the file at
    index [i]. *)
Fixpoint ingest_loop (ext : Externals) (cfg : Settings)
    (outs : nat -> Outside) (i : nat) (uploads : list UploadFile)
    (responses : list Accepted) (errs : list ErrorInfo)
  : Py (list Accepted * list ErrorInfo) :=
  match uploads with
  | [] => ret (responses, errs)
  | uploaded_file :: rest =>
      do step <-
        try_except_as "HTTPException"
          (do result <- process_single_file ext cfg (outs i) uploaded_file;
           ret (inl result))
          (fun e =>
             ret (inr {| file_index := i;
                         error_filename := filename uploaded_file;
                         error := "Unexpected error: " +:+ str_exn e;
                         error_status_code := 500 |}));
      match step with
      | inl result =>
          ingest_loop ext cfg outs (S i) rest (responses ++ [result]) errs
      | inr error_info =>
          ingest_loop ext cfg outs (S i) rest responses (errs ++ [error_info])
      end
  end.

(** [ingest_files] *)
Definition ingest_files (ext : Externals) (cfg : Settings)
    (outs : nat -> Outside) (uploads : list UploadFile) : Py JSONResponse :=
  match uploads with
  | [] => raise (HTTPException "400" "Atleast one file must be provided")
  | _ :: _ =>
      if (10 <? length uploads)%nat then
        raise (HTTPException "400"
                 "Too many files. Maximum 10 files per request")
      else
        do lists <- get_db_session (ingest_loop ext cfg outs 0 uploads [] []);
        let '(responses, errs) := lists in
        ret {| status_code :=
                 match responses with [] => 400 | _ :: _ => 202 end;
               processed_files := length responses;
               failed_files := length errs;
               files := responses;
               errors := match errs with [] => None | _ :: _ => Some errs end |}
  end.

End Intake.

(** ** Sample uploads *)

Module Desk.

(** What pathlib takes for the lowered suffix of the sample names. *)
Definition suffix (name : string) : string :=
  if String.eqb name "report.PDF" then ".pdf"
  else if String.eqb name "scan.png" then ".png"
  else EmptyString.

(** An outside without faults but, possibly, at [head_object]. *)
Definition outside (id : string) (head : exn + Z) : Intake.Outside :=
  {| Intake.suffix_lower := suffix;
     Intake.new_doc_id := id;
     Intake.save_fault := None;
     Intake.hash_fault := None;
     Intake.upload_file_fault := None;
     Intake.head_object := head;
     Intake.unique_violation :=
       Exception "IntegrityError"
         "duplicate key value violates unique constraint";
     Intake.insert_now := 1700000000 |}.

Definition throttled : exn :=
  Exception "ClientError"
    "An error occurred (503) when calling the HeadObject operation: Service Unavailable".

Definition report : Intake.UploadFile :=
  {| Intake.filename := Some "report.PDF";
     Intake.size := Some 4;
     Intake.content := [Byte.x25; Byte.x50; Byte.x44; Byte.x46] |}.

Definition picture : Intake.UploadFile :=
  {| Intake.filename := Some "scan.png";
     Intake.size := None;
     Intake.content := [Byte.x89; Byte.x50; Byte.x4e; Byte.x47] |}.

Definition empty : Machine :=
  {| raw_documents := []; raw_chunks := []; s3_objects := ∅;
     redis_queue := [] |}.

(** The outsides of a request: no fault at the first file; [head] is what
    [head_object] gives at the others. *)
Definition clerks (head : exn + Z) (i : nat) : Intake.Outside :=
  match i with
  | O => outside Fixture.id2 (inr 1700000100)
  | S _ => outside Fixture.id3 head
  end.

End Desk.

(** * Properties *)

(** ** Python strings *)

Lemma truthy_rev_app s1 s2 :
  PyStr.truthy (String.rev_app s1 s2) = PyStr.truthy s1 || PyStr.truthy s2.
Proof.
  revert s2. induction s1 as [|c s1 IH]; intros s2; simpl; [done|].
  rewrite IH. simpl. by rewrite orb_true_r.
Qed.

Lemma has_nonspace_rev_app s1 s2 :
  PyStr.has_nonspace (String.rev_app s1 s2)
  = PyStr.has_nonspace s1 || PyStr.has_nonspace s2.
Proof.
  revert s2. induction s1 as [|c s1 IH]; intros s2; simpl; [done|].
  rewrite IH. simpl. destruct (PyStr.isspace c); simpl; [done|].
  by rewrite orb_true_r.
Qed.

Lemma truthy_lstrip s : PyStr.truthy (PyStr.lstrip s) = PyStr.has_nonspace s.
Proof.
  induction s as [|c s IH]; simpl; [done|].
  by destruct (PyStr.isspace c).
Qed.

Lemma has_nonspace_lstrip s :
  PyStr.has_nonspace (PyStr.lstrip s) = PyStr.has_nonspace s.
Proof.
  induction s as [|c s IH]; simpl; [done|].
  destruct (PyStr.isspace c) eqn:E; simpl; [done|]. by rewrite E.
Qed.

(** [s.strip()] is true exactly when [s] holds a character that is not white
    space. *)
Lemma truthy_strip s : PyStr.truthy (PyStr.strip s) = PyStr.has_nonspace s.
Proof.
  unfold PyStr.strip, PyStr.rstrip, String.rev.
  rewrite truthy_rev_app, orb_false_r, truthy_lstrip.
  rewrite has_nonspace_rev_app, orb_false_r. apply has_nonspace_lstrip.
Qed.

Lemma len_strip_zero s :
  (PyStr.len (PyStr.strip s) =? 0) = negb (PyStr.has_nonspace s).
Proof.
  rewrite <- truthy_strip. unfold PyStr.len. by destruct (PyStr.strip s).
Qed.

(** ** The retry policy *)

(** C4, as stated, fails: forty characters of text are below the threshold
    of the code, which is 50, and fifty blanks are a non-empty text of
    sufficient length that is not accepted. *)
Lemma decide_forty_chars_retry :
  PyStr.len Fixture.forty_chars = 40
  /\ PyStr.has_nonspace Fixture.forty_chars = true
  /\ RetryPolicy.decide Fixture.forty_chars 0 3 = RetryPolicy.Retry
  /\ PyStr.truthy Fixture.fifty_blanks = true
  /\ PyStr.len Fixture.fifty_blanks = 50
  /\ RetryPolicy.decide Fixture.fifty_blanks 0 3 = RetryPolicy.Retry.
Proof. repeat split; vm_compute; reflexivity. Qed.

(** C4 (amended). The decision is a function of the text, the retry count and
    the maximum: Accept exactly when the text holds a character that is not
    white space and has at least 50 characters; otherwise Retry when
    [retry_count + 1 < max_retries] and Quarantine when not. The empty text
    gives Retry at count 0 and Quarantine at count 2 of 3, a short text gives
    Retry at count 1, and a text of 52 characters is accepted. *)
Theorem decide_policy (extracted_text : string) (retry_count max_retries : Z) :
  RetryPolicy.decide extracted_text retry_count max_retries
  = Spec.decide extracted_text retry_count max_retries
  /\ RetryPolicy.MIN_CONTENT_LENGTH = 50
  /\ RetryPolicy.decide "" 0 3 = RetryPolicy.Retry
  /\ RetryPolicy.decide "" 2 3 = RetryPolicy.Quarantine
  /\ RetryPolicy.decide "short" 1 3 = RetryPolicy.Retry
  /\ RetryPolicy.decide Fixture.fifty_two_chars 0 3 = RetryPolicy.Accept.
Proof.
  split; [|by vm_compute].
  unfold RetryPolicy.decide, Spec.decide. rewrite truthy_strip.
  rewrite Z.ltb_antisym.
  destruct (PyStr.has_nonspace extracted_text); simpl; [|done].
  by destruct (RetryPolicy.MIN_CONTENT_LENGTH <=? PyStr.len extracted_text).
Qed.

(** ** The extraction chains *)

Ltac py_unfold :=
  unfold bind, try_except, ret, raise, call, emit, of_result, get_machine,
    put_machine in *.

(** What is left of a run once Tika has been asked. *)
Ltac tika_answers ext data :=
  destruct (tika_put ext data) as [?|[? ?]]; simpl; [done|];
  rewrite truthy_strip;
  by destruct ((_ =? 200) && PyStr.has_nonspace _).

Lemma extract_text_from_pdf_run ext data m :
  extract_text_from_pdf ext data m
  = (m, (Spec.text_chain ext data).1, inr (Spec.text_chain ext data).2).
Proof.
  unfold extract_text_from_pdf, Spec.text_chain, Spec.local_text,
    Spec.remote_text.
  py_unfold.
  destruct (pdfplumber_open ext data) as [e|pages]; simpl;
    [tika_answers ext data|].
  destruct (pages_text pages "") as [e|text]; simpl; [tika_answers ext data|].
  rewrite truthy_strip.
  destruct (PyStr.has_nonspace text); simpl; [done|]. tika_answers ext data.
Qed.

Lemma ocr_image_run ext data m :
  ocr_image ext data m
  = (m, (Spec.ocr_chain ext data).1, inr (Spec.ocr_chain ext data).2).
Proof.
  unfold ocr_image, Spec.ocr_chain, Spec.remote_ocr_text, Spec.local_ocr_text.
  py_unfold.
  destruct (paddle_post ext data) as [e|[code [e|[text|]]]]; simpl.
  - by destruct (tesseract_run ext data).
  - destruct (code =? 200); simpl; by destruct (tesseract_run ext data).
  - destruct (code =? 200); simpl; [|by destruct (tesseract_run ext data)].
    destruct text as [|c text]; simpl; [|done].
    by destruct (tesseract_run ext data).
  - destruct (code =? 200); simpl; by destruct (tesseract_run ext data).
Qed.

(** C8, as stated, fails on blank text. A page holding a single blank makes
    the local result non-empty, yet Tika is asked and its text returned; and
    when Tika answers two blanks the chain returns the empty text, not
    Tika's. *)
Lemma blank_local_text_falls_through :
  pages_text [inr (Some " ")] "" = inr (" " +:+ NL)
  /\ extract_text_from_pdf Fixture.blank_page [] (Fixture.machine Fixture.pdf)
     = (Fixture.machine Fixture.pdf, [CallPdfplumber; CallTika],
        inr "remote text")
  /\ tika_put Fixture.blank_remote [] = inr (200, "  ")
  /\ extract_text_from_pdf Fixture.blank_remote [] (Fixture.machine Fixture.pdf)
     = (Fixture.machine Fixture.pdf, [CallPdfplumber; CallTika], inr "").
Proof. repeat split; vm_compute; reflexivity. Qed.

(** C8 (amended). The text chain returns the local text whenever it holds a
    character that is not white space, and Tika is not asked in that case;
    otherwise it asks Tika and returns its text when the answer is 200 with a
    text that is not blank, and the empty text if not. The OCR chain returns
    the text of PaddleOCR when the answer is 200 with a non-empty text, and
    otherwise the output of tesseract, or the empty text when tesseract
    fails. An error of a backend counts as no output and the next stage is
    tried; neither function raises, nor changes the machine; with both
    backends empty the result is the empty text. *)
Theorem extraction_chains (ext : Externals) (data : bytes) (m : Machine) :
  (forall text,
     Spec.local_text ext data = Some text ->
     extract_text_from_pdf ext data m = (m, [CallPdfplumber], inr text))
  /\ (Spec.local_text ext data = None ->
      extract_text_from_pdf ext data m
      = (m, [CallPdfplumber; CallTika], inr (Spec.remote_text ext data)))
  /\ (forall text,
        Spec.remote_ocr_text ext data = Some text ->
        ocr_image ext data m = (m, [CallPaddleOCR], inr text))
  /\ (Spec.remote_ocr_text ext data = None ->
      ocr_image ext data m
      = (m, [CallPaddleOCR; CallTesseract], inr (Spec.local_ocr_text ext data)))
  /\ (exists text, outcome (extract_text_from_pdf ext data m) = inr text)
  /\ (exists text, outcome (ocr_image ext data m) = inr text)
  /\ (Spec.local_text ext data = None ->
      Spec.remote_text ext data = EmptyString ->
      outcome (extract_text_from_pdf ext data m) = inr EmptyString)
  /\ (Spec.remote_ocr_text ext data = None ->
      Spec.local_ocr_text ext data = EmptyString ->
      outcome (ocr_image ext data m) = inr EmptyString).
Proof.
  rewrite extract_text_from_pdf_run, ocr_image_run.
  unfold Spec.text_chain, Spec.ocr_chain, outcome.
  repeat split.
  - by intros text ->.
  - by intros ->.
  - by intros text ->.
  - by intros ->.
  - by eexists.
  - by eexists.
  - by intros -> ->.
  - by intros -> ->.
Qed.

(** ** The scheduler *)

Lemma select_pending_pending docs :
  Forall (fun doc => doc ∈ docs /\ parse_status doc = "pending")
    (select_pending docs).
Proof.
  apply List.Forall_forall. intros doc Hin%list_elem_of_In.
  apply subseteq_take in Hin. by apply list_elem_of_filter in Hin as [? ?].
Qed.

Lemma publish_from_run ext docs : forall i m,
  let r := publish_from ext i docs m in
  raw_documents (final r) = raw_documents m
  /\ raw_chunks (final r) = raw_chunks m
  /\ s3_objects (final r) = s3_objects m
  /\ events r = []
  /\ exists published,
       published `prefix_of` docs
       /\ redis_queue (final r) = redis_queue m ++ map job_payload published
       /\ (outcome r = inr tt -> published = docs)
       /\ ((forall j, rpush_fault ext j = None) -> outcome r = inr tt).
Proof.
  induction docs as [|doc docs IH]; intros i m; cbv zeta.
  - simpl. unfold ret, final, events, outcome; simpl.
    repeat split; try done. exists []. by rewrite app_nil_r.
  - simpl. unfold bind, rpush.
    destruct (rpush_fault ext i) as [e|] eqn:Hfault.
    + unfold final, events, outcome; simpl. repeat split; try done.
      exists []. rewrite app_nil_r. repeat split; [apply prefix_nil|done..|].
      intros Hnone. by rewrite Hnone in Hfault.
    + specialize
        (IH (S i) (set_redis_queue (redis_queue m ++ [job_payload doc]) m)).
      cbv zeta in IH.
      destruct (publish_from ext (S i) docs _) as [[m' evs] r].
      unfold final, events, outcome in *; simpl in *.
      destruct IH as (Hd & Hc & Hs & Hev & published & Hpre & Hq & Hall & Hok).
      subst evs. repeat split; try done.
      exists (doc :: published). repeat split; [| |intros Hr|done].
      * by apply prefix_cons.
      * rewrite Hq. simpl. by rewrite <- app_assoc.
      * by rewrite Hall.
Qed.

(** A scheduler run: the tables and the store are as before, and the queue
    has grown by the payloads of the documents published. *)
Lemma enqueue_pending_run ext m :
  let r := enqueue_pending ext m in
  raw_documents (final r) = raw_documents m
  /\ raw_chunks (final r) = raw_chunks m
  /\ s3_objects (final r) = s3_objects m
  /\ exists published,
       published `prefix_of` select_pending (raw_documents m)
       /\ redis_queue (final r) = redis_queue m ++ map job_payload published
       /\ ((forall j, rpush_fault ext j = None) ->
           published = select_pending (raw_documents m)).
Proof.
  cbv zeta. unfold enqueue_pending, get_machine, bind, read_doc_ids, raise.
  destruct (select_pending (raw_documents m)) as [|doc docs] eqn:Hsel.
  - unfold ret, final; simpl. repeat split; try done.
    exists []. by rewrite app_nil_r.
  - pose proof (publish_from_run ext (doc :: docs) 0%nat m) as H.
    cbv zeta in H.
    destruct (publish_from ext 0 (doc :: docs) m) as [[m' evs] [e|[]]];
      unfold final, events, outcome in *; simpl in *;
      destruct H as (Hd & Hc & Hs & Hev & published & Hpre & Hq & Hall & Hok);
      repeat split; try done; exists published; repeat split; try done.
    + intros Hnone. by specialize (Hok Hnone).
    + intros _. by apply Hall.
Qed.

(** C7, as stated, fails: the query has no ORDER BY. With 51 pending rows of
    which the scan yields the oldest last, the run selects the 50 others and
    leaves the oldest one unselected. *)
Lemma oldest_pending_left_unselected :
  length (select_pending Fixture.crowd) = 50%nat
  /\ parse_status Fixture.oldest = "pending"
  /\ In Fixture.oldest Fixture.crowd
  /\ (doc_id Fixture.oldest ∉ map doc_id (select_pending Fixture.crowd))
  /\ Forall (fun doc => ingest_ts Fixture.oldest < ingest_ts doc)
       (select_pending Fixture.crowd).
Proof.
  split; [by vm_compute|]. split; [done|]. split.
  - unfold Fixture.crowd. apply in_or_app. right. by left.
  - split; apply (bool_decide_unpack _); by vm_compute.
Qed.

(** C7 (amended). Every scheduler run selects at most [BATCH_SIZE] = 50
    documents, all of status pending: the first 50 pending rows in the order
    in which the scan of the table yields them (all of them when they are
    fewer), whatever their creation times. The run publishes a prefix of
    that selection, in that order, and the whole of it when Redis has no
    fault. *)
Theorem select_pending_in_scan_order (ext : Externals) (m : Machine) :
  let pending :=
    filter (fun doc => parse_status doc = "pending") (raw_documents m) in
  (length (select_pending (raw_documents m)) <= BATCH_SIZE)%nat
  /\ length (select_pending (raw_documents m))
     = Nat.min BATCH_SIZE (length pending)
  /\ (forall i doc,
        (i < BATCH_SIZE)%nat ->
        pending !! i = Some doc ->
        select_pending (raw_documents m) !! i = Some doc)
  /\ BATCH_SIZE = 50%nat
  /\ Forall (fun doc => doc ∈ raw_documents m /\ parse_status doc = "pending")
       (select_pending (raw_documents m))
  /\ select_pending (raw_documents m)
     `prefix_of` (filter (fun doc => parse_status doc = "pending")
                    (raw_documents m))
  /\ exists published,
       published `prefix_of` select_pending (raw_documents m)
       /\ redis_queue (final (enqueue_pending ext m))
          = redis_queue m ++ map job_payload published
       /\ ((forall j, rpush_fault ext j = None) ->
           published = select_pending (raw_documents m)).
Proof.
  cbv zeta. repeat split.
  - unfold select_pending. rewrite length_take. lia.
  - unfold select_pending. by rewrite length_take.
  - intros i doc Hi Hdoc. unfold select_pending.
    by rewrite lookup_take_lt.
  - apply select_pending_pending.
  - apply prefix_take.
  - destruct (enqueue_pending_run ext m) as (_ & _ & _ & published & ? & ? & ?).
    by exists published.
Qed.

(** C6. The code at the failing input: one pending document and a healthy
    Redis. The run publishes the job; line 33 then binds the attribute
    [doc.ids] and line 36 reads the name [doc_ids], so [NameError] is raised
    before the update of lines 34-40 is built. The run ends in that error
    with the document published and left pending, and every later run
    publishes it again. *)
Lemma published_document_left_pending :
  let waiting := Fixture.document Fixture.id1 "pdf" "e3b0c442" "pending" in
  let m := Fixture.machine waiting in
  let r := enqueue_pending Fixture.ocr_empty m in
  let r2 := enqueue_pending Fixture.ocr_empty (final r) in
  (forall j, rpush_fault Fixture.ocr_empty j = None)
  /\ outcome r = inl (Exception "NameError" "name 'doc_ids' is not defined")
  /\ redis_queue (final r) = [job_payload waiting]
  /\ map parse_status (raw_documents (final r)) = ["pending"]
  /\ redis_queue (final r2) = [job_payload waiting; job_payload waiting].
Proof. split; [done|]. repeat split; vm_compute; reflexivity. Qed.

(** ** Rows under an update *)

Lemma update_where_fuse d f g docs :
  (forall r, doc_id (f r) = doc_id r) ->
  update_where d g (update_where d f docs)
  = update_where d (fun r => g (f r)) docs.
Proof.
  intros Hf. unfold update_where. rewrite map_map. apply map_ext. intros r.
  destruct (decide (doc_id r = d)) as [Hr|Hr].
  - rewrite decide_True; [done|]. by rewrite Hf.
  - by rewrite decide_False.
Qed.

Lemma filter_update_where d f docs :
  (forall r, doc_id (f r) = doc_id r) ->
  filter (fun r => doc_id r = d) (update_where d f docs)
  = map f (filter (fun r => doc_id r = d) docs).
Proof.
  intros Hf. unfold update_where.
  induction docs as [|r docs IH]; [done|]. simpl.
  destruct (decide (doc_id r = d)) as [Hr|Hr].
  - rewrite !filter_cons_True; [|done|by rewrite Hf]. simpl. by rewrite IH.
  - by rewrite !filter_cons_False.
Qed.

Lemma rows_of_doc_id d m row : rows_of d m = [row] -> doc_id row = d.
Proof.
  intros Hrows.
  assert (row ∈ rows_of d m) as Hin by (rewrite Hrows; apply list_elem_of_here).
  by apply list_elem_of_filter in Hin as [? _].
Qed.

(** ** The helpers of a job *)

Lemma download_from_s3_run ext uri m :
  download_from_s3 ext uri m
  = (m, download_events uri, download_result ext uri (s3_objects m)).
Proof.
  unfold download_from_s3, download_events, download_result, s3_get_object.
  by destruct (PyStr.split_once _ _) as [bucket [key|]].
Qed.

Lemma download_outcome ext uri m :
  outcome (download_from_s3 ext uri m) = download_result ext uri (s3_objects m).
Proof. by rewrite download_from_s3_run. Qed.

Lemma is_scanned_pdf_run ext data m :
  is_scanned_pdf ext data m = (m, [CallPdfplumber], inr (scanned_value ext data)).
Proof.
  unfold is_scanned_pdf, scanned_value. py_unfold.
  destruct (pdfplumber_open ext data) as [e|[|[e|page_text] pages]]; simpl;
    try done.
  by rewrite len_strip_zero.
Qed.

Lemma process_document_with_id ext cfg payload d :
  payload !! "doc_id" = Some d ->
  process_document ext cfg payload
  = try_except (process_document_body ext cfg d)
      (process_document_handler cfg d).
Proof. intros H. unfold process_document. by rewrite H. Qed.

Lemma filter_download_events (f : Event -> bool) uri :
  (forall b k, f (S3GetObject b k) = false) ->
  List.filter f (download_events uri) = [].
Proof.
  intros Hf. unfold download_events.
  destruct (PyStr.split_once _ _) as [b [k|]]; simpl; by rewrite ?Hf.
Qed.

Lemma success_writes_app d evs1 evs2 :
  success_writes d (evs1 ++ evs2)
  = (success_writes d evs1 + success_writes d evs2)%nat.
Proof. unfold success_writes. by rewrite List.filter_app, length_app. Qed.

Lemma success_writes_cons d ev evs :
  success_writes d (ev :: evs)
  = ((if is_success_write d ev then 1 else 0) + success_writes d evs)%nat.
Proof. unfold success_writes. simpl. by destruct (is_success_write d ev). Qed.

Lemma success_writes_nil d : success_writes d [] = 0%nat.
Proof. done. Qed.

Lemma success_writes_download d uri :
  success_writes d (download_events uri) = 0%nat.
Proof. unfold success_writes. by rewrite filter_download_events. Qed.

Lemma success_writes_text_chain d ext data :
  success_writes d (Spec.text_chain ext data).1 = 0%nat.
Proof. unfold Spec.text_chain. by destruct (Spec.local_text ext data). Qed.

Lemma success_writes_ocr_chain d ext data :
  success_writes d (Spec.ocr_chain ext data).1 = 0%nat.
Proof. unfold Spec.ocr_chain. by destruct (Spec.remote_ocr_text ext data). Qed.

(** Symbolic execution of a job: unfold the monad, replace the helpers by
    what they compute, reduce the projections of the rows and of the machine,
    and split on what the outside answers. *)
Ltac py_prims :=
  unfold process_document_body, process_document_handler, classify,
    quarantine, parse_success_inc, query_one, update_status_error,
    update_retry_status, update_file_type, add_chunk, s3_copy_object,
    try_except, bind, ret, raise, call, emit, of_result.

Ltac py_helpers :=
  repeat first
    [ rewrite download_from_s3_run
    | rewrite is_scanned_pdf_run
    | rewrite extract_text_from_pdf_run
    | rewrite ocr_image_run ].

Ltac py_cbn :=
  cbn [raw_documents raw_chunks s3_objects redis_queue set_raw_documents
       set_raw_chunks set_s3_objects set_redis_queue
       doc_id source_uri file_hash file_size file_type last_modified ingest_ts
       parse_status retry_count error_message
       set_file_type set_parse_status set_retry_count set_error_message
       fst snd map].

Ltac py_split :=
  match goal with
  | |- context [match ?x with _ => _ end] =>
      lazymatch x with
      | context [match _ with _ => _ end] => fail
      | _ => destruct x eqn:?
      end
  | |- context [if ?x then _ else _] =>
      lazymatch x with
      | context [if _ then _ else _] => fail
      | context [match _ with _ => _ end] => fail
      | _ => destruct x eqn:?
      end
  end.

Ltac py_exec := py_prims; repeat (py_helpers; py_cbn; py_split).

Ltac sw_norm :=
  repeat first
    [ rewrite success_writes_app
    | rewrite success_writes_download
    | rewrite success_writes_text_chain
    | rewrite success_writes_ocr_chain
    | rewrite success_writes_cons
    | rewrite success_writes_nil ];
  cbn [is_success_write];
  rewrite ?bool_decide_eq_true_2 by done;
  cbn [andb bool_decide decide_rel].

(** ** The job and its payload *)

(** C10. Two payloads with the same [doc_id] give the same run on the same
    machine, whatever their other fields: [process_document] reads
    [payload["doc_id"]] and nothing else of the payload, and takes
    [source_uri], [file_hash] and [file_type] from the row. *)
Theorem payload_read_through_doc_id_only
    (ext : Externals) (cfg : Settings) (payload1 payload2 : gmap string string)
    (m : Machine) :
  payload1 !! "doc_id" = payload2 !! "doc_id" ->
  process_document ext cfg payload1 m = process_document ext cfg payload2 m.
Proof. intros Hid. unfold process_document. by rewrite Hid. Qed.

Lemma payload_read_through_doc_id_only_witness :
  job_payload Fixture.scan !! "source_uri" <> Fixture.forged_payload !! "source_uri"
  /\ job_payload Fixture.scan !! "file_type" <> Fixture.forged_payload !! "file_type"
  /\ job_payload Fixture.scan !! "file_hash" <> Fixture.forged_payload !! "file_hash"
  /\ process_document Fixture.ocr_empty settings (job_payload Fixture.scan)
       (Fixture.machine Fixture.scan)
     = process_document Fixture.ocr_empty settings Fixture.forged_payload
         (Fixture.machine Fixture.scan).
Proof.
  split; [by vm_compute|]. split; [by vm_compute|]. split; [by vm_compute|].
  apply payload_read_through_doc_id_only. reflexivity.
Defined.

(** ** Chunks and status writes *)

(** One run: the chunks it adds are as many as the writes of [success] it
    commits, at most one. *)
Lemma process_document_chunks ext cfg payload d m :
  payload !! "doc_id" = Some d ->
  let r := process_document ext cfg payload m in
  exists new,
    raw_chunks (final r) = raw_chunks m ++ new
    /\ Forall (fun c => chunk_doc_id c = d) new
    /\ length new = success_writes d (events r)
    /\ (length new <= 1)%nat.
Proof.
  intros Hid. rewrite (process_document_with_id _ _ _ _ Hid). cbv zeta.
  py_exec.
  all: unfold final, events; py_cbn.
  all: sw_norm.
  all: try (exists []; rewrite app_nil_r;
            split; [done|split; [constructor|split; [done|simpl; lia]]]).
  all: eexists [_]; split; [done|split; [by repeat constructor|by split]].
Qed.

Lemma final_triple {A} m evs (r : exn + A) : final (m, evs, r) = m.
Proof. done. Qed.

Lemma events_triple {A} m evs (r : exn + A) : events (m, evs, r) = evs.
Proof. done. Qed.


Lemma deliveries_cons cfg payload ext exts m :
  deliveries cfg payload (ext :: exts) m
  = let r := process_document ext cfg payload m in
    match outcome r with
    | inl e => (final r, events r, inl e)
    | inr _ =>
        let r' := deliveries cfg payload exts (final r) in
        (final r', events r ++ events r', outcome r')
    end.
Proof.
  simpl. unfold bind, final, events, outcome.
  destruct (process_document ext cfg payload m) as [[m1 ev1] [e|[]]]; [done|].
  simpl. by destruct (deliveries cfg payload exts m1) as [[m2 ev2] r].
Qed.

Lemma chunks_of_app d m new m' :
  raw_chunks m' = raw_chunks m ++ new ->
  Forall (fun c => chunk_doc_id c = d) new ->
  chunks_of d m' = chunks_of d m ++ new.
Proof.
  intros Heq Hall. unfold chunks_of. rewrite Heq, filter_app. f_equal.
  clear Heq. induction Hall as [|c new Hc Hall IH]; [done|].
  rewrite filter_cons_True by done. by rewrite IH.
Qed.

(** C1, as stated, fails: the same job delivered twice, with a readable pdf
    both times, leaves two chunk records for the one document. Each
    delivery commits the chunk with the status success; [labels] then
    raises, and the handler sets the document, which keeps its chunks, to
    failed. *)
Lemma redelivery_inserts_second_chunk :
  let r := deliveries settings (job_payload Fixture.pdf)
             [Fixture.readable Fixture.cid1; Fixture.readable Fixture.cid2]
             (Fixture.machine Fixture.pdf) in
  map chunk_doc_id (raw_chunks (final r)) = [Fixture.id1; Fixture.id1]
  /\ map chunk_id (raw_chunks (final r)) = [Fixture.cid1; Fixture.cid2]
  /\ status_writes Fixture.id1 (events r)
     = ["success"; "failed"; "success"; "failed"]
  /\ map parse_status (raw_documents (final r)) = ["failed"]
  /\ outcome r = inr tt.
Proof. repeat split; vm_compute; reflexivity. Qed.

(** One delivery whose text is accepted. *)
Lemma accepted_delivery ext cfg payload d row data m :
  payload !! "doc_id" = Some d ->
  rows_of d m = [row] ->
  outcome (download_from_s3 ext (source_uri row) m) = inr data ->
  recompute_sha256 ext data = file_hash row ->
  RetryPolicy.decide (job_text ext row data) (retry_count row)
    (MAX_RETRIES cfg) = RetryPolicy.Accept ->
  let r := process_document ext cfg payload m in
  raw_chunks (final r)
  = raw_chunks m
    ++ [{| chunk_id := uuid4 ext; chunk_doc_id := d; page_number := None;
           start_token := None; end_token := None;
           chunk_text := job_text ext row data;
           chunk_ingest_ts := now ext |}]
  /\ success_writes d (events r) = 1%nat
  /\ outcome r = inr tt.
Proof.
  intros Hid Hrows Hdl Hhash%String.eqb_eq Hacc.
  rewrite download_outcome in Hdl.
  rewrite (process_document_with_id _ _ _ _ Hid). cbv zeta.
  unfold rows_of in *. py_prims. rewrite Hrows.
  py_helpers. py_cbn. rewrite Hdl, Hhash. cbn [negb].
  unfold job_text in *.
  destruct (String.eqb (file_type row) "pdf") eqn:Hft;
    [destruct (scanned_value ext data) eqn:Hsc|];
    cbn [andb negb] in Hacc |- *.
  all: py_helpers; py_cbn; rewrite ?Hsc; py_cbn; rewrite ?Hft.
  all: cbn [String.eqb Ascii.eqb Bool.eqb].
  all: py_helpers; py_cbn; rewrite Hacc; py_cbn.
  all: destruct (metrics_labels ext _) as [e|]; py_cbn;
    [destruct (PyStr.truthy _)|]; unfold final, events, outcome; py_cbn.
  all: sw_norm.
  all: by repeat split.
Qed.

(** C1 (amended). Over any number of deliveries of the job of a document,
    every committed write of status success comes with exactly one new chunk
    record of that document's id, and a delivery that commits no such write
    adds none. The insertion is not guarded by the chunks already present:
    whatever chunks the document has, a delivery whose fetch and integrity
    check pass and whose extracted text is accepted (a text the database
    stores, under a chunk id that is not taken) commits one write of status
    success and adds one more chunk, holding that text, to the chunks of the
    document. *)
Theorem chunk_per_success_write
    (cfg : Settings) (payload : gmap string string) (d : string)
    (exts : list Externals) (m : Machine) :
  payload !! "doc_id" = Some d ->
  Uuid.canonical d = true ->
  let r := deliveries cfg payload exts m in
  (exists new,
     raw_chunks (final r) = raw_chunks m ++ new
     /\ chunks_of d (final r) = chunks_of d m ++ new
     /\ length new = success_writes d (events r)
     /\ (length new <= length exts)%nat)
  /\ (forall ext row data,
        rows_of d m = [row] ->
        outcome (download_from_s3 ext (source_uri row) m) = inr data ->
        recompute_sha256 ext data = file_hash row ->
        RetryPolicy.decide (job_text ext row data) (retry_count row)
          (MAX_RETRIES cfg) = RetryPolicy.Accept ->
        Pg.text (job_text ext row data) = true ->
        uuid4 ext ∉ map chunk_id (raw_chunks m) ->
        let again := process_document ext cfg payload m in
        chunks_of d (final again)
        = chunks_of d m
          ++ [{| chunk_id := uuid4 ext; chunk_doc_id := d;
                 page_number := None; start_token := None;
                 end_token := None; chunk_text := job_text ext row data;
                 chunk_ingest_ts := now ext |}]
        /\ success_writes d (events again) = 1%nat).
Proof.
  intros Hid _. cbv zeta. split.
  - cut (exists new,
           raw_chunks (final (deliveries cfg payload exts m))
           = raw_chunks m ++ new
           /\ Forall (fun c => chunk_doc_id c = d) new
           /\ length new
              = success_writes d (events (deliveries cfg payload exts m))
           /\ (length new <= length exts)%nat).
    { intros (new & Heq & Hall & Hlen & Hle). exists new.
      repeat split; try done. by apply chunks_of_app. }
    revert m. induction exts as [|ext exts IH]; intros m.
    + exists []. simpl. unfold ret, final, events; simpl.
      rewrite app_nil_r. repeat split; [constructor|lia].
    + rewrite deliveries_cons. cbv zeta.
      destruct (process_document_chunks ext cfg payload d m Hid)
        as (new1 & Heq1 & Hall1 & Hlen1 & Hle1).
      destruct (outcome (process_document ext cfg payload m)) as [e|[]].
      * exists new1. rewrite final_triple, events_triple.
        repeat split; try done. simpl. lia.
      * destruct (IH (final (process_document ext cfg payload m)))
          as (new2 & Heq2 & Hall2 & Hlen2 & Hle2).
        exists (new1 ++ new2). rewrite final_triple, events_triple.
        rewrite Heq2, Heq1, app_assoc, success_writes_app, length_app.
        repeat split; [by apply Forall_app|lia|simpl; lia].
  - intros ext row data Hrows Hdl Hhash Hacc _ _.
    destruct (accepted_delivery ext cfg payload d row data m
                Hid Hrows Hdl Hhash Hacc) as (Hchunks & Hwrites & _).
    split; [|done].
    eapply chunks_of_app; [exact Hchunks|]. by repeat constructor.
Qed.

Lemma chunk_per_success_write_witness :
  let payload := job_payload Fixture.pdf in
  let first :=
    process_document (Fixture.readable Fixture.cid1) settings payload
      (Fixture.machine Fixture.pdf) in
  let again :=
    process_document (Fixture.readable Fixture.cid2) settings payload
      (final first) in
  let chunk id :=
    {| chunk_id := id; chunk_doc_id := Fixture.id1; page_number := None;
       start_token := None; end_token := None;
       chunk_text := Fixture.fifty_two_chars +:+ NL;
       chunk_ingest_ts := 1700000000 |} in
  chunks_of Fixture.id1 (final first) = [chunk Fixture.cid1]
  /\ chunks_of Fixture.id1 (final again)
     = [chunk Fixture.cid1; chunk Fixture.cid2]
  /\ success_writes Fixture.id1 (events again) = 1%nat.
Proof.
  cbv zeta. split; [vm_compute; reflexivity|].
  destruct (chunk_per_success_write settings (job_payload Fixture.pdf)
              Fixture.id1 []
              (final (process_document (Fixture.readable Fixture.cid1)
                        settings (job_payload Fixture.pdf)
                        (Fixture.machine Fixture.pdf))))
    as [_ Hagain]; [reflexivity..|].
  destruct (Hagain (Fixture.readable Fixture.cid2)
              (set_error_message (Some (str_exn Fixture.no_label_names))
                 (set_parse_status "failed" Fixture.pdf))
              [])
    as [Hchunks Hwrites]; [vm_compute; reflexivity..| |].
  - apply (bool_decide_unpack _). vm_compute. reflexivity.
  - split; [rewrite Hchunks|rewrite Hwrites]; vm_compute; reflexivity.
Defined.

(** When [labels] raises at line 224, the chunk and the status success are
    already committed: the handler then marks the document failed, and the
    chunk stays. *)
Lemma accepted_job_marked_failed_by_metrics :
  let r := process_document (Fixture.readable_unlabelled "c-1") settings
             (job_payload Fixture.pdf) (Fixture.machine Fixture.pdf) in
  outcome r = inr tt
  /\ map chunk_doc_id (raw_chunks (final r)) = [Fixture.id1]
  /\ map parse_status (raw_documents (final r)) = ["failed"]
  /\ List.filter (fun ev => match ev with StatusCommitted _ _ => true | _ => false end)
       (events r)
     = [StatusCommitted Fixture.id1 "success";
        StatusCommitted Fixture.id1 "failed"].
Proof. repeat split; vm_compute; reflexivity. Qed.

(** ** Status writes *)

Lemma status_writes_app d evs1 evs2 :
  status_writes d (evs1 ++ evs2) = status_writes d evs1 ++ status_writes d evs2.
Proof.
  induction evs1 as [|ev evs1 IH]; [done|].
  destruct ev; cbn [app status_writes]; try done.
  destruct (bool_decide _); by rewrite IH.
Qed.

Lemma status_writes_download d uri : status_writes d (download_events uri) = [].
Proof.
  unfold download_events. by destruct (PyStr.split_once _ _) as [b [k|]].
Qed.

Lemma status_writes_text_chain d ext data :
  status_writes d (Spec.text_chain ext data).1 = [].
Proof. unfold Spec.text_chain. by destruct (Spec.local_text ext data). Qed.

Lemma status_writes_ocr_chain d ext data :
  status_writes d (Spec.ocr_chain ext data).1 = [].
Proof. unfold Spec.ocr_chain. by destruct (Spec.remote_ocr_text ext data). Qed.

Lemma status_writes_here d st :
  status_writes d [StatusCommitted d st] = [st].
Proof. cbn. by rewrite bool_decide_eq_true_2. Qed.

(** C2, as stated, fails: the outcome writes carry no condition on the
    stored status. A document in status success whose job is delivered again
    with empty OCR output goes back to pending. A document in status failed
    whose job is delivered again with a readable pdf is written twice: to
    success, with a chunk, and, [labels] raising after that commit, to
    failed again, now with the message of that error. *)
Lemma terminal_status_overwritten :
  let done_doc := Fixture.document Fixture.id1 "image" "e3b0c442" "success" in
  let failed_doc := Fixture.document Fixture.id1 "pdf" "e3b0c442" "failed" in
  let again :=
    process_document (Fixture.readable Fixture.cid1) settings
      (job_payload failed_doc) (Fixture.machine failed_doc) in
  map parse_status
    (raw_documents
       (final (process_document Fixture.ocr_empty settings
                 (job_payload done_doc) (Fixture.machine done_doc))))
  = ["pending"]
  /\ status_writes Fixture.id1 (events again) = ["success"; "failed"]
  /\ map chunk_id (raw_chunks (final again)) = [Fixture.cid1]
  /\ map error_message (raw_documents (Fixture.machine failed_doc)) = [None]
  /\ map error_message (raw_documents (final again))
     = [Some (str_exn Fixture.no_label_names)].
Proof. repeat split; vm_compute; reflexivity. Qed.

(** In the model, where the database stores every value, the run of a job
    is the same whatever the stored status. *)
Lemma job_ignores_status ext cfg payload d st m :
  payload !! "doc_id" = Some d ->
  process_document ext cfg payload (with_status d st m)
  = process_document ext cfg payload m.
Proof.
  intros Hid. rewrite (process_document_with_id _ _ _ _ Hid).
  unfold with_status. py_prims. py_cbn.
  rewrite filter_update_where by done.
  destruct (filter _ (raw_documents m)) as [|row [|row2 rows]] eqn:Hrows;
    py_cbn.
  - destruct (PyStr.truthy _); py_cbn; by rewrite update_where_fuse.
  - rewrite (rows_of_doc_id d m row Hrows).
    repeat (py_helpers; py_cbn; py_split).
    all: py_cbn.
    all: by rewrite ?update_where_fuse.
  - destruct (PyStr.truthy _); py_cbn; by rewrite update_where_fuse.
Qed.

(** The status a job leaves is the one it wrote last. *)
Lemma job_leaves_last_status ext cfg payload d row m :
  payload !! "doc_id" = Some d ->
  rows_of d m = [row] ->
  let r := process_document ext cfg payload m in
  exists st',
    last (status_writes d (events r)) = Some st'
    /\ map parse_status (rows_of d (final r)) = [st'].
Proof.
  intros Hid Hrows. rewrite (process_document_with_id _ _ _ _ Hid). cbv zeta.
  pose proof (rows_of_doc_id d m row Hrows) as Hd.
  unfold rows_of in *. py_prims. rewrite Hrows, Hd.
  repeat (py_helpers; py_cbn; py_split).
  all: unfold final, events; py_cbn; rewrite ?update_where_fuse by done.
  all: rewrite filter_update_where, Hrows by done.
  all: repeat first
         [ rewrite status_writes_app
         | rewrite status_writes_download
         | rewrite status_writes_text_chain
         | rewrite status_writes_ocr_chain ].
  all: cbn [status_writes]; rewrite ?(bool_decide_eq_true_2 (d = d)) by done.
  all: cbn [app map]; eexists; split; [reflexivity|]; done.
Qed.

(** The update of lines 34-40, were it reached, names pending documents
    only. *)
Lemma update_leaves_terminal (m : Machine) (row : RawDocument) :
  NoDup (map doc_id (raw_documents m)) ->
  row ∈ raw_documents m ->
  parse_status row <> "pending" ->
  row ∈ raw_documents
          (final (update_status_in
                    (map doc_id (select_pending (raw_documents m)))
                    "queued" m)).
Proof.
  intros Hkey Hin Hst. unfold update_status_in, final. py_cbn.
  apply list_elem_of_fmap. exists row. split; [|done].
  rewrite bool_decide_eq_false_2; [done|].
  intros (sel & Hid & Hsel)%list_elem_of_fmap.
  pose proof (select_pending_pending (raw_documents m)) as Hall.
  rewrite List.Forall_forall in Hall.
  apply list_elem_of_In, Hall in Hsel as [Hsel Hpending].
  assert (row = sel) as ->; [|done].
  clear -Hkey Hin Hsel Hid. induction (raw_documents m) as [|x docs IH];
    [by apply not_elem_of_nil in Hin|].
  cbn [map] in Hkey. apply NoDup_cons in Hkey as [Hx Hkey].
  apply elem_of_cons in Hin as [->|Hin];
    apply elem_of_cons in Hsel as [->|Hsel]; try done.
  - exfalso. apply Hx. rewrite Hid. by apply list_elem_of_fmap_2.
  - exfalso. apply Hx. rewrite <- Hid. by apply list_elem_of_fmap_2.
  - by apply IH.
Qed.

(** C2 (amended). A scheduler run leaves every row of status success or
    failed as it is, and so would the update of lines 34-40, which names
    pending documents only. The worker's outcome writes are unconditional:
    the events and the result of the run of a job are the same whatever the
    stored status of the document; and as long as the database stores what
    the run writes, the tables it leaves are the same too, with the
    document in the status the run wrote last. A document already in status
    success or failed is thus written again like one that is queued. *)
Theorem status_writes_unconditional
    (ext : Externals) (cfg : Settings) (payload : gmap string string)
    (d st : string) (m : Machine) :
  let r := process_document ext cfg payload m in
  let r' := process_document ext cfg payload (with_status d st m) in
  (forall row,
     row ∈ raw_documents m ->
     parse_status row = "success" \/ parse_status row = "failed" ->
     row ∈ raw_documents (final (enqueue_pending ext m))
     /\ (NoDup (map doc_id (raw_documents m)) ->
         row ∈ raw_documents
                 (final (update_status_in
                           (map doc_id (select_pending (raw_documents m)))
                           "queued" m))))
  /\ (payload !! "doc_id" = Some d ->
      events r' = events r
      /\ outcome r' = outcome r
      /\ (storable d m r -> final r' = final r)
      /\ (forall row,
            rows_of d m = [row] ->
            storable d m r ->
            exists st',
              last (status_writes d (events r)) = Some st'
              /\ map parse_status (rows_of d (final r)) = [st'])).
Proof.
  cbv zeta. split.
  - intros row Hin Hterminal. split.
    + by rewrite (proj1 (enqueue_pending_run ext m)).
    + intros Hkey. apply update_leaves_terminal; [done..|].
      by destruct Hterminal as [-> | ->].
  - intros Hid. rewrite (job_ignores_status _ _ _ _ _ _ Hid).
    repeat split; try done.
    intros row Hrows _. by apply (job_leaves_last_status _ _ _ _ row).
Qed.

Lemma status_writes_unconditional_witness :
  let m := Fixture.machine Fixture.scan in
  let r := process_document Fixture.ocr_empty settings
             (job_payload Fixture.scan) m in
  let r' := process_document Fixture.ocr_empty settings
              (job_payload Fixture.scan) (with_status Fixture.id1 "success" m) in
  map parse_status (raw_documents (with_status Fixture.id1 "success" m))
  = ["success"]
  /\ storable Fixture.id1 m r
  /\ final r' = final r
  /\ exists st',
       last (status_writes Fixture.id1 (events r)) = Some st'
       /\ map parse_status (rows_of Fixture.id1 (final r)) = [st'].
Proof.
  cbv zeta.
  assert (storable Fixture.id1 (Fixture.machine Fixture.scan)
            (process_document Fixture.ocr_empty settings
               (job_payload Fixture.scan) (Fixture.machine Fixture.scan)))
    as Hstorable.
  { unfold storable. split.
    - replace (rows_of _ _) with
        [set_parse_status "pending" (set_retry_count 1 Fixture.scan)]
        by (vm_compute; reflexivity).
      repeat constructor.
    - replace (drop _ _) with (@nil RawChunk) by (vm_compute; reflexivity).
      constructor. }
  destruct (status_writes_unconditional Fixture.ocr_empty settings
              (job_payload Fixture.scan) Fixture.id1 "success"
              (Fixture.machine Fixture.scan))
    as [_ Hjob].
  destruct (Hjob eq_refl) as (_ & _ & Hfinal & Hlast).
  split; [vm_compute; reflexivity|]. split; [exact Hstorable|].
  split; [exact (Hfinal Hstorable)|].
  apply (Hlast Fixture.scan); [vm_compute; reflexivity|exact Hstorable].
Defined.

(** ** Failures of a job *)

(** C9. When the fetch of the object fails (the store is unavailable, or the
    key is missing), the job returns normally; the row is in status failed
    with the text of the fetch error as its message and its retry count
    unchanged; the object store is as before: no copy, no extraction and no
    chunk. *)
Theorem fetch_failure_recorded
    (ext : Externals) (cfg : Settings) (payload : gmap string string)
    (d : string) (row : RawDocument) (e : exn) (m : Machine) :
  payload !! "doc_id" = Some d ->
  rows_of d m = [row] ->
  outcome (download_from_s3 ext (source_uri row) m) = inl e ->
  let r := process_document ext cfg payload m in
  outcome r = inr tt
  /\ (exists row',
        rows_of d (final r) = [row']
        /\ parse_status row' = "failed"
        /\ error_message row' = Some (str_exn e)
        /\ retry_count row' = retry_count row)
  /\ s3_objects (final r) = s3_objects m
  /\ raw_chunks (final r) = raw_chunks m
  /\ List.filter is_copy (events r) = []
  /\ List.filter is_backend_call (events r) = [].
Proof.
  intros Hid Hrows Hdl. rewrite download_outcome in Hdl.
  rewrite (process_document_with_id _ _ _ _ Hid). cbv zeta.
  unfold rows_of in *. py_prims. rewrite Hrows. py_helpers. rewrite Hdl.
  unfold final, events, outcome.
  destruct (PyStr.truthy _); py_cbn.
  all: rewrite filter_update_where, Hrows by done.
  all: rewrite !List.filter_app, !filter_download_events by done.
  all: repeat split; try done; by eexists.
Qed.

Lemma fetch_failure_recorded_witness :
  let r := process_document Fixture.ocr_empty settings
             (job_payload Fixture.lost) (Fixture.machine Fixture.lost) in
  outcome r = inr tt
  /\ (exists row',
        rows_of Fixture.id2 (final r) = [row']
        /\ parse_status row' = "failed"
        /\ error_message row' = Some (str_exn (NoSuchKey "GetObject"))
        /\ retry_count row' = retry_count Fixture.lost)
  /\ s3_objects (final r) = s3_objects (Fixture.machine Fixture.lost)
  /\ raw_chunks (final r) = raw_chunks (Fixture.machine Fixture.lost)
  /\ List.filter is_copy (events r) = []
  /\ List.filter is_backend_call (events r) = [].
Proof.
  apply (fetch_failure_recorded Fixture.ocr_empty settings
           (job_payload Fixture.lost) Fixture.id2 Fixture.lost
           (NoSuchKey "GetObject") (Fixture.machine Fixture.lost));
    reflexivity.
Defined.

(** C5, as stated, fails: the message the code writes is "Hash mismatch".
    The copy reads the upload bucket under the key made of the document id:
    for a document whose object lies under another key the copy raises, no
    quarantine copy is made and the message is that of the copy error. *)
Lemma hash_mismatch_message :
  let r := process_document Fixture.ocr_empty settings
             (job_payload Fixture.tampered) (Fixture.machine Fixture.tampered) in
  let r' := process_document Fixture.ocr_empty settings
              (job_payload Fixture.moved) (Fixture.machine Fixture.moved) in
  map error_message (raw_documents (final r)) = [Some "Hash mismatch"]
  /\ map error_message (raw_documents (final r'))
     = [Some (str_exn (NoSuchKey "CopyObject"))]
  /\ map parse_status (raw_documents (final r')) = ["failed"]
  /\ s3_objects (final r') !! ("app-quarantine", Fixture.id3 +:+ ".pdf") = None
  /\ List.filter is_copy (events r')
     = [S3CopyObject "app-uploads" (Fixture.id3 +:+ ".pdf")
          "app-quarantine" (Fixture.id3 +:+ ".pdf")].
Proof. repeat split; vm_compute; reflexivity. Qed.

(** C5 (amended). When the fetched bytes do not hash to the recorded hash,
    the upload bucket holds an object under the key [<doc_id>.pdf] (where the
    intake stores it) and the copy request succeeds, the job copies that
    object to the quarantine bucket under the same key, sets the row to
    status failed with the message "Hash mismatch", leaves the retry count
    as it is, calls no extraction backend and adds no chunk. *)
Theorem hash_mismatch_quarantined
    (ext : Externals) (cfg : Settings) (payload : gmap string string)
    (d : string) (row : RawDocument) (data obj : bytes) (m : Machine) :
  payload !! "doc_id" = Some d ->
  rows_of d m = [row] ->
  outcome (download_from_s3 ext (source_uri row) m) = inr data ->
  recompute_sha256 ext data <> file_hash row ->
  copy_object_fault ext = None ->
  s3_objects m !! (S3_BUCKET cfg, d +:+ ".pdf") = Some obj ->
  let r := process_document ext cfg payload m in
  outcome r = inr tt
  /\ s3_objects (final r)
     = <[(S3_QUARANTINE_BUCKET cfg, d +:+ ".pdf") := obj]> (s3_objects m)
  /\ (exists row',
        rows_of d (final r) = [row']
        /\ parse_status row' = "failed"
        /\ error_message row' = Some "Hash mismatch"
        /\ retry_count row' = retry_count row)
  /\ raw_chunks (final r) = raw_chunks m
  /\ List.filter is_backend_call (events r) = [].
Proof.
  intros Hid Hrows Hdl Hhash Hfault Hobj. rewrite download_outcome in Hdl.
  rewrite (process_document_with_id _ _ _ _ Hid). cbv zeta.
  unfold rows_of in *. py_prims. rewrite Hrows. py_helpers. rewrite Hdl.
  apply String.eqb_neq in Hhash. rewrite Hhash, Hfault.
  cbn [negb]. cbv beta iota. rewrite Hobj.
  unfold final, events, outcome. py_cbn.
  rewrite filter_update_where, Hrows by done.
  rewrite !List.filter_app, !filter_download_events by done.
  repeat split; try done; by eexists.
Qed.

Lemma hash_mismatch_quarantined_witness :
  let r := process_document Fixture.ocr_empty settings
             (job_payload Fixture.tampered) (Fixture.machine Fixture.tampered) in
  outcome r = inr tt
  /\ s3_objects (final r)
     = <[("app-quarantine", Fixture.id1 +:+ ".pdf") := []]> Fixture.uploads
  /\ (exists row',
        rows_of Fixture.id1 (final r) = [row']
        /\ parse_status row' = "failed"
        /\ error_message row' = Some "Hash mismatch"
        /\ retry_count row' = retry_count Fixture.tampered)
  /\ raw_chunks (final r) = raw_chunks (Fixture.machine Fixture.tampered)
  /\ List.filter is_backend_call (events r) = [].
Proof.
  apply (hash_mismatch_quarantined Fixture.ocr_empty settings
           (job_payload Fixture.tampered) Fixture.id1 Fixture.tampered [] []
           (Fixture.machine Fixture.tampered));
    try reflexivity.
  vm_compute. discriminate.
Defined.

(** ** Retries of an empty extraction *)










(** * Further properties *)

(** ** Locators of the object store *)

Lemma contains_char_app c s1 s2 :
  contains_char c (s1 +:+ s2) = contains_char c s1 || contains_char c s2.
Proof.
  induction s1 as [|c' s1 IH]; simpl; [done|]. by rewrite IH, orb_assoc.
Qed.

Lemma prefix_cons a s1 b s2 :
  String.prefix (String a s1) (String b s2)
  = if ascii_dec a b then String.prefix s1 s2 else false.
Proof. done. Qed.

Lemma prefix_cons_nil a s1 : String.prefix (String a s1) EmptyString = false.
Proof. done. Qed.

(** Where "s3://" starts, the string is "s3://" followed by the rest. *)
Lemma scheme_prefix s :
  String.prefix "s3://" s = true -> exists rest, s = "s3://" +:+ rest.
Proof.
  intros H.
  repeat (destruct s as [|? s]; [by rewrite prefix_cons_nil in H|];
          rewrite prefix_cons in H; destruct (ascii_dec _ _) as [<-|]; [|done]).
  by exists s.
Qed.

(** A string in which "s3://" cannot start is left as it is. *)
Lemma remove_all_no_slash s :
  contains_char "/" s = false -> PyStr.remove_all "s3://" s = s.
Proof.
  unfold PyStr.remove_all. induction s as [|c s IH]; [done|].
  intros Hs. cbn [PyStr.remove_go].
  destruct (String.prefix "s3://" (String c s)) eqn:Hp.
  { apply scheme_prefix in Hp as [rest Hp]. by rewrite Hp in Hs. }
  simpl in Hs. apply orb_false_elim in Hs as [_ Hs]. by rewrite IH.
Qed.

Lemma remove_all_no_colon s :
  contains_char ":" s = false -> PyStr.remove_all "s3://" s = s.
Proof.
  unfold PyStr.remove_all. induction s as [|c s IH]; [done|].
  intros Hs. cbn [PyStr.remove_go].
  destruct (String.prefix "s3://" (String c s)) eqn:Hp.
  { apply scheme_prefix in Hp as [rest Hp]. by rewrite Hp in Hs. }
  simpl in Hs. apply orb_false_elim in Hs as [_ Hs]. by rewrite IH.
Qed.

Lemma remove_all_scheme rest :
  PyStr.remove_all "s3://" ("s3://" +:+ rest) = PyStr.remove_all "s3://" rest.
Proof.
  unfold PyStr.remove_all.
  change ("s3://" +:+ rest) with (String "s" ("3://" +:+ rest)).
  cbn [PyStr.remove_go].
  assert (String.prefix "s3://" (String "s" ("3://" +:+ rest)) = true) as ->
    by by destruct rest.
  reflexivity.
Qed.

Lemma split_once_at_first sep hd tl :
  contains_char sep hd = false ->
  PyStr.split_once sep (hd +:+ String sep tl) = (hd, Some tl).
Proof.
  induction hd as [|c hd IH]; simpl.
  - by rewrite Ascii.eqb_refl.
  - intros [Hc Hhd]%orb_false_elim. by rewrite Hc, (IH Hhd).
Qed.

Lemma split_once_none sep s :
  contains_char sep s = false -> PyStr.split_once sep s = (s, None).
Proof.
  induction s as [|c s IH]; simpl; [done|].
  intros [Hc Hs]%orb_false_elim. by rewrite Hc, (IH Hs).
Qed.

(** X1. The locator the intake writes, "s3://<bucket>/<key>", is read back by
    [download_from_s3] as that bucket and that key, for every bucket name
    without "/" or ":" and every key without ":": one [get_object] request
    for (bucket, key), answered by the object stored there, by the fault of
    the store, or by the error of a missing key. *)
Theorem download_intake_uri
    (ext : Externals) (bucket key : string) (m : Machine) :
  contains_char "/" bucket = false ->
  contains_char ":" bucket = false ->
  contains_char ":" key = false ->
  download_from_s3 ext (intake_source_uri bucket key) m
  = (m, [S3GetObject bucket key],
     match get_object_fault ext with
     | Some e => inl e
     | None =>
         match s3_objects m !! (bucket, key) with
         | Some data => inr data
         | None => inl (NoSuchKey "GetObject")
         end
     end).
Proof.
  intros Hslash Hb Hk. unfold download_from_s3, intake_source_uri.
  rewrite remove_all_scheme, remove_all_no_colon.
  - change (bucket +:+ "/" +:+ key) with (bucket +:+ String "/" key).
    by rewrite split_once_at_first.
  - by rewrite !contains_char_app, Hb, Hk.
Qed.

Lemma download_intake_uri_witness :
  download_from_s3 Fixture.ocr_empty
    (intake_source_uri "app-uploads" (Fixture.id1 +:+ ".pdf"))
    (Fixture.machine Fixture.scan)
  = (Fixture.machine Fixture.scan,
     [S3GetObject "app-uploads" (Fixture.id1 +:+ ".pdf")],
     match get_object_fault Fixture.ocr_empty with
     | Some e => inl e
     | None =>
         match
           s3_objects (Fixture.machine Fixture.scan)
             !! ("app-uploads", Fixture.id1 +:+ ".pdf")
         with
         | Some data => inr data
         | None => inl (NoSuchKey "GetObject")
         end
     end).
Proof. apply download_intake_uri; reflexivity. Defined.

(** X2. A locator without "/" after its scheme names no key:
    [download_from_s3] raises [IndexError] and sends no request to the
    store, with or without the "s3://" in front. *)
Theorem download_without_key (ext : Externals) (name : string) (m : Machine) :
  contains_char "/" name = false ->
  download_from_s3 ext name m
  = (m, [], inl (Exception "IndexError" "list index out of range"))
  /\ download_from_s3 ext ("s3://" +:+ name) m
     = (m, [], inl (Exception "IndexError" "list index out of range")).
Proof.
  intros Hn. unfold download_from_s3.
  rewrite remove_all_scheme, remove_all_no_slash by done.
  by rewrite split_once_none.
Qed.

Lemma download_without_key_witness :
  download_from_s3 Fixture.ocr_empty "app-uploads" (Fixture.machine Fixture.scan)
  = (Fixture.machine Fixture.scan, [],
     inl (Exception "IndexError" "list index out of range"))
  /\ download_from_s3 Fixture.ocr_empty ("s3://" +:+ "app-uploads")
       (Fixture.machine Fixture.scan)
     = (Fixture.machine Fixture.scan, [],
        inl (Exception "IndexError" "list index out of range")).
Proof. apply download_without_key. reflexivity. Defined.

(** ** Classification and extraction *)

(** X3. [is_scanned_pdf] never raises and leaves the machine as it is,
    after one call of pdfplumber. It answers [False] exactly when pdfplumber
    opens the file, the file has a first page, and the text of that page
    holds a character that is not white space; a failure to open, a file
    without pages and a failing first page all count as scanned. *)
Theorem is_scanned_pdf_answers (ext : Externals) (data : bytes) (m : Machine) :
  exists scanned : bool,
    is_scanned_pdf ext data m = (m, [CallPdfplumber], inr scanned)
    /\ (scanned = false <->
        exists page_text pages,
          pdfplumber_open ext data = inr (inr page_text :: pages)
          /\ PyStr.has_nonspace (or_empty page_text) = true).
Proof.
  exists (scanned_value ext data). split; [apply is_scanned_pdf_run|].
  unfold scanned_value.
  destruct (pdfplumber_open ext data) as [e|[|[e|page_text] pages]];
    (split; [try done|intros (? & ? & [=] & ?); subst; try done]).
  - intros H%negb_false_iff. by exists page_text, pages.
  - by apply negb_false_iff.
Qed.

Lemma append_cons c s1 s2 : String c s1 +:+ s2 = String c (s1 +:+ s2).
Proof. done. Qed.

Lemma append_assoc (s1 s2 s3 : string) : (s1 +:+ s2) +:+ s3 = s1 +:+ s2 +:+ s3.
Proof. induction s1 as [|c s1 IH]; [done|]. by rewrite !append_cons, IH. Qed.

Lemma append_empty_r s : s +:+ "" = s.
Proof. induction s as [|c s IH]; [done|]. by rewrite append_cons, IH. Qed.

Lemma has_nonspace_app s1 s2 :
  PyStr.has_nonspace (s1 +:+ s2)
  = PyStr.has_nonspace s1 || PyStr.has_nonspace s2.
Proof.
  induction s1 as [|c s1 IH]; [done|].
  rewrite append_cons. cbn [PyStr.has_nonspace]. by rewrite IH, orb_assoc.
Qed.

Lemma pages_text_all_extract pages : forall text,
  pages_text (map inr pages) text = inr (text +:+ joined_pages pages).
Proof.
  induction pages as [|page_text pages IH]; intros text; simpl.
  - by rewrite append_empty_r.
  - by rewrite IH, !append_assoc.
Qed.

(** X4. Classification and extraction agree: for a pdf that
    [is_scanned_pdf] finds not scanned and of which every page extracts,
    [extract_text_from_pdf] returns the texts of the pages, each followed by
    a newline, and Tika is not asked. *)
Theorem text_pdf_read_locally
    (ext : Externals) (data : bytes) (pages : list (option string))
    (m : Machine) :
  pdfplumber_open ext data = inr (map inr pages) ->
  outcome (is_scanned_pdf ext data m) = inr false ->
  extract_text_from_pdf ext data m
  = (m, [CallPdfplumber], inr (joined_pages pages)).
Proof.
  intros Hopen Hscan. rewrite is_scanned_pdf_run in Hscan.
  unfold outcome, scanned_value in Hscan; simpl in Hscan. rewrite Hopen in Hscan.
  rewrite extract_text_from_pdf_run. unfold Spec.text_chain, Spec.local_text.
  rewrite Hopen, pages_text_all_extract.
  destruct pages as [|page_text pages]; simpl in Hscan; [done|].
  assert (PyStr.has_nonspace (or_empty page_text) = true) as Hp.
  { apply negb_false_iff. congruence. }
  change ("" +:+ joined_pages (page_text :: pages))
    with (joined_pages (page_text :: pages)).
  cbn [joined_pages]. by rewrite has_nonspace_app, Hp.
Qed.

Lemma text_pdf_read_locally_witness :
  extract_text_from_pdf (Fixture.readable "c-1") []
    (Fixture.machine Fixture.pdf)
  = (Fixture.machine Fixture.pdf, [CallPdfplumber],
     inr (joined_pages [Some Fixture.fifty_two_chars])).
Proof. apply text_pdf_read_locally; reflexivity. Defined.

(** ** The job boundary *)

(** X5. Every exception of the body of [process_document] ends in the
    handler: for a payload that carries a [doc_id] in the spelling of
    [str], the job returns normally whatever the object store, the
    backends and the metrics client do, as long as the database stores what
    the run writes. A payload without [doc_id] raises [KeyError] before the
    [try], with nothing done. *)
Theorem job_boundary_never_raises
    (ext : Externals) (cfg : Settings) (payload : gmap string string)
    (m : Machine) :
  let r := process_document ext cfg payload m in
  (forall d,
     payload !! "doc_id" = Some d ->
     Uuid.canonical d = true ->
     storable d m r ->
     outcome r = inr tt)
  /\ (payload !! "doc_id" = None ->
      r = (m, [], inl (Exception "KeyError" "'doc_id'"))).
Proof.
  cbv zeta. split.
  - intros d Hid _ _. rewrite (process_document_with_id _ _ _ _ Hid).
    py_exec. all: done.
  - intros Hid. unfold process_document. by rewrite Hid.
Qed.

(** [storable] on a concrete run: the rows and the new chunks are
    evaluated, then checked one by one. *)
Ltac evaluate_list :=
  match goal with
  | |- Forall _ ?l =>
      let v := eval vm_compute in l in
      replace l with v by (vm_compute; reflexivity)
  end.

Ltac storable_here :=
  unfold storable; split; evaluate_list; repeat constructor;
  try (apply (bool_decide_unpack _); vm_compute; reflexivity).

Lemma job_boundary_never_raises_witness :
  let r := process_document (Fixture.readable Fixture.cid1) settings
             (job_payload Fixture.pdf) (Fixture.machine Fixture.pdf) in
  Uuid.canonical Fixture.id1 = true
  /\ storable Fixture.id1 (Fixture.machine Fixture.pdf) r
  /\ outcome r = inr tt.
Proof.
  assert (storable Fixture.id1 (Fixture.machine Fixture.pdf)
            (process_document (Fixture.readable Fixture.cid1) settings
               (job_payload Fixture.pdf) (Fixture.machine Fixture.pdf)))
    as Hstorable.
  { storable_here. }
  split; [reflexivity|]. split; [exact Hstorable|].
  apply (proj1 (job_boundary_never_raises (Fixture.readable Fixture.cid1)
                  settings (job_payload Fixture.pdf)
                  (Fixture.machine Fixture.pdf)) Fixture.id1);
    [reflexivity|reflexivity|exact Hstorable].
Defined.

Lemma update_where_doc_ids d f docs :
  (forall r, doc_id (f r) = doc_id r) ->
  map doc_id (update_where d f docs) = map doc_id docs.
Proof.
  intros Hf. unfold update_where. rewrite map_map. apply map_ext. intros r.
  by destruct (decide _); rewrite ?Hf.
Qed.

Lemma update_where_others d f docs :
  (forall r, doc_id (f r) = doc_id r) ->
  filter (fun r => doc_id r <> d) (update_where d f docs)
  = filter (fun r => doc_id r <> d) docs.
Proof.
  intros Hf. unfold update_where.
  induction docs as [|r docs IH]; [done|]. simpl.
  destruct (decide (doc_id r = d)) as [Hr|Hr].
  - rewrite !filter_cons_False; [done|naive_solver|rewrite Hf; naive_solver].
  - rewrite !filter_cons_True by done. by rewrite IH.
Qed.

(** The table a job leaves is the table it found, updated on the rows of
    its document. *)
Lemma process_document_frame ext cfg payload d m :
  payload !! "doc_id" = Some d ->
  let r := process_document ext cfg payload m in
  exists f,
    (forall row, doc_id (f row) = doc_id row)
    /\ raw_documents (final r) = update_where d f (raw_documents m).
Proof.
  intros Hid. rewrite (process_document_with_id _ _ _ _ Hid). cbv zeta.
  py_prims.
  destruct (filter _ (raw_documents m)) as [|row [|row2 rows]] eqn:Hrows.
  - destruct (PyStr.truthy _); unfold final; py_cbn;
      (eexists; split; [|reflexivity]; by intros).
  - rewrite (rows_of_doc_id d m row Hrows).
    repeat (py_helpers; py_cbn; py_split).
    all: unfold final; py_cbn; rewrite ?update_where_fuse by done.
    all: eexists; split; [|reflexivity]; by intros.
  - destruct (PyStr.truthy _); unfold final; py_cbn;
      (eexists; split; [|reflexivity]; by intros).
Qed.

(** X6. A job whose payload carries the [doc_id] in the spelling of [str]
    touches the rows of that document only: the rows of every other
    document are the same rows as before, the table holds the same ids, no
    row being added or removed, and the Redis list is not touched. Where a
    row stands in the table is left open. *)
Theorem job_touches_its_document_only
    (ext : Externals) (cfg : Settings) (payload : gmap string string)
    (d : string) (m : Machine) :
  payload !! "doc_id" = Some d ->
  Uuid.canonical d = true ->
  let r := process_document ext cfg payload m in
  filter (fun row => doc_id row <> d) (raw_documents (final r))
  ≡ₚ filter (fun row => doc_id row <> d) (raw_documents m)
  /\ map doc_id (raw_documents (final r)) ≡ₚ map doc_id (raw_documents m)
  /\ redis_queue (final r) = redis_queue m.
Proof.
  intros Hid _. cbv zeta.
  destruct (process_document_frame ext cfg payload d m Hid) as (f & Hf & Heq).
  rewrite Heq. split; [by rewrite update_where_others|].
  split; [by rewrite update_where_doc_ids|].
  rewrite (process_document_with_id _ _ _ _ Hid).
  py_exec. all: done.
Qed.

Lemma job_touches_its_document_only_witness :
  let r := process_document Fixture.ocr_empty settings
             (job_payload Fixture.scan) Sample.crowded in
  filter (fun row => doc_id row <> Fixture.id1) (raw_documents (final r))
  ≡ₚ filter (fun row => doc_id row <> Fixture.id1)
       (raw_documents Sample.crowded)
  /\ map doc_id (raw_documents (final r))
     ≡ₚ map doc_id (raw_documents Sample.crowded)
  /\ redis_queue (final r) = redis_queue Sample.crowded.
Proof.
  apply (job_touches_its_document_only Fixture.ocr_empty settings
           (job_payload Fixture.scan) Fixture.id1 Sample.crowded);
    reflexivity.
Defined.

(** X7. A job writes the object store at one key at most, the quarantine
    key of its document: every other object is as before (nothing is
    deleted or overwritten), and the quarantine key either is as before or
    holds the upload-bucket object of the same key. *)
Theorem job_writes_quarantine_key_only
    (ext : Externals) (cfg : Settings) (payload : gmap string string)
    (d : string) (m : Machine) :
  payload !! "doc_id" = Some d ->
  let r := process_document ext cfg payload m in
  (forall k,
     k <> (S3_QUARANTINE_BUCKET cfg, d +:+ ".pdf") ->
     s3_objects (final r) !! k = s3_objects m !! k)
  /\ (s3_objects (final r) !! (S3_QUARANTINE_BUCKET cfg, d +:+ ".pdf")
      = s3_objects m !! (S3_QUARANTINE_BUCKET cfg, d +:+ ".pdf")
      \/ (is_Some (s3_objects m !! (S3_BUCKET cfg, d +:+ ".pdf"))
          /\ s3_objects (final r) !! (S3_QUARANTINE_BUCKET cfg, d +:+ ".pdf")
             = s3_objects m !! (S3_BUCKET cfg, d +:+ ".pdf"))).
Proof.
  intros Hid. rewrite (process_document_with_id _ _ _ _ Hid). cbv zeta.
  py_exec.
  all: unfold final; py_cbn.
  all: split; [intros k Hk; by rewrite ?lookup_insert_ne|].
  all: try (by left).
  all: right; rewrite lookup_insert_eq; split; [by eexists|done].
Qed.

Lemma job_writes_quarantine_key_only_witness :
  let r := process_document Fixture.ocr_empty settings
             (job_payload Fixture.tampered) (Fixture.machine Fixture.tampered) in
  let quarantine_key := ("app-quarantine", Fixture.id1 +:+ ".pdf") in
  let upload_key := ("app-uploads", Fixture.id1 +:+ ".pdf") in
  (forall k,
     k <> quarantine_key ->
     s3_objects (final r) !! k
     = s3_objects (Fixture.machine Fixture.tampered) !! k)
  /\ (s3_objects (final r) !! quarantine_key
      = s3_objects (Fixture.machine Fixture.tampered) !! quarantine_key
      \/ (is_Some (s3_objects (Fixture.machine Fixture.tampered) !! upload_key)
          /\ s3_objects (final r) !! quarantine_key
             = s3_objects (Fixture.machine Fixture.tampered) !! upload_key)).
Proof.
  apply (job_writes_quarantine_key_only Fixture.ocr_empty settings
           (job_payload Fixture.tampered) Fixture.id1
           (Fixture.machine Fixture.tampered)).
  reflexivity.
Defined.

(** ** The row of a job *)

Lemma decide_retry_lt text retry_count max_retries :
  RetryPolicy.decide text retry_count max_retries = RetryPolicy.Retry ->
  retry_count + 1 < max_retries.
Proof.
  unfold RetryPolicy.decide. destruct (_ || _); [|done].
  destruct (retry_count + 1 <? max_retries) eqn:Hlt; [|done].
  intros _. by apply Z.ltb_lt.
Qed.

(** What a job does to the single row of its document. *)
Lemma process_document_row ext cfg payload d row m :
  payload !! "doc_id" = Some d ->
  rows_of d m = [row] ->
  let r := process_document ext cfg payload m in
  exists row',
    rows_of d (final r) = [row']
    /\ (doc_id row' = doc_id row /\ source_uri row' = source_uri row
        /\ file_hash row' = file_hash row /\ file_size row' = file_size row
        /\ last_modified row' = last_modified row
        /\ ingest_ts row' = ingest_ts row)
    /\ (file_type row' = file_type row
        \/ (file_type row = "pdf" /\ file_type row' = "scanned"))
    /\ ((parse_status row' = "pending"
         /\ retry_count row' = retry_count row + 1
         /\ retry_count row' < MAX_RETRIES cfg
         /\ error_message row' = error_message row)
        \/ (parse_status row' = "failed"
            /\ retry_count row' = retry_count row
            /\ is_Some (error_message row'))
        \/ (parse_status row' = "success"
            /\ retry_count row' = retry_count row
            /\ error_message row' = None)).
Proof.
  intros Hid Hrows. rewrite (process_document_with_id _ _ _ _ Hid). cbv zeta.
  pose proof (rows_of_doc_id d m row Hrows) as Hd.
  unfold rows_of in *. py_prims. rewrite Hrows, Hd.
  repeat (py_helpers; py_cbn; py_split).
  all: unfold final; py_cbn; rewrite ?update_where_fuse by done.
  all: rewrite filter_update_where, Hrows by done.
  all: try match goal with
           | H : RetryPolicy.decide _ _ _ = RetryPolicy.Retry |- _ =>
               apply decide_retry_lt in H
           end.
  all: try match goal with
           | H : (file_type _ =? "pdf")%string = true |- _ =>
               apply String.eqb_eq in H
           end.
  all: eexists; split; [reflexivity|]; py_cbn.
  all: split; [done|].
  all: split; [first [by left | by right]|].
  all: first [ by left | right; left; by eauto | right; right; by eauto ].
Qed.

(** X8. A job never changes the identity of a document: [doc_id],
    [source_uri], [file_hash], [file_size], [last_modified] and [ingest_ts]
    of its row are as before, and [file_type] is as before or goes from pdf
    to scanned. *)
Theorem job_keeps_identity_columns
    (ext : Externals) (cfg : Settings) (payload : gmap string string)
    (d : string) (row : RawDocument) (m : Machine) :
  payload !! "doc_id" = Some d ->
  rows_of d m = [row] ->
  exists row',
    rows_of d (final (process_document ext cfg payload m)) = [row']
    /\ doc_id row' = doc_id row /\ source_uri row' = source_uri row
    /\ file_hash row' = file_hash row /\ file_size row' = file_size row
    /\ last_modified row' = last_modified row
    /\ ingest_ts row' = ingest_ts row
    /\ (file_type row' = file_type row
        \/ (file_type row = "pdf" /\ file_type row' = "scanned")).
Proof.
  intros Hid Hrows.
  destruct (process_document_row ext cfg payload d row m Hid Hrows)
    as (row' & Hrow' & (? & ? & ? & ? & ? & ?) & Hft & _).
  exists row'. by repeat split.
Qed.

Lemma job_keeps_identity_columns_witness :
  exists row',
    rows_of Fixture.id1
      (final (process_document Fixture.ocr_empty settings
                (job_payload Fixture.pdf) (Fixture.machine Fixture.pdf)))
    = [row']
    /\ doc_id row' = doc_id Fixture.pdf
    /\ source_uri row' = source_uri Fixture.pdf
    /\ file_hash row' = file_hash Fixture.pdf
    /\ file_size row' = file_size Fixture.pdf
    /\ last_modified row' = last_modified Fixture.pdf
    /\ ingest_ts row' = ingest_ts Fixture.pdf
    /\ (file_type row' = file_type Fixture.pdf
        \/ (file_type Fixture.pdf = "pdf" /\ file_type row' = "scanned")).
Proof.
  apply (job_keeps_identity_columns Fixture.ocr_empty settings
           (job_payload Fixture.pdf) Fixture.id1 Fixture.pdf
           (Fixture.machine Fixture.pdf));
    reflexivity.
Defined.

(** X9. As long as the database stores what the run writes, a job whose
    payload carries the [doc_id] in the spelling of [str] leaves its
    document in one of three states, never queued.
    Either the status is pending, the retry count has grown by exactly one
    and is still below [MAX_RETRIES], and the error message is as before;
    or the status is failed, the retry count is as before and an error
    message is set; or the status is success, the retry count is as before
    and the error message is cleared. *)
Theorem job_outcome_of_row
    (ext : Externals) (cfg : Settings) (payload : gmap string string)
    (d : string) (row : RawDocument) (m : Machine) :
  payload !! "doc_id" = Some d ->
  Uuid.canonical d = true ->
  rows_of d m = [row] ->
  storable d m (process_document ext cfg payload m) ->
  exists row',
    rows_of d (final (process_document ext cfg payload m)) = [row']
    /\ ((parse_status row' = "pending"
         /\ retry_count row' = retry_count row + 1
         /\ retry_count row' < MAX_RETRIES cfg
         /\ error_message row' = error_message row)
        \/ (parse_status row' = "failed"
            /\ retry_count row' = retry_count row
            /\ is_Some (error_message row'))
        \/ (parse_status row' = "success"
            /\ retry_count row' = retry_count row
            /\ error_message row' = None)).
Proof.
  intros Hid _ Hrows _.
  destruct (process_document_row ext cfg payload d row m Hid Hrows)
    as (row' & Hrow' & _ & _ & Hout).
  by exists row'.
Qed.

Lemma job_outcome_of_row_witness :
  exists row',
    rows_of Fixture.id1
      (final (process_document Fixture.ocr_empty settings
                (job_payload Fixture.scan) (Fixture.machine Fixture.scan)))
    = [row']
    /\ ((parse_status row' = "pending"
         /\ retry_count row' = retry_count Fixture.scan + 1
         /\ retry_count row' < MAX_RETRIES settings
         /\ error_message row' = error_message Fixture.scan)
        \/ (parse_status row' = "failed"
            /\ retry_count row' = retry_count Fixture.scan
            /\ is_Some (error_message row'))
        \/ (parse_status row' = "success"
            /\ retry_count row' = retry_count Fixture.scan
            /\ error_message row' = None)).
Proof.
  apply (job_outcome_of_row Fixture.ocr_empty settings
           (job_payload Fixture.scan) Fixture.id1 Fixture.scan
           (Fixture.machine Fixture.scan));
    [reflexivity|reflexivity|reflexivity|].
  storable_here.
Defined.

(** ** Classification, once *)

Lemma filter_text_chain (f : Event -> bool) ext data :
  f CallPdfplumber = false -> f CallTika = false ->
  List.filter f (Spec.text_chain ext data).1 = [].
Proof.
  intros H1 H2. unfold Spec.text_chain.
  destruct (Spec.local_text ext data); simpl; by rewrite ?H1, ?H2.
Qed.

Lemma filter_ocr_chain (f : Event -> bool) ext data :
  f CallPaddleOCR = false -> f CallTesseract = false ->
  List.filter f (Spec.ocr_chain ext data).1 = [].
Proof.
  intros H1 H2. unfold Spec.ocr_chain.
  destruct (Spec.remote_ocr_text ext data); simpl; by rewrite ?H1, ?H2.
Qed.

(** The job of a row that is no pdf. *)
Lemma other_types_run ext cfg payload d row m :
  payload !! "doc_id" = Some d ->
  rows_of d m = [row] ->
  file_type row <> "pdf" ->
  let r := process_document ext cfg payload m in
  List.filter is_pdf_call (events r) = []
  /\ exists row', rows_of d (final r) = [row']
                  /\ file_type row' = file_type row.
Proof.
  intros Hid Hrows Hft%String.eqb_neq.
  rewrite (process_document_with_id _ _ _ _ Hid). cbv zeta.
  unfold rows_of in *. py_prims. rewrite Hrows.
  py_helpers. py_cbn.
  destruct (download_result _ _ _) as [e|data]; py_cbn.
  { destruct (PyStr.truthy _); unfold events, final; py_cbn;
      rewrite !List.filter_app, filter_download_events by done;
      rewrite filter_update_where, Hrows by done;
      (split; [done|by eexists]). }
  rewrite Hft. py_cbn. rewrite Hft.
  repeat (py_helpers; py_cbn; py_split).
  all: unfold events, final; py_cbn.
  all: rewrite ?List.filter_app, ?filter_download_events,
         ?filter_ocr_chain by done.
  all: rewrite ?update_where_fuse by done.
  all: rewrite filter_update_where, Hrows by done.
  all: split; [done|by eexists].
Qed.

(** X10. The job of a document whose stored type is not pdf (image,
    scanned, unknown) calls neither pdfplumber nor Tika, whatever its
    outcome, and leaves the stored type as it is: such a document is not
    classified, and only the OCR chain can read it. *)
Theorem no_classification_of_other_types
    (ext : Externals) (cfg : Settings) (payload : gmap string string)
    (d : string) (row : RawDocument) (m : Machine) :
  payload !! "doc_id" = Some d ->
  rows_of d m = [row] ->
  file_type row <> "pdf" ->
  let r := process_document ext cfg payload m in
  List.filter is_pdf_call (events r) = []
  /\ exists row', rows_of d (final r) = [row']
                  /\ file_type row' = file_type row.
Proof. apply other_types_run. Qed.

Lemma no_classification_of_other_types_witness :
  let r := process_document Fixture.blank_page settings
             (job_payload Fixture.scan) (Fixture.machine Fixture.scan) in
  List.filter is_pdf_call (events r) = []
  /\ exists row', rows_of Fixture.id1 (final r) = [row']
                  /\ file_type row' = file_type Fixture.scan.
Proof.
  apply (no_classification_of_other_types Fixture.blank_page settings
           (job_payload Fixture.scan) Fixture.id1 Fixture.scan
           (Fixture.machine Fixture.scan));
    [reflexivity|reflexivity|discriminate].
Defined.

(** X11. A pdf that the classification finds scanned is classified once.
    When the fetch and the integrity check pass, the job stores the type
    scanned whatever the extraction then gives, calls pdfplumber for the
    classification only and never Tika; and any later delivery of the job
    calls neither pdfplumber nor Tika. *)
Theorem scanned_pdf_classified_once
    (ext : Externals) (cfg : Settings) (payload : gmap string string)
    (d : string) (row : RawDocument) (data : bytes) (m : Machine) :
  payload !! "doc_id" = Some d ->
  rows_of d m = [row] ->
  file_type row = "pdf" ->
  outcome (download_from_s3 ext (source_uri row) m) = inr data ->
  recompute_sha256 ext data = file_hash row ->
  outcome (is_scanned_pdf ext data m) = inr true ->
  let r := process_document ext cfg payload m in
  (exists row', rows_of d (final r) = [row'] /\ file_type row' = "scanned")
  /\ List.filter is_pdf_call (events r) = [CallPdfplumber]
  /\ forall ext',
       List.filter is_pdf_call
         (events (process_document ext' cfg payload (final r))) = [].
Proof.
  intros Hid Hrows Hft Hdl Hhash%String.eqb_eq Hsc. cbv zeta.
  assert ((exists row',
             rows_of d (final (process_document ext cfg payload m)) = [row']
             /\ file_type row' = "scanned")
          /\ List.filter is_pdf_call
               (events (process_document ext cfg payload m))
             = [CallPdfplumber]) as [Hrow Hcalls].
  { rewrite download_outcome in Hdl. rewrite is_scanned_pdf_run in Hsc.
    injection Hsc as Hsc.
    rewrite (process_document_with_id _ _ _ _ Hid).
    pose proof (rows_of_doc_id d m row Hrows) as Hd.
    unfold rows_of in *. py_prims. rewrite Hrows.
    py_helpers. py_cbn. rewrite Hdl, Hhash, Hft.
    cbn [negb String.eqb Ascii.eqb Bool.eqb].
    py_helpers. py_cbn. rewrite Hsc. py_cbn.
    cbn [String.eqb Ascii.eqb Bool.eqb]. rewrite Hd.
    repeat (py_helpers; py_cbn; py_split).
    all: unfold events, final; py_cbn; rewrite ?update_where_fuse by done.
    all: rewrite filter_update_where, Hrows by done.
    all: rewrite ?List.filter_app, ?filter_download_events,
           ?filter_ocr_chain by done.
    all: split; [by eexists|done]. }
  split; [done|]. split; [done|]. intros ext'.
  destruct Hrow as (row' & Hrow' & Hft').
  apply (other_types_run ext' cfg payload d row' _ Hid Hrow').
  by rewrite Hft'.
Qed.

Lemma scanned_pdf_classified_once_witness :
  let r := process_document Fixture.ocr_empty settings
             (job_payload Fixture.pdf) (Fixture.machine Fixture.pdf) in
  (exists row', rows_of Fixture.id1 (final r) = [row']
                /\ file_type row' = "scanned")
  /\ List.filter is_pdf_call (events r) = [CallPdfplumber]
  /\ forall ext',
       List.filter is_pdf_call
         (events (process_document ext' settings (job_payload Fixture.pdf)
                    (final r))) = [].
Proof.
  apply (scanned_pdf_classified_once Fixture.ocr_empty settings
           (job_payload Fixture.pdf) Fixture.id1 Fixture.pdf []
           (Fixture.machine Fixture.pdf));
    reflexivity.
Defined.

(** ** Outcomes of a job *)

(** X12. A pdf with text, processed once under its [doc_id] in the
    spelling of [str]: when the fetch and the integrity check pass, the classification finds text, the extracted text is
    accepted and the database stores what the run writes (a text without
    NUL, under a chunk id that is not taken), the job appends one chunk that
    holds the extracted text under the document's id, with null page and
    token fields, and does not touch the object store. The call to the
    success counter follows the commit: when it raises, as it does on the
    counter of worker.py, the handler sets the row to failed with that
    error's text, the chunk staying in place; the row is in status success
    with the error message cleared only if that call returns. *)
Theorem text_pdf_succeeds
    (ext : Externals) (cfg : Settings) (payload : gmap string string)
    (d : string) (row : RawDocument) (data : bytes) (text : string)
    (m : Machine) :
  payload !! "doc_id" = Some d ->
  Uuid.canonical d = true ->
  rows_of d m = [row] ->
  file_type row = "pdf" ->
  outcome (download_from_s3 ext (source_uri row) m) = inr data ->
  recompute_sha256 ext data = file_hash row ->
  outcome (is_scanned_pdf ext data m) = inr false ->
  outcome (extract_text_from_pdf ext data m) = inr text ->
  RetryPolicy.decide text (retry_count row) (MAX_RETRIES cfg)
  = RetryPolicy.Accept ->
  storable d m (process_document ext cfg payload m) ->
  let r := process_document ext cfg payload m in
  let chunk :=
    {| chunk_id := uuid4 ext; chunk_doc_id := d; page_number := None;
       start_token := None; end_token := None; chunk_text := text;
       chunk_ingest_ts := now ext |} in
  raw_chunks (final r) = raw_chunks m ++ [chunk]
  /\ s3_objects (final r) = s3_objects m
  /\ outcome r = inr tt
  /\ match metrics_labels ext "pdf" with
     | None =>
         rows_of d (final r)
         = [set_error_message None (set_parse_status "success" row)]
     | Some e =>
         rows_of d (final r)
         = [set_error_message (Some (str_exn e))
              (set_parse_status "failed" row)]
     end.
Proof.
  intros Hid _ Hrows Hft Hdl Hhash%String.eqb_eq Hsc Htext Hacc _.
  rewrite download_outcome in Hdl. rewrite is_scanned_pdf_run in Hsc.
  rewrite extract_text_from_pdf_run in Htext.
  injection Hsc as Hsc. injection Htext as Htext.
  rewrite (process_document_with_id _ _ _ _ Hid). cbv zeta.
  unfold rows_of in *. py_prims. rewrite Hrows.
  py_helpers. py_cbn. rewrite Hdl, Hhash, Hft.
  cbn [negb String.eqb Ascii.eqb Bool.eqb].
  py_helpers. py_cbn. rewrite Hsc. py_cbn. rewrite Hft.
  cbn [String.eqb Ascii.eqb Bool.eqb].
  py_helpers. py_cbn. rewrite Htext, Hacc. py_cbn.
  destruct (metrics_labels ext "pdf") as [e|]; py_cbn;
    [destruct (PyStr.truthy _)|]; unfold final, outcome; py_cbn;
    rewrite ?update_where_fuse by done;
    by rewrite filter_update_where, Hrows.
Qed.

Lemma text_pdf_succeeds_witness :
  let ext := Fixture.readable Fixture.cid1 in
  let r := process_document ext settings
             (job_payload Fixture.pdf) (Fixture.machine Fixture.pdf) in
  let chunk :=
    {| chunk_id := Fixture.cid1; chunk_doc_id := Fixture.id1;
       page_number := None; start_token := None; end_token := None;
       chunk_text := Fixture.fifty_two_chars +:+ NL;
       chunk_ingest_ts := now ext |} in
  raw_chunks (final r) = raw_chunks (Fixture.machine Fixture.pdf) ++ [chunk]
  /\ s3_objects (final r) = s3_objects (Fixture.machine Fixture.pdf)
  /\ outcome r = inr tt
  /\ match metrics_labels ext "pdf" with
     | None =>
         rows_of Fixture.id1 (final r)
         = [set_error_message None (set_parse_status "success" Fixture.pdf)]
     | Some e =>
         rows_of Fixture.id1 (final r)
         = [set_error_message (Some (str_exn e))
              (set_parse_status "failed" Fixture.pdf)]
     end.
Proof.
  apply (text_pdf_succeeds (Fixture.readable Fixture.cid1) settings
           (job_payload Fixture.pdf) Fixture.id1 Fixture.pdf []
           (Fixture.fifty_two_chars +:+ NL) (Fixture.machine Fixture.pdf));
    try reflexivity.
  storable_here.
Defined.

(** X13. When the copy into quarantine raises (the store is unavailable, or
    the upload bucket holds nothing under [<doc_id>.pdf]), on the integrity
    path as on the path of exhausted retries, the job still ends normally
    with the row in status failed; the message is the text of the copy
    error, the retry count is as before, the store is unchanged and no
    chunk is added. *)
Theorem failed_quarantine_copy
    (ext : Externals) (cfg : Settings) (payload : gmap string string)
    (d : string) (row : RawDocument) (e : exn) (m : Machine) :
  payload !! "doc_id" = Some d ->
  rows_of d m = [row] ->
  outcome (quarantine ext cfg d m) = inl e ->
  let r := process_document ext cfg payload m in
  List.filter is_copy (events r) <> [] ->
  s3_objects (final r) = s3_objects m
  /\ raw_chunks (final r) = raw_chunks m
  /\ outcome r = inr tt
  /\ exists row',
       rows_of d (final r) = [row']
       /\ parse_status row' = "failed"
       /\ error_message row' = Some (str_exn e)
       /\ retry_count row' = retry_count row.
Proof.
  intros Hid Hrows Hq. unfold quarantine, s3_copy_object, outcome in Hq.
  rewrite (process_document_with_id _ _ _ _ Hid). cbv zeta.
  pose proof (rows_of_doc_id d m row Hrows) as Hd.
  unfold rows_of in *. py_prims. rewrite Hrows, Hd.
  repeat (py_helpers; py_cbn; py_split).
  all: unfold final, events, outcome; py_cbn.
  all: rewrite ?List.filter_app, ?filter_download_events, ?filter_text_chain,
         ?filter_ocr_chain by done.
  all: try (intros Hne; by destruct Hne).
  all: intros _; cbn [snd] in Hq; simplify_eq.
  all: rewrite ?update_where_fuse by done.
  all: rewrite filter_update_where, Hrows by done.
  all: repeat split; by eexists.
Qed.

Lemma failed_quarantine_copy_witness :
  let r := process_document Fixture.ocr_empty settings
             (job_payload Fixture.moved) (Fixture.machine Fixture.moved) in
  s3_objects (final r) = s3_objects (Fixture.machine Fixture.moved)
  /\ raw_chunks (final r) = raw_chunks (Fixture.machine Fixture.moved)
  /\ outcome r = inr tt
  /\ exists row',
       rows_of Fixture.id3 (final r) = [row']
       /\ parse_status row' = "failed"
       /\ error_message row' = Some (str_exn (NoSuchKey "CopyObject"))
       /\ retry_count row' = retry_count Fixture.moved.
Proof.
  apply (failed_quarantine_copy Fixture.ocr_empty settings
           (job_payload Fixture.moved) Fixture.id3 Fixture.moved
           (NoSuchKey "CopyObject") (Fixture.machine Fixture.moved));
    try reflexivity.
  vm_compute. discriminate.
Defined.

(** X14. The job of a document that has no row, named by a [doc_id] in
    the spelling of [str], changes nothing: the tables
    and the store are as before, nothing is fetched and no backend is
    called; the handler reports the missing row and issues a failed-write
    that matches no row. *)
Theorem unknown_document_changes_nothing
    (ext : Externals) (cfg : Settings) (payload : gmap string string)
    (d : string) (m : Machine) :
  payload !! "doc_id" = Some d ->
  Uuid.canonical d = true ->
  rows_of d m = [] ->
  let r := process_document ext cfg payload m in
  raw_documents (final r) = raw_documents m
  /\ raw_chunks (final r) = raw_chunks m
  /\ s3_objects (final r) = s3_objects m
  /\ outcome r = inr tt
  /\ events r
     = (if PyStr.truthy (or_empty (SENTRY_DSN cfg))
        then [SentryCapture (Exception "NoResultFound"
                               "No row was found when one was required")]
        else [])
       ++ [StatusCommitted d "failed"].
Proof.
  intros Hid _ Hrows. rewrite (process_document_with_id _ _ _ _ Hid). cbv zeta.
  unfold rows_of in *. py_prims. rewrite Hrows.
  assert (forall f, update_where d f (raw_documents m) = raw_documents m)
    as Hsame.
  { intros f. unfold update_where.
    rewrite <- (map_id (raw_documents m)) at 2. apply map_ext_in.
    intros row Hin%list_elem_of_In. destruct (decide (doc_id row = d)); [|done].
    assert (row ∈ filter (fun r => doc_id r = d) (raw_documents m)) as Hf
      by by apply list_elem_of_filter.
    rewrite Hrows in Hf. by apply not_elem_of_nil in Hf. }
  destruct (PyStr.truthy _); unfold final, events, outcome; py_cbn;
    by rewrite Hsame.
Qed.

Lemma unknown_document_changes_nothing_witness :
  let r := process_document Fixture.ocr_empty settings
             (job_payload Fixture.lost) (Fixture.machine Fixture.scan) in
  raw_documents (final r) = raw_documents (Fixture.machine Fixture.scan)
  /\ raw_chunks (final r) = raw_chunks (Fixture.machine Fixture.scan)
  /\ s3_objects (final r) = s3_objects (Fixture.machine Fixture.scan)
  /\ outcome r = inr tt
  /\ events r
     = (if PyStr.truthy (or_empty (SENTRY_DSN settings))
        then [SentryCapture (Exception "NoResultFound"
                               "No row was found when one was required")]
        else [])
       ++ [StatusCommitted Fixture.id2 "failed"].
Proof.
  apply (unknown_document_changes_nothing Fixture.ocr_empty settings
           (job_payload Fixture.lost) Fixture.id2
           (Fixture.machine Fixture.scan));
    reflexivity.
Defined.

Lemma metric_labels_app evs1 evs2 :
  metric_labels (evs1 ++ evs2) = metric_labels evs1 ++ metric_labels evs2.
Proof.
  induction evs1 as [|ev evs1 IH]; [done|].
  destruct ev; simpl; by rewrite IH.
Qed.

Lemma metric_labels_download uri : metric_labels (download_events uri) = [].
Proof.
  unfold download_events. by destruct (PyStr.split_once _ _) as [? [?|]].
Qed.

Lemma metric_labels_text_chain ext data :
  metric_labels (Spec.text_chain ext data).1 = [].
Proof. unfold Spec.text_chain. by destruct (Spec.local_text _ _). Qed.

Lemma metric_labels_ocr_chain ext data :
  metric_labels (Spec.ocr_chain ext data).1 = [].
Proof. unfold Spec.ocr_chain. by destruct (Spec.remote_ocr_text _ _). Qed.

(** X15. The success counter is asked at most once per job, and only after
    a committed write of success. The label is "scanned" only for a row
    stored as pdf (one this very run reclassified); a document stored as
    image or scanned that the OCR chain reads is counted under "pdf". *)
Theorem success_counter_label
    (ext : Externals) (cfg : Settings) (payload : gmap string string)
    (d : string) (row : RawDocument) (m : Machine) :
  payload !! "doc_id" = Some d ->
  rows_of d m = [row] ->
  let r := process_document ext cfg payload m in
  (success_writes d (events r) = 0%nat /\ metric_labels (events r) = [])
  \/ (success_writes d (events r) = 1%nat
      /\ file_type row = "pdf"
      /\ (metric_labels (events r) = ["scanned"]
          \/ metric_labels (events r) = ["pdf"]))
  \/ (success_writes d (events r) = 1%nat
      /\ file_type row <> "pdf"
      /\ metric_labels (events r) = ["pdf"]).
Proof.
  intros Hid Hrows. rewrite (process_document_with_id _ _ _ _ Hid). cbv zeta.
  unfold rows_of in *. py_prims. rewrite Hrows.
  repeat (py_helpers; py_cbn; py_split).
  all: unfold events; py_cbn.
  all: sw_norm.
  all: rewrite ?metric_labels_app, ?metric_labels_download,
         ?metric_labels_text_chain, ?metric_labels_ocr_chain.
  all: cbn [metric_labels app Nat.add].
  all: try (left; by split).
  all: try match goal with
           | H : (file_type _ =? "pdf")%string = true |- _ =>
               apply String.eqb_eq in H
           | H : (file_type _ =? "pdf")%string = false |- _ =>
               apply String.eqb_neq in H
           end.
  all: first [ right; left; split; [done|split; [done|by eauto]]
             | right; right; by repeat split ].
Qed.

Lemma success_counter_label_witness :
  let r := process_document (Fixture.readable "c-1") settings
             (job_payload Fixture.pdf) (Fixture.machine Fixture.pdf) in
  (success_writes Fixture.id1 (events r) = 0%nat
   /\ metric_labels (events r) = [])
  \/ (success_writes Fixture.id1 (events r) = 1%nat
      /\ file_type Fixture.pdf = "pdf"
      /\ (metric_labels (events r) = ["scanned"]
          \/ metric_labels (events r) = ["pdf"]))
  \/ (success_writes Fixture.id1 (events r) = 1%nat
      /\ file_type Fixture.pdf <> "pdf"
      /\ metric_labels (events r) = ["pdf"]).
Proof.
  apply (success_counter_label (Fixture.readable "c-1") settings
           (job_payload Fixture.pdf) Fixture.id1 Fixture.pdf
           (Fixture.machine Fixture.pdf));
    reflexivity.
Defined.

(** ** Runs of the scheduler *)

(** X16. With no document in status pending, a scheduler run returns at
    once: nothing is published and nothing is changed. *)
Theorem nothing_pending_nothing_done (ext : Externals) (m : Machine) :
  Forall (fun doc => parse_status doc <> "pending") (raw_documents m) ->
  enqueue_pending ext m = (m, [], inr tt).
Proof.
  intros Hnone. unfold enqueue_pending, get_machine, bind, select_pending.
  assert (filter (fun doc => parse_status doc = "pending") (raw_documents m)
          = []) as ->; [|done].
  induction Hnone as [|doc docs Hdoc _ IH]; [done|].
  by rewrite filter_cons_False.
Qed.

Lemma nothing_pending_nothing_done_witness :
  enqueue_pending Fixture.ocr_empty (Fixture.machine Fixture.scan)
  = (Fixture.machine Fixture.scan, [], inr tt).
Proof.
  apply nothing_pending_nothing_done.
  repeat constructor. discriminate.
Defined.

Lemma publish_from_fault ext e docs : forall i k m,
  rpush_fault ext (i + k)%nat = Some e ->
  (forall j, (j < k)%nat -> rpush_fault ext (i + j)%nat = None) ->
  (k < length docs)%nat ->
  let r := publish_from ext i docs m in
  outcome r = inl e
  /\ redis_queue (final r) = redis_queue m ++ map job_payload (take k docs).
Proof.
  induction docs as [|doc docs IH]; intros i k m He Hbefore Hk; cbv zeta;
    [simpl in Hk; lia|].
  cbn [publish_from]. unfold bind, rpush.
  destruct k as [|k].
  - rewrite Nat.add_0_r in He. rewrite He.
    unfold outcome, final; simpl. by rewrite app_nil_r.
  - assert (rpush_fault ext i = None) as ->
      by (rewrite <- (Nat.add_0_r i); apply Hbefore; lia).
    specialize (IH (S i) k
                  (set_redis_queue (redis_queue m ++ [job_payload doc]) m)).
    cbv zeta in IH.
    destruct IH as [Ho Hq].
    + by replace (S i + k)%nat with (i + S k)%nat by lia.
    + intros j Hj. replace (S i + j)%nat with (i + S j)%nat by lia.
      apply Hbefore. lia.
    + simpl in Hk. lia.
    + destruct (publish_from ext (S i) docs _) as [[m' evs] r].
      unfold outcome, final in *; simpl in *. subst r. split; [done|].
      by rewrite Hq, <- app_assoc.
Qed.

(** X17. When Redis refuses the [k]-th publish of a run, the run raises
    that error with exactly the first [k] selected documents published, in
    selection order; the remaining ones are not published and no row is
    changed. *)
Theorem publish_stops_at_fault
    (ext : Externals) (m : Machine) (k : nat) (e : exn) :
  rpush_fault ext k = Some e ->
  (forall j, (j < k)%nat -> rpush_fault ext j = None) ->
  (k < length (select_pending (raw_documents m)))%nat ->
  let r := enqueue_pending ext m in
  outcome r = inl e
  /\ redis_queue (final r)
     = redis_queue m
       ++ map job_payload (take k (select_pending (raw_documents m)))
  /\ raw_documents (final r) = raw_documents m.
Proof.
  intros He Hbefore Hk. cbv zeta.
  split; [|split; [|apply enqueue_pending_run]].
  all: unfold enqueue_pending, get_machine, bind.
  all: destruct (select_pending (raw_documents m)) as [|doc docs] eqn:Hsel;
    [simpl in Hk; lia|].
  all: destruct (publish_from_fault ext e (doc :: docs) 0 k m He Hbefore Hk)
    as [Ho Hq].
  all: destruct (publish_from ext 0 (doc :: docs) m) as [[m' evs] r].
  all: unfold outcome, final in *; simpl in *; by subst.
Qed.

Lemma publish_stops_at_fault_witness :
  let r := enqueue_pending (Sample.redis_down_at 2) Sample.crowded in
  outcome r = inl Fixture.unreachable
  /\ redis_queue (final r)
     = redis_queue Sample.crowded
       ++ map job_payload
            (take 2 (select_pending (raw_documents Sample.crowded)))
  /\ raw_documents (final r) = raw_documents Sample.crowded.
Proof.
  apply (publish_stops_at_fault (Sample.redis_down_at 2) Sample.crowded 2
           Fixture.unreachable).
  - reflexivity.
  - intros [|[|j]] Hj; [reflexivity|reflexivity|lia].
  - vm_compute. lia.
Defined.

Lemma scheduler_tick_run ext m :
  let r := scheduler_tick ext m in
  outcome r = inr tt
  /\ final r = final (enqueue_pending ext m).
Proof.
  cbv zeta. unfold scheduler_tick, try_except, ret.
  by destruct (enqueue_pending ext m) as [[m' evs] [e|[]]].
Qed.

(** X18. The loop of the scheduler survives every error of a run, and no
    turn changes a row: the documents selected stay pending. With a healthy
    Redis each turn therefore publishes the same batch again; after [n]
    turns the queue holds [n] copies of it. *)
Theorem ticks_republish_the_batch (exts : list Externals) (m : Machine) :
  let r := scheduler_ticks exts m in
  outcome r = inr tt
  /\ raw_documents (final r) = raw_documents m
  /\ (Forall (fun ext => forall j, rpush_fault ext j = None) exts ->
      redis_queue (final r)
      = redis_queue m
        ++ concat (replicate (length exts)
                     (map job_payload (select_pending (raw_documents m))))).
Proof.
  cbv zeta. revert m. induction exts as [|ext exts IH]; intros m.
  - unfold scheduler_ticks, ret, outcome, final; simpl.
    by rewrite app_nil_r.
  - cbn [scheduler_ticks]. unfold bind.
    destruct (scheduler_tick_run ext m) as [Ho Hf].
    destruct (enqueue_pending_run ext m)
      as (Hdocs & _ & _ & published & _ & Hq & Hall).
    destruct (scheduler_tick ext m) as [[m1 ev1] r1].
    unfold outcome, final in Ho, Hf, Hdocs, Hq; simpl in Ho, Hf. subst r1.
    rewrite <- Hf in Hdocs, Hq. clear Hf.
    destruct (IH m1) as (Ho' & Hd' & Hq').
    destruct (scheduler_ticks exts m1) as [[m2 ev2] r2].
    unfold outcome, final in *; simpl in *.
    split; [done|]. split; [congruence|].
    intros [Hext Hexts]%Forall_cons.
    rewrite (Hq' Hexts), Hq, (Hall Hext), Hdocs. by rewrite <- app_assoc.
Qed.

(** X19. When at most [BATCH_SIZE] documents are pending and Redis has no
    fault, one run publishes a job for every pending document, in the order
    of the table scan. *)
Theorem run_publishes_all_pending (ext : Externals) (m : Machine) :
  (length (filter (fun doc => parse_status doc = "pending") (raw_documents m))
   <= BATCH_SIZE)%nat ->
  (forall j, rpush_fault ext j = None) ->
  redis_queue (final (enqueue_pending ext m))
  = redis_queue m
    ++ map job_payload
         (filter (fun doc => parse_status doc = "pending") (raw_documents m)).
Proof.
  intros Hlen Hok.
  destruct (enqueue_pending_run ext m)
    as (_ & _ & _ & published & _ & Hq & Hall).
  rewrite Hq, (Hall Hok). unfold select_pending. by rewrite take_ge.
Qed.

Lemma run_publishes_all_pending_witness :
  redis_queue
    (final (enqueue_pending Fixture.ocr_empty (Fixture.machine Sample.waiting)))
  = redis_queue (Fixture.machine Sample.waiting)
    ++ map job_payload
         (filter (fun doc => parse_status doc = "pending")
            (raw_documents (Fixture.machine Sample.waiting))).
Proof.
  apply run_publishes_all_pending.
  - vm_compute. lia.
  - intros j. reflexivity.
Defined.
(** ** Intake *)

Lemma read_chunks_concat n : (0 < n)%nat -> forall fuel stream,
  (length stream < fuel)%nat ->
  concat (Intake.read_chunks fuel n stream) = stream.
Proof.
  intros Hn fuel. induction fuel as [|fuel IH]; intros stream Hlen; [lia|].
  cbn [Intake.read_chunks].
  destruct (take n stream) as [|b chunk] eqn:Htake.
  - destruct stream as [|b stream]; [done|]. destruct n; [lia|by simpl in Htake].
  - cbn [concat]. rewrite IH.
    + by rewrite <- Htake, take_drop.
    + rewrite length_drop. destruct stream; [by destruct n|]. simpl in *. lia.
Qed.

Lemma read_chunks_sizes n : forall fuel stream,
  Forall (fun chunk => (0 < length chunk <= n)%nat)
    (Intake.read_chunks fuel n stream).
Proof.
  intros fuel. induction fuel as [|fuel IH]; intros stream; [constructor|].
  cbn [Intake.read_chunks].
  destruct (take n stream) as [|b chunk] eqn:Htake; constructor; [|apply IH].
  rewrite <- Htake, length_take. split; [|lia].
  assert (length (take n stream) <> 0)%nat as Hl by by rewrite Htake.
  rewrite length_take in Hl. lia.
Qed.

Lemma fold_written (chunks : list bytes) : forall (temp_file : bytes) file_size,
  fold_left
    (fun '(temp_file, file_size) chunk =>
       (temp_file ++ chunk, file_size + Z.of_nat (length chunk)))
    chunks (temp_file, file_size)
  = (temp_file ++ concat chunks,
     file_size + Z.of_nat (length (concat chunks))).
Proof.
  induction chunks as [|chunk chunks IH]; intros temp_file file_size.
  - cbn. by rewrite app_nil_r, Z.add_0_r.
  - cbn [fold_left concat]. rewrite IH, length_app, <- app_assoc. f_equal. lia.
Qed.

Lemma fold_fed (chunks : list bytes) : forall fed : bytes,
  fold_left (fun fed chunk => fed ++ chunk) chunks fed = fed ++ concat chunks.
Proof.
  induction chunks as [|chunk chunks IH]; intros fed.
  - cbn. by rewrite app_nil_r.
  - cbn [fold_left concat]. by rewrite IH, <- app_assoc.
Qed.

Lemma chunk_size_pos : (0 < Z.to_nat Intake.CHUNK_SIZE)%nat.
Proof. unfold Intake.CHUNK_SIZE. lia. Qed.

Lemma save_uploaded_file_run out f m :
  Intake.save_uploaded_file out f m
  = (m, [],
     match Intake.save_fault out with
     | Some e => inl e
     | None =>
         inr (Intake.content f, Z.of_nat (length (Intake.content f)))
     end).
Proof.
  unfold Intake.save_uploaded_file.
  destruct (Intake.save_fault out); [done|].
  rewrite fold_written, read_chunks_concat by (apply chunk_size_pos || lia).
  done.
Qed.

Lemma compute_sha256_async_run ext out temp_file m :
  Intake.compute_sha256_async ext out temp_file m
  = (m, [],
     match Intake.hash_fault out with
     | Some e => inl e
     | None => inr (recompute_sha256 ext temp_file)
     end).
Proof.
  unfold Intake.compute_sha256_async.
  destruct (Intake.hash_fault out); [done|].
  rewrite fold_fed, read_chunks_concat by (apply chunk_size_pos || lia).
  done.
Qed.

(** X20. The chunked loops of intake lose nothing: the upload is read in
    chunks that are not empty and hold at most [CHUNK_SIZE] bytes, the
    temporary file holds the bytes of the upload in order, the size counted
    is their number, and the hash fed chunk by chunk is the one the worker
    recomputes over the whole object. *)
Theorem saved_file_is_the_upload
    (ext : Externals) (out : Intake.Outside) (f : Intake.UploadFile)
    (m : Machine) :
  Intake.save_fault out = None ->
  Intake.hash_fault out = None ->
  let stream := Intake.content f in
  let chunks :=
    Intake.read_chunks (S (length stream)) (Z.to_nat Intake.CHUNK_SIZE)
      stream in
  Forall (fun chunk => 0 < Z.of_nat (length chunk) <= Intake.CHUNK_SIZE) chunks
  /\ concat chunks = stream
  /\ Intake.save_uploaded_file out f m
     = (m, [], inr (stream, Z.of_nat (length stream)))
  /\ Intake.compute_sha256_async ext out stream m
     = (m, [], inr (recompute_sha256 ext stream)).
Proof.
  intros Hsave Hhash stream chunks. repeat split.
  - eapply Forall_impl; [apply read_chunks_sizes|].
    intros chunk. cbv beta. unfold Intake.CHUNK_SIZE. lia.
  - apply read_chunks_concat; [apply chunk_size_pos|lia].
  - by rewrite save_uploaded_file_run, Hsave.
  - by rewrite compute_sha256_async_run, Hhash.
Qed.
Lemma saved_file_is_the_upload_witness :
  let stream := Intake.content Desk.report in
  let chunks :=
    Intake.read_chunks (S (length stream)) (Z.to_nat Intake.CHUNK_SIZE)
      stream in
  Forall (fun chunk => 0 < Z.of_nat (length chunk) <= Intake.CHUNK_SIZE) chunks
  /\ concat chunks = stream
  /\ Intake.save_uploaded_file (Desk.outside Fixture.id2 (inr 1700000100))
       Desk.report Desk.empty
     = (Desk.empty, [], inr (stream, Z.of_nat (length stream)))
  /\ Intake.compute_sha256_async (Fixture.readable "c-1")
       (Desk.outside Fixture.id2 (inr 1700000100)) stream Desk.empty
     = (Desk.empty, [], inr (recompute_sha256 (Fixture.readable "c-1") stream)).
Proof.
  apply (saved_file_is_the_upload (Fixture.readable "c-1")
           (Desk.outside Fixture.id2 (inr 1700000100)) Desk.report Desk.empty);
    reflexivity.
Defined.

Lemma isinstance_class cls e :
  Intake.isinstance cls e = true -> Intake.exn_class e = cls.
Proof. unfold Intake.isinstance. by intros H%String.eqb_eq. Qed.

Ltac intake_unfold :=
  unfold Intake.process_single_file, Intake.validate_file,
    Intake.upload_to_s3_async, Intake.s3_upload_file, Intake.add_document,
    Intake.try_except_as, try_except, bind, ret, raise, of_result.

Ltac intake_done :=
  unfold events, outcome, final; cbn -[String.append]; by auto.

Ltac intake_class :=
  repeat match goal with
  | |- context [Intake.isinstance ?c ?e] =>
      let Hc := fresh "Hc" in
      destruct (Intake.isinstance c e) eqn:Hc;
      [apply isinstance_class in Hc|]; cbn -[String.append]
  end.

Lemma allowed_extension ext :
  bool_decide (ext ∈ Intake.ALLOWED_EXTENSIONS) = true -> ext = ".pdf".
Proof.
  intros H%bool_decide_eq_true. unfold Intake.ALLOWED_EXTENSIONS in H.
  by apply list_elem_of_singleton in H.
Qed.

(** One file: what [process_single_file] leaves, accepted or not. *)
Lemma process_single_file_cases ext cfg out f m :
  let r := Intake.process_single_file ext cfg out f m in
  let key := Intake.new_doc_id out +:+ ".pdf" in
  let stored :=
    set_s3_objects (<[(S3_BUCKET cfg, key) := Intake.content f]> (s3_objects m))
      m in
  events r = []
  /\ match outcome r with
     | inr accepted =>
         exists lm row,
           Intake.head_object out = inr lm
           /\ row
              = {| doc_id := Intake.new_doc_id out;
                   source_uri := intake_source_uri (S3_BUCKET cfg) key;
                   file_hash := recompute_sha256 ext (Intake.content f);
                   file_size := Z.of_nat (length (Intake.content f));
                   file_type := "pdf";
                   last_modified := lm;
                   ingest_ts := Intake.insert_now out;
                   parse_status := "pending";
                   retry_count := 0;
                   error_message := None |}
           /\ final r = set_raw_documents (raw_documents m ++ [row]) stored
           /\ (Intake.new_doc_id out ∉ map doc_id (raw_documents m))
           /\ accepted
              = {| Intake.accepted_doc_id := doc_id row;
                   Intake.accepted_source_uri := source_uri row;
                   Intake.accepted_file_name := Intake.filename f;
                   Intake.accepted_file_size := file_size row;
                   Intake.accepted_file_hash := file_hash row;
                   Intake.accepted_status := "accepted" |}
     | inl e =>
         (final r = m \/ final r = stored)
         /\ (Intake.exn_class e = "HTTPException"
             \/ Intake.exn_class e = "FileProcessingError")
     end.
Proof.
  cbv zeta. intake_unfold.
  destruct (negb (PyStr.truthy _)); [intake_done|].
  destruct (negb (bool_decide _)) eqn:Hext; [intake_done|].
  apply negb_false_iff, allowed_extension in Hext.
  destruct (Intake.size f) as [n|];
    [destruct (negb (n =? 0) && (Intake.MAX_FILE_SIZE <? n)); [intake_done|]|].
  all: rewrite save_uploaded_file_run.
  all: destruct (Intake.save_fault out) as [e|]; cbn -[String.append];
    [destruct (Intake.isinstance _ e) eqn:Hc;
       [apply isinstance_class in Hc|]; intake_done|].
  all: rewrite compute_sha256_async_run.
  all: destruct (Intake.hash_fault out) as [e|]; cbn -[String.append];
    [destruct (Intake.isinstance _ e) eqn:Hc;
       [apply isinstance_class in Hc|]; intake_done|].
  all: rewrite Hext.
  all: destruct (Intake.upload_file_fault out) as [e|]; cbn -[String.append].
  all: try destruct (Intake.head_object out) as [e|lm]; cbn -[String.append].
  all: intake_class.
  all: try intake_done.
  all: destruct (bool_decide (_ ∈ _)) eqn:Hnew; cbn -[String.append].
  all: intake_class.
  all: try intake_done.
  all: apply bool_decide_eq_false in Hnew.
  all: unfold Intake.determine_file_type; rewrite Hext.
  all: split; [done|]; by eexists lm, _.
Qed.

Lemma rows_of_fresh d m :
  d ∉ map doc_id (raw_documents m) -> rows_of d m = [].
Proof.
  unfold rows_of. induction (raw_documents m) as [|row docs IH]; [done|].
  cbn [map]. intros [Hrow Hdocs]%not_elem_of_cons.
  rewrite filter_cons_False by done. by apply IH.
Qed.

(** X21. The record of an accepted upload. When [process_single_file]
    returns, exactly one row has been added, under an id no row held: type
    pdf, status pending, no retry, no error message, the locator
    [s3://<bucket>/<id>.pdf], the number of bytes of the upload and their
    hash; the upload bucket holds these bytes under [<id>.pdf]; chunks and
    queue are as before; the answer repeats id, locator, name, size and
    hash. No row of type image or unknown is ever written. *)
Theorem accepted_upload_record
    (ext : Externals) (cfg : Settings) (out : Intake.Outside)
    (f : Intake.UploadFile) (accepted : Intake.Accepted) (m : Machine) :
  let r := Intake.process_single_file ext cfg out f m in
  let key := Intake.new_doc_id out +:+ ".pdf" in
  outcome r = inr accepted ->
  exists lm row,
    Intake.head_object out = inr lm
    /\ row
       = {| doc_id := Intake.new_doc_id out;
            source_uri := intake_source_uri (S3_BUCKET cfg) key;
            file_hash := recompute_sha256 ext (Intake.content f);
            file_size := Z.of_nat (length (Intake.content f));
            file_type := "pdf";
            last_modified := lm;
            ingest_ts := Intake.insert_now out;
            parse_status := "pending";
            retry_count := 0;
            error_message := None |}
    /\ rows_of (Intake.new_doc_id out) m = []
    /\ raw_documents (final r) = raw_documents m ++ [row]
    /\ s3_objects (final r)
       = <[(S3_BUCKET cfg, key) := Intake.content f]> (s3_objects m)
    /\ raw_chunks (final r) = raw_chunks m
    /\ redis_queue (final r) = redis_queue m
    /\ accepted
       = {| Intake.accepted_doc_id := doc_id row;
            Intake.accepted_source_uri := source_uri row;
            Intake.accepted_file_name := Intake.filename f;
            Intake.accepted_file_size := file_size row;
            Intake.accepted_file_hash := file_hash row;
            Intake.accepted_status := "accepted" |}.
Proof.
  intros r key Hacc.
  destruct (process_single_file_cases ext cfg out f m) as [_ Hcases].
  fold r in Hcases. rewrite Hacc in Hcases.
  destruct Hcases as (lm & row & Hhead & Hrow & Hfinal & Hnew & Hanswer).
  exists lm, row. rewrite Hfinal. repeat split; try done.
  by apply rows_of_fresh.
Qed.

Lemma accepted_upload_record_witness :
  let out := Desk.outside Fixture.id2 (inr 1700000100) in
  let r :=
    Intake.process_single_file (Fixture.readable "c-1") settings out
      Desk.report Desk.empty in
  let key := Fixture.id2 +:+ ".pdf" in
  exists lm row,
    Intake.head_object out = inr lm
    /\ row
       = {| doc_id := Fixture.id2;
            source_uri := intake_source_uri "app-uploads" key;
            file_hash := "9f86d081";
            file_size := 4;
            file_type := "pdf";
            last_modified := lm;
            ingest_ts := 1700000000;
            parse_status := "pending";
            retry_count := 0;
            error_message := None |}
    /\ rows_of Fixture.id2 Desk.empty = []
    /\ raw_documents (final r) = [row]
    /\ s3_objects (final r)
       = <[("app-uploads", key) := Intake.content Desk.report]> ∅
    /\ raw_chunks (final r) = []
    /\ redis_queue (final r) = []
    /\ {| Intake.accepted_doc_id := Fixture.id2;
          Intake.accepted_source_uri := intake_source_uri "app-uploads" key;
          Intake.accepted_file_name := Some "report.PDF";
          Intake.accepted_file_size := 4;
          Intake.accepted_file_hash := "9f86d081";
          Intake.accepted_status := "accepted" |}
       = {| Intake.accepted_doc_id := doc_id row;
            Intake.accepted_source_uri := source_uri row;
            Intake.accepted_file_name := Intake.filename Desk.report;
            Intake.accepted_file_size := file_size row;
            Intake.accepted_file_hash := file_hash row;
            Intake.accepted_status := "accepted" |}.
Proof.
  apply (accepted_upload_record (Fixture.readable "c-1") settings
           (Desk.outside Fixture.id2 (inr 1700000100)) Desk.report
           {| Intake.accepted_doc_id := Fixture.id2;
              Intake.accepted_source_uri :=
                intake_source_uri "app-uploads" (Fixture.id2 +:+ ".pdf");
              Intake.accepted_file_name := Some "report.PDF";
              Intake.accepted_file_size := 4;
              Intake.accepted_file_hash := "9f86d081";
              Intake.accepted_status := "accepted" |}
           Desk.empty).
  vm_compute; reflexivity.
Defined.

(** X22. A file that is not accepted leaves no row: when
    [process_single_file] raises, the tables and the queue are as before,
    and the object store is as before or holds the upload under
    [<id>.pdf] - nothing removes an object that was stored before the
    failure. What is raised is an [HTTPException] or a
    [FileProcessingError], whatever failed inside. *)
Theorem refused_upload_adds_no_row
    (ext : Externals) (cfg : Settings) (out : Intake.Outside)
    (f : Intake.UploadFile) (e : exn) (m : Machine) :
  let r := Intake.process_single_file ext cfg out f m in
  let key := Intake.new_doc_id out +:+ ".pdf" in
  outcome r = inl e ->
  raw_documents (final r) = raw_documents m
  /\ raw_chunks (final r) = raw_chunks m
  /\ redis_queue (final r) = redis_queue m
  /\ (s3_objects (final r) = s3_objects m
      \/ s3_objects (final r)
         = <[(S3_BUCKET cfg, key) := Intake.content f]> (s3_objects m))
  /\ (Intake.exn_class e = "HTTPException"
      \/ Intake.exn_class e = "FileProcessingError").
Proof.
  intros r key Hraised.
  destruct (process_single_file_cases ext cfg out f m) as [_ Hcases].
  fold r in Hcases. rewrite Hraised in Hcases.
  destruct Hcases as [[-> | ->] Hclass]; repeat split; auto.
Qed.

Lemma refused_upload_adds_no_row_witness :
  let r :=
    Intake.process_single_file (Fixture.readable "c-1") settings
      (Desk.outside Fixture.id2 (inr 1700000100)) Desk.picture Desk.empty in
  let e :=
    Intake.HTTPException "400"
      "File type .png not allowed. Allowed types: .pdf" in
  outcome r = inl e
  /\ raw_documents (final r) = raw_documents Desk.empty
  /\ raw_chunks (final r) = raw_chunks Desk.empty
  /\ redis_queue (final r) = redis_queue Desk.empty
  /\ (s3_objects (final r) = s3_objects Desk.empty
      \/ s3_objects (final r)
         = <[(S3_BUCKET settings, Fixture.id2 +:+ ".pdf") :=
               Intake.content Desk.picture]> (s3_objects Desk.empty))
  /\ (Intake.exn_class e = "HTTPException"
      \/ Intake.exn_class e = "FileProcessingError").
Proof.
  split; [vm_compute; reflexivity|].
  apply (refused_upload_adds_no_row (Fixture.readable "c-1") settings
           (Desk.outside Fixture.id2 (inr 1700000100)) Desk.picture
           (Intake.HTTPException "400"
              "File type .png not allowed. Allowed types: .pdf")
           Desk.empty).
  vm_compute; reflexivity.
Defined.

(** X23. An object without a row. When the upload is stored and
    [head_object] then raises a [ClientError], [process_single_file] raises
    [FileProcessingError] with the text of that error after
    [S3 upload failed: ]; the upload stays in the bucket under [<id>.pdf]
    and no row is written for it. *)
Theorem head_failure_leaves_object
    (ext : Externals) (cfg : Settings) (out : Intake.Outside)
    (f : Intake.UploadFile) (e : exn) (m : Machine) :
  outcome (Intake.validate_file out f m) = inr tt ->
  Intake.save_fault out = None ->
  Intake.hash_fault out = None ->
  Intake.upload_file_fault out = None ->
  Intake.head_object out = inl e ->
  Intake.isinstance "ClientError" e = true ->
  let r := Intake.process_single_file ext cfg out f m in
  let key := Intake.new_doc_id out +:+ ".pdf" in
  outcome r
  = inl (Intake.FileProcessingError ("S3 upload failed: " +:+ str_exn e))
  /\ s3_objects (final r) !! (S3_BUCKET cfg, key) = Some (Intake.content f)
  /\ raw_documents (final r) = raw_documents m.
Proof.
  intros Hval Hsave Hhash Hup Hhead Hclient. cbv zeta.
  unfold Intake.validate_file, outcome, raise, ret in Hval.
  intake_unfold.
  destruct (negb (PyStr.truthy _)); [done|].
  destruct (negb (bool_decide _)) eqn:Hext; [done|].
  apply negb_false_iff, allowed_extension in Hext.
  destruct (Intake.size f) as [n|];
    [destruct (negb (n =? 0) && (Intake.MAX_FILE_SIZE <? n)); [done|]|].
  all: rewrite save_uploaded_file_run, Hsave; cbn -[String.append].
  all: rewrite compute_sha256_async_run, Hhash; cbn -[String.append].
  all: rewrite Hext, Hup, Hhead; cbn -[String.append].
  all: rewrite Hclient; cbn -[String.append].
  all: unfold final, outcome; cbn -[String.append].
  all: by rewrite lookup_insert_eq.
Qed.

Lemma head_failure_leaves_object_witness :
  let r :=
    Intake.process_single_file (Fixture.readable "c-1") settings
      (Desk.outside Fixture.id2 (inl Desk.throttled)) Desk.report
      Desk.empty in
  outcome r
  = inl (Intake.FileProcessingError
           ("S3 upload failed: " +:+ str_exn Desk.throttled))
  /\ s3_objects (final r) !! (S3_BUCKET settings, Fixture.id2 +:+ ".pdf")
     = Some (Intake.content Desk.report)
  /\ raw_documents (final r) = raw_documents Desk.empty.
Proof.
  apply (head_failure_leaves_object (Fixture.readable "c-1") settings
           (Desk.outside Fixture.id2 (inl Desk.throttled)) Desk.report
           Desk.throttled Desk.empty);
    reflexivity.
Defined.

(** X24. What passes [validate_file]. A file passes exactly when it has a
    name that is not empty, the lowered suffix of the name is [.pdf], and
    its size is unknown or at most [MAX_FILE_SIZE]; the machine is left as
    it is either way. A file that passes has the type pdf under
    [determine_file_type]: the types image and unknown are given to no
    accepted file. *)
Theorem validate_file_passes
    (out : Intake.Outside) (f : Intake.UploadFile) (m : Machine) :
  final (Intake.validate_file out f m) = m
  /\ (outcome (Intake.validate_file out f m) = inr tt
      <-> (exists name,
             Intake.filename f = Some name
             /\ name <> EmptyString
             /\ Intake.suffix_lower out name = ".pdf")
          /\ match Intake.size f with
             | Some n => n <= Intake.MAX_FILE_SIZE
             | None => True
             end)
  /\ (outcome (Intake.validate_file out f m) = inr tt ->
      Intake.determine_file_type out (or_empty (Intake.filename f)) = "pdf").
Proof.
  unfold Intake.validate_file, Intake.determine_file_type, final, outcome,
    raise, ret.
  destruct (Intake.filename f) as [[|c name]|]; cbn -[String.append].
  1, 3: repeat split; try done; intros [(? & ? & ? & ?) _]; by simplify_eq.
  destruct (bool_decide _) eqn:Hext; cbn -[String.append].
  - apply allowed_extension in Hext. rewrite Hext.
    destruct (Intake.size f) as [n|]; cbn -[String.append].
    + destruct (n =? 0) eqn:Hn; cbn -[String.append];
        [apply Z.eqb_eq in Hn|apply Z.eqb_neq in Hn].
      * repeat split; try done; [by eexists|unfold Intake.MAX_FILE_SIZE; lia].
      * destruct (Intake.MAX_FILE_SIZE <? n) eqn:Hmax;
          [apply Z.ltb_lt in Hmax|apply Z.ltb_ge in Hmax].
        -- repeat split; try done. intros [_ ?]. lia.
        -- repeat split; try done. by eexists.
    + repeat split; try done. by eexists.
  - apply bool_decide_eq_false in Hext. repeat split; try done.
    intros [(? & [= <-] & _ & Hs) _]. exfalso. apply Hext. rewrite Hs.
    unfold Intake.ALLOWED_EXTENSIONS. by apply list_elem_of_singleton.
Qed.

(** ** Intake and the first job *)

Lemma intake_uri_split bucket key :
  contains_char "/" bucket = false ->
  contains_char ":" bucket = false ->
  contains_char ":" key = false ->
  PyStr.split_once "/" (PyStr.remove_all "s3://" (intake_source_uri bucket key))
  = (bucket, Some key).
Proof.
  intros Hslash Hb Hk. unfold intake_source_uri.
  rewrite remove_all_scheme, remove_all_no_colon.
  - change (bucket +:+ "/" +:+ key) with (bucket +:+ String "/" key).
    by rewrite split_once_at_first.
  - by rewrite !contains_char_app, Hb, Hk.
Qed.

Lemma is_hex_no_colon c : Uuid.is_hex c = true -> Ascii.eqb c ":" = false.
Proof. by destruct c as [[] [] [] [] [] [] [] []]. Qed.

Lemma hex_run_no_colon n : forall s s',
  Uuid.hex_run n s = Some s' ->
  contains_char ":" s = contains_char ":" s'.
Proof.
  induction n as [|n IH]; intros s s'; cbn [Uuid.hex_run].
  - by intros [= ->].
  - destruct s as [|c s]; [done|].
    destruct (Uuid.is_hex c) eqn:Hc; [|done].
    intros Hrun. cbn [contains_char].
    rewrite (is_hex_no_colon c Hc). by apply IH.
Qed.

Lemma groups_no_colon sizes : forall s,
  Uuid.groups sizes s = true -> contains_char ":" s = false.
Proof.
  induction sizes as [|n [|n' sizes] IH]; intros s; cbn [Uuid.groups].
  - done.
  - destruct (Uuid.hex_run n s) as [[|c s']|] eqn:Hrun; try done.
    intros _. by rewrite (hex_run_no_colon n s "" Hrun).
  - destruct (Uuid.hex_run n s) as [[|c s']|] eqn:Hrun; try done.
    destruct (Ascii.eqb c "-") eqn:Hc.
    + apply Ascii.eqb_eq in Hc as ->. intros Hrest.
      rewrite (hex_run_no_colon n s _ Hrun). cbn [contains_char].
      by rewrite (IH s' Hrest).
    + intros H. exfalso. revert H.
      destruct c as [[] [] [] [] [] [] [] []]; try done.
Qed.

Lemma canonical_no_colon s :
  Uuid.canonical s = true -> contains_char ":" s = false.
Proof. apply groups_no_colon. Qed.

Lemma decide_quarantine_ge text retry_count max_retries :
  RetryPolicy.decide text retry_count max_retries = RetryPolicy.Quarantine ->
  max_retries <= retry_count + 1.
Proof.
  unfold RetryPolicy.decide. destruct (_ || _); [|done].
  destruct (retry_count + 1 <? max_retries) eqn:Hlt; [done|].
  intros _. by apply Z.ltb_ge.
Qed.

(** X25. Intake and the first job fit together. Let the worker read the
    table intake wrote, and let the store it reaches hold the upload under
    the key intake used. The job of an accepted upload then finds its one
    row, reads that object (the key [<id>.pdf] is both the key of the
    locator and the quarantine key) and recomputes the hash intake stored:
    the integrity check passes and the run goes on to classify the pdf.
    With more than one try allowed it copies nothing into quarantine. As
    long as the database stores what the run writes, the job returns and
    the row ends pending with one retry counted, or in success, or - when
    the success counter raised - failed with that error's text. *)
Theorem accepted_upload_passes_integrity
    (ext ext' : Externals) (cfg : Settings) (out : Intake.Outside)
    (f : Intake.UploadFile) (accepted : Intake.Accepted)
    (payload : gmap string string) (m mw : Machine) :
  let id := Intake.new_doc_id out in
  let key := id +:+ ".pdf" in
  let intake := Intake.process_single_file ext cfg out f m in
  outcome intake = inr accepted ->
  raw_documents mw = raw_documents (final intake) ->
  s3_objects mw !! (S3_BUCKET cfg, key) = Some (Intake.content f) ->
  recompute_sha256 ext' (Intake.content f)
  = recompute_sha256 ext (Intake.content f) ->
  get_object_fault ext' = None ->
  contains_char "/" (S3_BUCKET cfg) = false ->
  contains_char ":" (S3_BUCKET cfg) = false ->
  Uuid.canonical id = true ->
  payload !! "doc_id" = Some id ->
  1 < MAX_RETRIES cfg ->
  storable id mw (process_document ext' cfg payload mw) ->
  let r := process_document ext' cfg payload mw in
  (exists rest,
     events r = S3GetObject (S3_BUCKET cfg) key :: CallPdfplumber :: rest)
  /\ List.filter is_copy (events r) = []
  /\ s3_objects (final r) = s3_objects mw
  /\ outcome r = inr tt
  /\ exists row',
       rows_of id (final r) = [row']
       /\ ((parse_status row' = "pending" /\ retry_count row' = 1)
           \/ parse_status row' = "success"
           \/ (parse_status row' = "failed"
               /\ exists label e,
                    metrics_labels ext' label = Some e
                    /\ error_message row' = Some (str_exn e))).
Proof.
  intros id key intake Hacc Hdocs Hobj Hsha Hget Hslash Hb Hid%canonical_no_colon
    Hpayload Hmax _.
  destruct (process_single_file_cases ext cfg out f m) as [_ Hcases].
  fold intake in Hcases. rewrite Hacc in Hcases.
  destruct Hcases as (lm & row & Hhead & Hrow & Hfinal & Hnew & _).
  fold id key in Hrow, Hfinal, Hnew. rewrite Hfinal in Hdocs.
  cbn [raw_documents set_raw_documents] in Hdocs.
  clear Hfinal Hacc intake.
  assert (contains_char ":" key = false) as Hkey.
  { unfold key. by rewrite contains_char_app, Hid. }
  pose proof (intake_uri_split _ _ Hslash Hb Hkey) as Hsplit.
  apply rows_of_fresh in Hnew. unfold rows_of in Hnew.
  assert (doc_id row = id) as Hd by by rewrite Hrow.
  rewrite (process_document_with_id _ _ _ _ Hpayload). cbv zeta.
  unfold rows_of. py_prims. py_cbn. rewrite !Hdocs.
  rewrite !filter_app, Hnew, filter_cons_True, filter_nil by done.
  cbn [app]. py_helpers.
  unfold download_events, download_result.
  replace (source_uri row) with (intake_source_uri (S3_BUCKET cfg) key)
    by by rewrite Hrow.
  rewrite Hsplit, Hget, Hobj. py_cbn.
  replace (file_hash row) with (recompute_sha256 ext (Intake.content f))
    by by rewrite Hrow.
  rewrite Hsha, String.eqb_refl.
  replace (file_type row) with "pdf" by by rewrite Hrow.
  cbn [negb String.eqb Ascii.eqb Bool.eqb].
  repeat (py_helpers; py_cbn; py_split).
  all: try match goal with
           | H : (_ =? _)%string = _ |- _ => by vm_compute in H
           end.
  all: try match goal with
           | H : RetryPolicy.decide _ _ _ = RetryPolicy.Quarantine |- _ =>
               apply decide_quarantine_ge in H; rewrite Hrow in H;
               cbn [retry_count set_file_type] in H; lia
           end.
  all: unfold final, events, outcome; py_cbn.
  all: rewrite ?Hd, ?update_where_fuse by done.
  all: rewrite filter_update_where by done.
  all: rewrite ?Hdocs.
  all: rewrite filter_app, Hnew, filter_cons_True, filter_nil by done.
  all: cbn [app map].
  all: split; [by eexists|].
  all: split;
    [cbn [List.filter is_copy];
     rewrite ?List.filter_app, ?filter_text_chain, ?filter_ocr_chain by done;
     done|].
  all: split; [done|]. all: split; [done|].
  all: eexists; split; [reflexivity|]; rewrite Hrow; py_cbn.
  all: first [ by left | by right; left | right; right; by eauto ].
Qed.

Lemma accepted_upload_passes_integrity_witness :
  let ext := Fixture.readable Fixture.cid1 in
  let out := Desk.outside Fixture.id2 (inr 1700000100) in
  let intake :=
    Intake.process_single_file ext settings out Desk.report Desk.empty in
  let key := Fixture.id2 +:+ ".pdf" in
  let r :=
    process_document ext settings {[ "doc_id" := Fixture.id2 ]}
      (final intake) in
  (exists rest,
     events r = S3GetObject "app-uploads" key :: CallPdfplumber :: rest)
  /\ List.filter is_copy (events r) = []
  /\ s3_objects (final r) = s3_objects (final intake)
  /\ outcome r = inr tt
  /\ exists row',
       rows_of Fixture.id2 (final r) = [row']
       /\ ((parse_status row' = "pending" /\ retry_count row' = 1)
           \/ parse_status row' = "success"
           \/ (parse_status row' = "failed"
               /\ exists label e,
                    metrics_labels ext label = Some e
                    /\ error_message row' = Some (str_exn e))).
Proof.
  apply (accepted_upload_passes_integrity (Fixture.readable Fixture.cid1)
           (Fixture.readable Fixture.cid1) settings
           (Desk.outside Fixture.id2 (inr 1700000100)) Desk.report
           {| Intake.accepted_doc_id := Fixture.id2;
              Intake.accepted_source_uri :=
                intake_source_uri "app-uploads" (Fixture.id2 +:+ ".pdf");
              Intake.accepted_file_name := Some "report.PDF";
              Intake.accepted_file_size := 4;
              Intake.accepted_file_hash := "9f86d081";
              Intake.accepted_status := "accepted" |}
           {[ "doc_id" := Fixture.id2 ]} Desk.empty);
    [vm_compute; reflexivity..|storable_here].
Defined.

(** ** A batch of uploads *)

Lemma isinstance_other cls cls' e :
  Intake.exn_class e = cls' -> cls' <> cls -> Intake.isinstance cls e = false.
Proof.
  intros <- Hne. unfold Intake.isinstance. by apply String.eqb_neq.
Qed.

Lemma isinstance_same cls e :
  Intake.exn_class e = cls -> Intake.isinstance cls e = true.
Proof. intros <-. unfold Intake.isinstance. apply String.eqb_refl. Qed.

(** The loop over the files of a request, from any index and any lists. *)
Lemma ingest_loop_run ext cfg outs uploads : forall i responses errs m,
  let r := Intake.ingest_loop ext cfg outs i uploads responses errs m in
  events r = []
  /\ raw_chunks (final r) = raw_chunks m
  /\ redis_queue (final r) = redis_queue m
  /\ exists rows,
       raw_documents (final r) = raw_documents m ++ rows
       /\ match outcome r with
          | inr (responses', errs') =>
              exists accepted refused,
                responses' = responses ++ accepted
                /\ errs' = errs ++ refused
                /\ (length accepted + length refused = length uploads)%nat
                /\ map doc_id rows = map Intake.accepted_doc_id accepted
                /\ Forall (fun info => Intake.error_status_code info = 500)
                     refused
          | inl e =>
              Intake.exn_class e = "FileProcessingError"
              /\ (length rows < length uploads)%nat
          end.
Proof.
  induction uploads as [|f uploads IH]; intros i responses errs m.
  { cbn. repeat split. exists []. rewrite app_nil_r. split; [done|].
    exists [], []. by rewrite !app_nil_r. }
  cbv zeta. cbn [Intake.ingest_loop].
  unfold Intake.try_except_as, try_except, bind, ret, raise.
  pose proof (process_single_file_cases ext cfg (outs i) f m) as [Hev Hcases].
  cbv zeta in Hcases.
  destruct (Intake.process_single_file ext cfg (outs i) f m)
    as [[m1 ev1] [e|accepted]].
  - unfold final, events, outcome in Hev, Hcases. cbn [fst snd] in Hev, Hcases.
    subst ev1. destruct Hcases as [Hm1 [Hclass|Hclass]].
    + rewrite (isinstance_same _ _ Hclass).
      specialize (IH (S i) responses
                    (errs ++ [{| Intake.file_index := i;
                                 Intake.error_filename := Intake.filename f;
                                 Intake.error :=
                                   "Unexpected error: " +:+ str_exn e;
                                 Intake.error_status_code := 500 |}]) m1).
      cbv zeta in IH.
      destruct (Intake.ingest_loop _ _ _ _ _ _ _ m1) as [[m2 ev2] res].
      unfold final, events, outcome in *. cbn [fst snd app] in *.
      destruct IH as (-> & Hchunks & Hqueue & rows & Hrows & Hres).
      assert (raw_documents m1 = raw_documents m /\ raw_chunks m1 = raw_chunks m
              /\ redis_queue m1 = redis_queue m) as (Hd1 & Hc1 & Hq1)
        by by destruct Hm1 as [->| ->].
      rewrite Hchunks, Hqueue, Hrows, Hd1, Hc1, Hq1.
      repeat split. exists rows. split; [done|].
      destruct res as [e'|[responses' errs']].
      * destruct Hres as [? ?]. split; [done|]. cbn [length]. lia.
      * destruct Hres as (accepted & refused & -> & -> & Hlen & Hids & Hall).
        eexists accepted, (_ :: refused). rewrite <- app_assoc.
        repeat split; try done; [cbn [length]; lia|by constructor].
    + rewrite (isinstance_other _ _ _ Hclass) by done.
      unfold final, events, outcome. cbn [fst snd app].
      assert (raw_documents m1 = raw_documents m /\ raw_chunks m1 = raw_chunks m
              /\ redis_queue m1 = redis_queue m) as (Hd1 & Hc1 & Hq1)
        by by destruct Hm1 as [->| ->].
      repeat split; try done. exists []. rewrite app_nil_r.
      repeat split; try done. cbn [length]. lia.
  - unfold final, events, outcome in Hev, Hcases. cbn [fst snd] in Hev, Hcases.
    subst ev1.
    destruct Hcases as (lm & row & _ & _ & Hm1 & _ & Hanswer).
    specialize (IH (S i) (responses ++ [accepted]) errs m1). cbv zeta in IH.
    destruct (Intake.ingest_loop _ _ _ _ _ _ _ m1) as [[m2 ev2] res].
    unfold final, events, outcome in *. cbn [fst snd app] in *.
    destruct IH as (-> & Hchunks & Hqueue & rows & Hrows & Hres).
    rewrite Hchunks, Hqueue, Hrows, Hm1. py_cbn.
    repeat split. exists (row :: rows). rewrite <- app_assoc.
    split; [done|].
    destruct res as [e'|[responses' errs']].
    + destruct Hres as [? ?]. split; [done|]. cbn [length]. lia.
    + destruct Hres as (accepted' & refused & -> & -> & Hlen & Hids & Hall).
      exists (accepted :: accepted'), refused. rewrite <- app_assoc.
      repeat split; try done; [cbn [length]; lia|].
      cbn [map]. rewrite Hids. f_equal. by rewrite Hanswer.
Qed.

(** X26. The limits of a request. Without a file, or with more than ten,
    [ingest_files] raises an [HTTPException] with status 400 before it looks
    at any file: nothing is stored and nothing is written. *)
Theorem batch_limits
    (ext : Externals) (cfg : Settings) (outs : nat -> Intake.Outside)
    (uploads : list Intake.UploadFile) (m : Machine) :
  uploads = [] \/ (10 < length uploads)%nat ->
  exists detail,
    Intake.ingest_files ext cfg outs uploads m
    = (m, [], inl (Intake.HTTPException "400" detail)).
Proof.
  intros [-> | Hmany]; [by eexists|].
  unfold Intake.ingest_files. destruct uploads as [|f uploads]; [by eexists|].
  apply Nat.ltb_lt in Hmany. rewrite Hmany. by eexists.
Qed.

Lemma batch_limits_witness :
  exists detail,
    Intake.ingest_files (Fixture.readable "c-1") settings
      (fun _ => Desk.outside Fixture.id2 (inr 1700000100))
      (replicate 11 Desk.report) Desk.empty
    = (Desk.empty, [], inl (Intake.HTTPException "400" detail)).
Proof.
  apply (batch_limits (Fixture.readable "c-1") settings
           (fun _ => Desk.outside Fixture.id2 (inr 1700000100))
           (replicate 11 Desk.report) Desk.empty).
  right. vm_compute. lia.
Defined.

(** X27. The account of a request. When [ingest_files] answers, the request
    had between one and ten files and every file is counted once, as
    processed or as failed; the rows added are those of the processed files,
    in order, and nothing else of the tables changes. The status is 202 as
    soon as one file was processed and 400 when none was. Every entry of
    [errors] carries the status code 500, whatever the file was refused
    for, and the key is absent exactly when no file failed. *)
Theorem batch_account
    (ext : Externals) (cfg : Settings) (outs : nat -> Intake.Outside)
    (uploads : list Intake.UploadFile) (answer : Intake.JSONResponse)
    (m : Machine) :
  let r := Intake.ingest_files ext cfg outs uploads m in
  outcome r = inr answer ->
  (1 <= length uploads <= 10)%nat
  /\ (Intake.processed_files answer + Intake.failed_files answer
      = length uploads)%nat
  /\ Intake.processed_files answer = length (Intake.files answer)
  /\ Intake.status_code answer
     = (if (Intake.processed_files answer =? 0)%nat then 400 else 202)
  /\ match Intake.errors answer with
     | None => Intake.failed_files answer = 0%nat
     | Some errs =>
         length errs = Intake.failed_files answer
         /\ errs <> []
         /\ Forall (fun info => Intake.error_status_code info = 500) errs
     end
  /\ (exists rows,
        raw_documents (final r) = raw_documents m ++ rows
        /\ map doc_id rows
           = map Intake.accepted_doc_id (Intake.files answer))
  /\ raw_chunks (final r) = raw_chunks m
  /\ redis_queue (final r) = redis_queue m.
Proof.
  cbv zeta. unfold Intake.ingest_files.
  destruct uploads as [|f uploads]; [done|].
  destruct (10 <? length (f :: uploads))%nat eqn:Hmany; [done|].
  apply Nat.ltb_ge in Hmany.
  unfold Intake.get_db_session, Intake.try_except_as, try_except, bind, ret,
    raise.
  pose proof (ingest_loop_run ext cfg outs (f :: uploads) 0 [] [] m) as Hloop.
  cbv zeta in Hloop.
  destruct (Intake.ingest_loop _ _ _ _ _ _ _ m) as [[m1 ev1] [e|[responses errs]]].
  { unfold final, events, outcome in *. cbn [fst snd] in *.
    destruct Hloop as (_ & _ & _ & rows & _ & Hclass & _).
    by rewrite (isinstance_other _ _ _ Hclass). }
  unfold final, events, outcome in *. cbn [fst snd] in *.
  destruct Hloop as (_ & Hchunks & Hqueue & rows & Hrows & Hres).
  destruct Hres as (accepted & refused & -> & -> & Hlen & Hids & Hall).
  cbn [app] in *. intros [= <-]. cbn [Intake.processed_files
    Intake.failed_files Intake.files Intake.status_code Intake.errors].
  repeat split; try done.
  - cbn [length]. lia.
  - by destruct accepted.
  - by destruct refused.
  - by exists rows.
Qed.

Lemma batch_account_witness :
  let r :=
    Intake.ingest_files (Fixture.readable "c-1") settings
      (Desk.clerks (inr 1700000200)) [Desk.report; Desk.picture] Desk.empty in
  let answer :=
    {| Intake.status_code := 202;
       Intake.processed_files := 1;
       Intake.failed_files := 1;
       Intake.files :=
         [{| Intake.accepted_doc_id := Fixture.id2;
             Intake.accepted_source_uri :=
               intake_source_uri "app-uploads" (Fixture.id2 +:+ ".pdf");
             Intake.accepted_file_name := Some "report.PDF";
             Intake.accepted_file_size := 4;
             Intake.accepted_file_hash := "9f86d081";
             Intake.accepted_status := "accepted" |}];
       Intake.errors :=
         Some [{| Intake.file_index := 1;
                  Intake.error_filename := Some "scan.png";
                  Intake.error :=
                    "Unexpected error: 400: File type .png not allowed. Allowed types: .pdf";
                  Intake.error_status_code := 500 |}] |} in
  outcome r = inr answer
  /\ (1 <= length [Desk.report; Desk.picture] <= 10)%nat
  /\ (Intake.processed_files answer + Intake.failed_files answer
      = length [Desk.report; Desk.picture])%nat
  /\ Intake.processed_files answer = length (Intake.files answer)
  /\ Intake.status_code answer
     = (if (Intake.processed_files answer =? 0)%nat then 400 else 202)
  /\ match Intake.errors answer with
     | None => Intake.failed_files answer = 0%nat
     | Some errs =>
         length errs = Intake.failed_files answer
         /\ errs <> []
         /\ Forall (fun info => Intake.error_status_code info = 500) errs
     end
  /\ (exists rows,
        raw_documents (final r) = raw_documents Desk.empty ++ rows
        /\ map doc_id rows
           = map Intake.accepted_doc_id (Intake.files answer))
  /\ raw_chunks (final r) = raw_chunks Desk.empty
  /\ redis_queue (final r) = redis_queue Desk.empty.
Proof.
  split; [vm_compute; reflexivity|].
  apply (batch_account (Fixture.readable "c-1") settings
           (Desk.clerks (inr 1700000200)) [Desk.report; Desk.picture]).
  vm_compute; reflexivity.
Defined.



(** X29. Intake and the scheduler fit together. With fewer than
    [BATCH_SIZE] documents pending before it and Redis without fault, the
    run of [enqueue_pending] that follows an accepted upload publishes the
    job of the upload together with the jobs of those documents, in
    whatever order the scan yields them. The payload carries the id, the
    locator and the hash that intake answered with, and the type pdf. *)
Theorem accepted_upload_is_published
    (ext ext' : Externals) (cfg : Settings) (out : Intake.Outside)
    (f : Intake.UploadFile) (accepted : Intake.Accepted) (m : Machine) :
  let intake := Intake.process_single_file ext cfg out f m in
  let waiting :=
    filter (fun doc => parse_status doc = "pending") (raw_documents m) in
  outcome intake = inr accepted ->
  (length waiting < BATCH_SIZE)%nat ->
  (forall j, rpush_fault ext' j = None) ->
  let r := enqueue_pending ext' (final intake) in
  exists payload published,
    redis_queue (final r) = redis_queue m ++ published
    /\ published ≡ₚ payload :: map job_payload waiting
    /\ payload !! "doc_id" = Some (Intake.accepted_doc_id accepted)
    /\ payload !! "source_uri" = Some (Intake.accepted_source_uri accepted)
    /\ payload !! "file_type" = Some "pdf"
    /\ payload !! "file_hash" = Some (Intake.accepted_file_hash accepted).
Proof.
  intros intake waiting Hacc Hlen Hok.
  destruct (process_single_file_cases ext cfg out f m) as [_ Hcases].
  fold intake in Hcases. rewrite Hacc in Hcases.
  destruct Hcases as (lm & row & Hhead & Hrow & Hfinal & Hnew & Hanswer).
  rewrite Hfinal. cbv zeta.
  destruct (enqueue_pending_run ext'
              (set_raw_documents (raw_documents m ++ [row])
                 (set_s3_objects
                    (<[(S3_BUCKET cfg, Intake.new_doc_id out +:+ ".pdf") :=
                         Intake.content f]> (s3_objects m)) m)))
    as (_ & _ & _ & published & _ & Hq & Hall).
  rewrite (Hall Hok) in Hq. clear Hall published.
  unfold select_pending in Hq.
  cbn [raw_documents redis_queue set_raw_documents set_s3_objects] in Hq.
  assert (parse_status row = "pending") as Hst by by rewrite Hrow.
  rewrite filter_app, filter_cons_True, filter_nil in Hq by done.
  rewrite take_ge, map_app in Hq
    by (rewrite length_app; fold waiting; cbn [length]; lia).
  exists (job_payload row), (map job_payload waiting ++ [job_payload row]).
  rewrite Hanswer.
  cbn [Intake.accepted_doc_id Intake.accepted_source_uri
       Intake.accepted_file_hash].
  split; [exact Hq|]. split.
  { cbn [map]. by rewrite Permutation_app_comm. }
  unfold job_payload. rewrite Hrow. py_cbn.
  repeat split; by simplify_map_eq.
Qed.

Lemma accepted_upload_is_published_witness :
  let ext := Fixture.readable Fixture.cid1 in
  let intake :=
    Intake.process_single_file ext settings
      (Desk.outside Fixture.id2 (inr 1700000100)) Desk.report
      (Fixture.machine Sample.waiting) in
  let r := enqueue_pending ext (final intake) in
  exists payload published,
    redis_queue (final r)
    = redis_queue (Fixture.machine Sample.waiting) ++ published
    /\ published
       ≡ₚ payload
          :: map job_payload
               (filter (fun doc => parse_status doc = "pending")
                  (raw_documents (Fixture.machine Sample.waiting)))
    /\ payload !! "doc_id" = Some Fixture.id2
    /\ payload !! "source_uri"
       = Some (intake_source_uri "app-uploads" (Fixture.id2 +:+ ".pdf"))
    /\ payload !! "file_type" = Some "pdf"
    /\ payload !! "file_hash" = Some "9f86d081".
Proof.
  apply (accepted_upload_is_published (Fixture.readable Fixture.cid1)
           (Fixture.readable Fixture.cid1) settings
           (Desk.outside Fixture.id2 (inr 1700000100)) Desk.report
           {| Intake.accepted_doc_id := Fixture.id2;
              Intake.accepted_source_uri :=
                intake_source_uri "app-uploads" (Fixture.id2 +:+ ".pdf");
              Intake.accepted_file_name := Some "report.PDF";
              Intake.accepted_file_size := 4;
              Intake.accepted_file_hash := "9f86d081";
              Intake.accepted_status := "accepted" |}
           (Fixture.machine Sample.waiting)).
  - vm_compute; reflexivity.
  - vm_compute. lia.
  - intros j. reflexivity.
Defined.
